(** * Crypto-Arbitrage: the aggregation repository, the ingestion pump and
      the symbol standardizer of [exchange_data_repository.py]

    A shallow embedding of [ExchangeDataRepository] and of one cycle of
    [update_repository_from_websocket], with the properties of the
    specification that concern them; then the message handlers of the
    five adapters ([bybit_spots.py], [kraken_spots.py], [huobi_spots.py],
    [okx_spots.py], [bitfinex_spots.py]) and the row allocation of the
    spreadsheet ([main_ui.py]), with the way a message reaches the
    repository and the rows the spreadsheet hands out.

    - Python floats are the kernel's binary64 floats ([PrimFloat]); their
      comparisons are Python's ([nan] compares unequal to everything).
    - Python dicts are objects of a store, named by their location: two
      names of one dict see each other's writes.  A ticker dict has a
      ['symbol'] entry holding a [str] and further entries holding [None]
      or a float (every adapter builds them with [float(...)]).  A dict
      that maps exchange ids (or symbols) to dicts keeps its insertion
      order, as Python's [dict] does.
    - The clock reading [datetime.now().timestamp()] is an argument [now].
    - A registered callback is known by its identity, and calling it is
      recorded in the state; what the callback itself does is outside
      the model.
    - Exceptions are results: [Raise e] where the code raises [e].
    - The reentrant lock is not modelled: every method runs to its end on
      the state it is given.
    - [str] values are ASCII strings: [upper] raises the letters a-z and
      leaves every other character, as [str.upper] does on an ASCII
      string.  Python's case mapping of other characters is not
      modelled; every symbol the program itself writes is ASCII. *)

From Stdlib Require Import ZArith Floats Ascii String Lia Sorted Permutation.
From stdpp Require Import gmap strings list fin_maps.

Set Warnings "-inexact-float".

(** ** Python values *)

Module Py.

(** Exceptions the modelled code raises. *)
Inductive exn : Type :=
| ValueError          (* unpacking a list of the wrong length *)
| TypeError           (* float(None) *)
| ZeroDivisionError.  (* x / 0.0 *)

Inductive result (A : Type) : Type :=
| Ok (a : A)
| Raise (e : exn).
Arguments Ok {A} a.
Arguments Raise {A} e.

Definition bind {A B : Type} (r : result A) (k : A -> result B) : result B :=
  match r with
  | Ok a => k a
  | Raise e => Raise e
  end.

(** [for x in l: body], on the variables [s] the body assigns. *)
Fixpoint for_each {A S : Type} (l : list A) (body : A -> S -> result S)
    (s : S) : result S :=
  match l with
  | [] => Ok s
  | x :: l' =>
      match body x s with
      | Ok s' => for_each l' body s'
      | Raise e => Raise e
      end
  end.

(** *** Floats *)

(** [x == 0] where [x] is a float. *)
Definition is_zero (x : float) : bool := (x =? 0)%float.

(** [a / b]: Python raises where IEEE 754 returns an infinity or [nan]. *)
Definition fdiv (a b : float) : result float :=
  if is_zero b then Raise ZeroDivisionError else Ok (a / b)%float.

(** [a >= b]. *)
Definition fge (a b : float) : bool := (b <=? a)%float.

(** A value that is [None] or a float. *)
Abbreviation num := (option float) (only parsing).

(** [a != b] on values that are [None] or floats. *)
Definition ne (a b : num) : bool :=
  match a, b with
  | None, None => false
  | Some x, Some y => negb (x =? y)%float
  | _, _ => true
  end.

(** [v is None or v == 0]; also [v in [0, None]]. *)
Definition none_or_zero (v : num) : bool :=
  match v with
  | None => true
  | Some x => is_zero x
  end.

(** *** Strings *)

(** [c.upper()] for an ASCII character: the letters a-z are raised, every
    other character is left (for a character that is not ASCII, Python
    applies the Unicode case mapping, which is not modelled). *)
Definition upper_char (c : ascii) : ascii :=
  let n := nat_of_ascii c in
  if (97 <=? n)%nat && (n <=? 122)%nat then ascii_of_nat (n - 32) else c.

(** [s.upper()] for an ASCII string [s]. *)
Fixpoint upper (s : string) : string :=
  match s with
  | EmptyString => EmptyString
  | String c s' => String (upper_char c) (upper s')
  end.

(** [needle in s] for strings. *)
Fixpoint contains (needle s : string) : bool :=
  String.prefix needle s
  || match s with
     | EmptyString => false
     | String _ s' => contains needle s'
     end.

(** [s.split(sep)] for a one-character separator. *)
Fixpoint split (sep : ascii) (s : string) : list string :=
  match s with
  | EmptyString => [EmptyString]
  | String c s' =>
      if Ascii.eqb c sep then EmptyString :: split sep s'
      else match split sep s' with
           | h :: t => String c h :: t
           | [] => [String c EmptyString]
           end
  end.

(** [bool(s)] for [s] a [str] or [None]. *)
Definition truthy (s : option string) : bool :=
  match s with
  | None => false
  | Some EmptyString => false
  | Some _ => true
  end.

(** *** Dicts that keep insertion order *)

Section odict.
Context {V : Type}.

(** [d.get(k)] *)
Fixpoint od_get (k : string) (d : list (string * V)) : option V :=
  match d with
  | [] => None
  | (k', v) :: d' => if String.eqb k k' then Some v else od_get k d'
  end.

(** [d[k] = v]: an existing key keeps its place, a new key goes last. *)
Fixpoint od_set (k : string) (v : V) (d : list (string * V)) : list (string * V) :=
  match d with
  | [] => [(k, v)]
  | (k', v') :: d' =>
      if String.eqb k k' then (k, v) :: d' else (k', v') :: od_set k v d'
  end.

(** [list(d.keys())] *)
Definition od_keys (d : list (string * V)) : list string := map fst d.

End odict.

End Py.

Import Py.

Notation "x <- r ;; k" := (bind r (fun x => k))
  (at level 100, r at next level, right associativity).

(** ** The symbol standardizer *)

(** [ExchangeDataRepository._standardize_symbol]; the argument is [None]
    or a [str] (for which [str(symbol)] is the string itself). *)
Definition _standardize_symbol (symbol : option string) : result string :=
  match symbol with
  | None => Ok "BTC/USDT"%string
  | Some s =>
      let symbol := upper s in
      if contains "/" symbol then Ok symbol
      else if contains "-" symbol then
        match split "-" symbol with
        | [base; quote] => Ok (base ++ "/" ++ quote)%string
        | _ => Raise ValueError
        end
      else if String.eqb symbol "BTCUSDT" then Ok "BTC/USDT"%string
      else if String.eqb symbol "BTCUSD" then Ok "BTC/USD"%string
      else if contains "BTC" symbol
              && (contains "USDT" symbol || contains "USD" symbol) then
        if contains "USDT" symbol then Ok "BTC/USDT"%string
        else Ok "BTC/USD"%string
      else Ok symbol
  end.

(** ** The store of dict objects *)

(** The identity of a dict object. *)
Abbreviation loc := nat (only parsing).

(** A ticker dict: its ['symbol'] entry (absent, or a [str]) and its other
    entries, each [None] or a float. *)
Record ticker : Type := Ticker {
  t_symbol : option string;
  t_fields : gmap string num
}.

(** The dict [{}]. *)
Definition empty_ticker : ticker := Ticker None ∅.

(** [data.get(key)] for a key other than ['symbol']. *)
Definition t_get (key : string) (t : ticker) : num :=
  default None (t_fields t !! key).

(** [key in data] for a key other than ['symbol']. *)
Definition t_has (key : string) (t : ticker) : bool :=
  match t_fields t !! key with
  | Some _ => true
  | None => false
  end.

(** [data[key] = v] for a key other than ['symbol']. *)
Definition t_set (key : string) (v : num) (t : ticker) : ticker :=
  Ticker (t_symbol t) (<[key := v]> (t_fields t)).

(** [data['symbol'] = s] *)
Definition t_set_symbol (s : string) (t : ticker) : ticker :=
  Ticker (Some s) (t_fields t).

(** [bool(data)]: a dict is true when it has an entry. *)
Definition t_nonempty (t : ticker) : bool :=
  match t_symbol t with
  | Some _ => true
  | None => negb (bool_decide (t_fields t = ∅))
  end.

Inductive obj : Type :=
| OTicker (t : ticker)              (* a ticker dict *)
| ODict (d : list (string * loc)).  (* a dict from str to dicts *)

Abbreviation store := (list obj) (only parsing).

(** A new object: it gets a location no object of the store has. *)
Definition alloc (o : obj) (h : store) : loc * store := (length h, h ++ [o]).

(** The ticker dict at [l].  In a state of the program a reference names
    a live dict of its kind; elsewhere the reading is an empty dict. *)
Definition ticker_at (h : store) (l : loc) : ticker :=
  match h !! l with
  | Some (OTicker t) => t
  | _ => empty_ticker
  end.

Definition dict_at (h : store) (l : loc) : list (string * loc) :=
  match h !! l with
  | Some (ODict d) => d
  | _ => []
  end.

(** ** The repository *)

(** A registered callback, by its identity. *)
Definition callback : Type := nat.

(** One invocation [callback(symbol, exchange, ticker_data)]. *)
Record call : Type := Call {
  c_callback : callback;
  c_symbol : string;
  c_exchange : string;
  c_data : loc
}.

(** The fields of an [ExchangeDataRepository] ([_data_lock] apart). *)
Record ExchangeDataRepository : Type := Repo {
  _ticker_data : list (string * loc);
  _last_update : gmap string (gmap string float);
  _update_callbacks : list callback
}.

(** The program state: the dict objects, the repository, and the callback
    invocations made so far (the latest last). *)
Record world : Type := World {
  objects : store;
  self : ExchangeDataRepository;
  calls : list call
}.

(** [ExchangeDataRepository()] in a store [h]. *)
Definition init (h : store) : world := World h (Repo [] ∅ []) [].

(** [self._ticker_data[std_symbol]]: the [defaultdict] makes the dict of a
    missing symbol. *)
Definition ticker_data_getitem (std_symbol : string) (h : store)
    (td : list (string * loc)) : loc * store * list (string * loc) :=
  match od_get std_symbol td with
  | Some inner => (inner, h, td)
  | None =>
      let '(inner, h') := alloc (ODict []) h in
      (inner, h', od_set std_symbol inner td)
  end.

(** [ExchangeDataRepository.update_ticker] *)
Definition update_ticker (now : float) (symbol : option string)
    (exchange : string) (ticker_data : loc) (w : world) : result world :=
  std_symbol <- _standardize_symbol symbol ;;
  let r := self w in
  let '(inner, h1, td) :=
    ticker_data_getitem std_symbol (objects w) (_ticker_data r) in
  let prev_data := od_get exchange (dict_at h1 inner) in
  (* ticker_data['symbol'] = std_symbol *)
  let h2 :=
    <[ticker_data := OTicker (t_set_symbol std_symbol (ticker_at h1 ticker_data))]> h1 in
  (* self._ticker_data[std_symbol][exchange] = ticker_data *)
  let h3 := <[inner := ODict (od_set exchange ticker_data (dict_at h2 inner))]> h2 in
  (* self._last_update[std_symbol][exchange] = datetime.now().timestamp() *)
  let lu :=
    <[std_symbol := <[exchange := now]> (default ∅ (_last_update r !! std_symbol))]>
      (_last_update r) in
  let changed :=
    match prev_data with
    | None => true
    | Some prev =>
        ne (t_get "mark_price" (ticker_at h3 prev))
           (t_get "mark_price" (ticker_at h3 ticker_data))
    end in
  let made :=
    if changed
    then map (fun cb => Call cb std_symbol exchange ticker_data) (_update_callbacks r)
    else [] in
  Ok (World h3 (Repo td lu (_update_callbacks r)) (calls w ++ made)).

(** [ExchangeDataRepository.get_ticker]: the result is [None] or a dict. *)
Definition get_ticker (symbol : option string) (exchange : option string)
    (w : world) : result (world * option loc) :=
  std_symbol <- _standardize_symbol symbol ;;
  match od_get std_symbol (_ticker_data (self w)) with
  | None => Ok (w, None)
  | Some inner =>
      if truthy exchange
      then Ok (w, od_get (default ""%string exchange) (dict_at (objects w) inner))
      else
        let '(l, h) := alloc (ODict (dict_at (objects w) inner)) (objects w) in
        Ok (World h (self w) (calls w), Some l)
  end.

(** [{symbol: data.copy() for symbol, data in items}]: the copies, and the
    entries of the new dict. *)
Fixpoint copy_all (items : list (string * loc)) (h : store)
    (acc : list (string * loc)) : store * list (string * loc) :=
  match items with
  | [] => (h, acc)
  | (symbol, data) :: items' =>
      let '(l, h') := alloc (ODict (dict_at h data)) h in
      copy_all items' h' (od_set symbol l acc)
  end.

(** [ExchangeDataRepository.get_all_tickers] *)
Definition get_all_tickers (w : world) : world * loc :=
  let '(h, d) := copy_all (_ticker_data (self w)) (objects w) [] in
  let '(l, h') := alloc (ODict d) h in
  (World h' (self w) (calls w), l).

(** [ExchangeDataRepository.register_update_callback] *)
Definition register_update_callback (cb : callback) (w : world) : world :=
  let r := self w in
  World (objects w)
        (Repo (_ticker_data r) (_last_update r) (_update_callbacks r ++ [cb]))
        (calls w).

(** ** Arbitrage detection *)

(** One reported opportunity (the dict appended to [opportunities]). *)
Record opportunity : Type := Opportunity {
  symbol : string;
  buy_exchange : string;
  buy_price : float;
  sell_exchange : string;
  sell_price : float;
  profit_percent : float
}.

(** [current_time - self._last_update[std_symbol].get(ex, 0) < 30] *)
Definition fresh_at (current_time : float) (last : gmap string float)
    (ex : string) : bool :=
  (current_time - default 0%float (last !! ex) <? 30)%float.

(** The dict [active_exchanges]: the entries of [exchanges] that are not
    stale, in the order of [exchanges]. *)
Definition active_exchanges (current_time : float) (last : gmap string float)
    (exchanges : list (string * loc)) : list (string * loc) :=
  filter (fun item => fresh_at current_time last item.1 = true) exchanges.

(** [(i, l[i]) for i in range(len(l))] *)
Definition enumerate {A : Type} (l : list A) : list (nat * A) :=
  combine (seq 0 (length l)) l.

(** [active_exchanges[ex].get(key)] *)
Definition price_of (h : store) (active : list (string * loc))
    (ex key : string) : num :=
  match od_get ex active with
  | Some l => t_get key (ticker_at h l)
  | None => None
  end.

(** [(sell_price - buy_price) / buy_price * 100] *)
Definition profit (buy_price sell_price : float) : result float :=
  q <- fdiv (sell_price - buy_price) buy_price ;;
  Ok (q * 100)%float.

(** The body of the inner loop, [for j in range(len(exchange_list))]. *)
Definition scan_sell (std_symbol : string) (h : store)
    (active : list (string * loc)) (min_profit_percent : float)
    (i : nat) (buy_exchange : string) (buy_price : float)
    (item : nat * string) (opportunities : list opportunity)
    : result (list opportunity) :=
  let '(j, sell_exchange) := item in
  if Nat.eqb i j then Ok opportunities
  else
    match price_of h active sell_exchange "bid_price" with
    | None => Ok opportunities
    | Some sell_price =>
        if is_zero sell_price then Ok opportunities
        else
          profit_percent <- profit buy_price sell_price ;;
          if fge profit_percent min_profit_percent
          then Ok (opportunities ++
                   [Opportunity std_symbol buy_exchange buy_price
                                sell_exchange sell_price profit_percent])
          else Ok opportunities
    end.

(** The body of the outer loop, [for i in range(len(exchange_list))]. *)
Definition scan_buy (std_symbol : string) (h : store)
    (active : list (string * loc)) (min_profit_percent : float)
    (item : nat * string) (opportunities : list opportunity)
    : result (list opportunity) :=
  let '(i, buy_exchange) := item in
  match price_of h active buy_exchange "ask_price" with
  | None => Ok opportunities
  | Some buy_price =>
      if is_zero buy_price then Ok opportunities
      else for_each (enumerate (od_keys active))
                    (scan_sell std_symbol h active min_profit_percent
                               i buy_exchange buy_price)
                    opportunities
  end.

(** The two nested loops: the list [opportunities] before it is sorted. *)
Definition scan (std_symbol : string) (h : store)
    (active : list (string * loc)) (min_profit_percent : float)
    : result (list opportunity) :=
  for_each (enumerate (od_keys active))
           (scan_buy std_symbol h active min_profit_percent) [].

(** [opportunities.sort(key=lambda x: x['profit_percent'], reverse=True)]:
    a stable sort that compares keys with [<]; under [reverse=True] equal
    keys keep their order. *)
Fixpoint insert_desc (x : opportunity) (l : list opportunity) : list opportunity :=
  match l with
  | [] => [x]
  | y :: l' =>
      if (profit_percent x <? profit_percent y)%float
      then y :: insert_desc x l'
      else x :: y :: l'
  end.

Definition sort_desc (l : list opportunity) : list opportunity :=
  foldr insert_desc [] l.

(** [self._last_update[std_symbol]] is read once per entry of [exchanges]:
    the [defaultdict] makes the missing dict at the first read. *)
Definition last_update_touch (std_symbol : string)
    (exchanges : list (string * loc)) (lu : gmap string (gmap string float))
    : gmap string (gmap string float) :=
  match exchanges, lu !! std_symbol with
  | _ :: _, None => <[std_symbol := ∅]> lu
  | _, _ => lu
  end.

(** [ExchangeDataRepository.get_arbitrage_opportunities] *)
Definition get_arbitrage_opportunities (now : float) (symbol : option string)
    (min_profit_percent : float) (w : world) : result (world * list opportunity) :=
  std_symbol <- _standardize_symbol symbol ;;
  let r := self w in
  match od_get std_symbol (_ticker_data r) with
  | None => Ok (w, [])
  | Some inner =>
      let exchanges := dict_at (objects w) inner in
      let last := default ∅ (_last_update r !! std_symbol) in
      let active := active_exchanges now last exchanges in
      opportunities <- scan std_symbol (objects w) active min_profit_percent ;;
      Ok (World (objects w)
                (Repo (_ticker_data r)
                      (last_update_touch std_symbol exchanges (_last_update r))
                      (_update_callbacks r))
                (calls w),
          sort_desc opportunities)
  end.

(** *** The detector as the specification words it

    The definitions below follow section 4.5 of the specification, to be
    compared with the loops above. *)

(** [activeEntries(symbol, now)]: the entries of the standardized symbol
    whose age is below the staleness threshold. *)
Definition active_entries (now : float) (std_symbol : string) (w : world)
    : list (string * loc) :=
  match od_get std_symbol (_ticker_data (self w)) with
  | None => []
  | Some inner =>
      active_exchanges now (default ∅ (_last_update (self w) !! std_symbol))
                       (dict_at (objects w) inner)
  end.

(** The ordered pairs of distinct positions below [n], in the order in
    which the loops meet them. *)
Definition ordered_pairs (n : nat) : list (nat * nat) :=
  flat_map (fun i => flat_map (fun j => if Nat.eqb i j then [] else [(i, j)])
                              (seq 0 n))
           (seq 0 n).

(** [(sell_price - buy_price) / buy_price * 100] in IEEE 754 arithmetic,
    which raises nothing. *)
Definition percent (buy_price sell_price : float) : float :=
  ((sell_price - buy_price) / buy_price * 100)%float.

(** The opportunity of the pair (buy at position [i], sell at position
    [j]), when both prices are neither [None] nor 0 and the profit
    reaches the threshold. *)
Definition opportunity_at (std_symbol : string) (h : store)
    (active : list (string * loc)) (min_profit_percent : float)
    (ij : nat * nat) : option opportunity :=
  match od_keys active !! ij.1, od_keys active !! ij.2 with
  | Some buy_exchange, Some sell_exchange =>
      match price_of h active buy_exchange "ask_price",
            price_of h active sell_exchange "bid_price" with
      | Some buy_price, Some sell_price =>
          if negb (is_zero buy_price) && negb (is_zero sell_price)
             && fge (percent buy_price sell_price) min_profit_percent
          then Some (Opportunity std_symbol buy_exchange buy_price
                                 sell_exchange sell_price
                                 (percent buy_price sell_price))
          else None
      | _, _ => None
      end
  | _, _ => None
  end.

(** The qualifying opportunities in encounter order. *)
Definition encountered (std_symbol : string) (h : store)
    (active : list (string * loc)) (min_profit_percent : float)
    : list opportunity :=
  omap (opportunity_at std_symbol h active min_profit_percent)
       (ordered_pairs (length active)).

(** When [opportunity_at] yields an opportunity. *)
Definition qualifies (std_symbol : string) (h : store)
    (active : list (string * loc)) (min_profit_percent : float)
    (i j : nat) (o : opportunity) : Prop :=
  od_keys active !! i = Some (buy_exchange o)
  /\ od_keys active !! j = Some (sell_exchange o)
  /\ price_of h active (buy_exchange o) "ask_price" = Some (buy_price o)
  /\ price_of h active (sell_exchange o) "bid_price" = Some (sell_price o)
  /\ is_zero (buy_price o) = false
  /\ is_zero (sell_price o) = false
  /\ profit_percent o = percent (buy_price o) (sell_price o)
  /\ fge (profit_percent o) min_profit_percent = true
  /\ symbol o = std_symbol.

(** What the inner loop appends for the sell position [j]. *)
Definition sell_step (std_symbol : string) (h : store)
    (active : list (string * loc)) (min_profit_percent : float)
    (i : nat) (buy_exchange : string) (buy_price : float)
    (item : nat * string) : list opportunity :=
  if Nat.eqb i item.1 then []
  else
    match price_of h active item.2 "bid_price" with
    | None => []
    | Some sell_price =>
        if is_zero sell_price then []
        else if fge (percent buy_price sell_price) min_profit_percent
        then [Opportunity std_symbol buy_exchange buy_price item.2 sell_price
                          (percent buy_price sell_price)]
        else []
    end.

(** What the outer loop appends for the buy position [i]. *)
Definition buy_step (std_symbol : string) (h : store)
    (active : list (string * loc)) (min_profit_percent : float)
    (item : nat * string) : list opportunity :=
  match price_of h active item.2 "ask_price" with
  | None => []
  | Some buy_price =>
      if is_zero buy_price then []
      else flat_map (sell_step std_symbol h active min_profit_percent
                               item.1 item.2 buy_price)
                    (enumerate (od_keys active))
  end.

(** A float that is not [nan]. *)
Definition is_number (x : float) : Prop := (x =? x)%float = true.

(** [a] is not below [b]: the order of a list sorted by profit, highest
    first. *)
Definition profit_ge (a b : opportunity) : Prop :=
  (profit_percent b <=? profit_percent a)%float = true.

(** The opportunities whose profit equals ([==]) the key [p]. *)
Definition with_profit (p : float) (l : list opportunity) : list opportunity :=
  filter (fun o => (profit_percent o =? p)%float = true) l.

(** ** The adapters *)

(** An adapter's latest-snapshot field [self.data]: [None] or a dict. *)
Record adapter : Type := Adapter { data : option loc }.

(** [get_data] of every adapter: [return self.data]. *)
Definition get_data (ws : adapter) : option loc := data ws.

(** [BybitSpotWebSocket.handle_ticker_data] on a message whose
    ["lastPrice"] and ["volume24h"] read as the two floats:
    [self.data.update({...})] writes into the dict that [self.data] names. *)
Definition handle_ticker_data (ws : adapter) (last_price volume24h : float)
    (h : store) : store :=
  match data ws with
  | None => h
  | Some l =>
      <[l := OTicker (t_set "volume_24h" (Some volume24h)
                       (t_set "mark_price" (Some last_price)
                         (t_set_symbol "BTCUSDT" (ticker_at h l))))]> h
  end.

(** ** The ingestion pump *)

(** How one cycle of the loop ends. *)
Inductive outcome : Type :=
| Waiting                   (* no data: nothing is written *)
| Skipped                   (* all prices zero or None: [continue] *)
| Called (r : result unit). (* [repo.update_ticker] was called *)

Definition default_symbols (exchange_name : string) : string :=
  if String.eqb exchange_name "BYBIT-spot" then "BTC/USDT"
  else if String.eqb exchange_name "KRAKEN-spot" then "BTC/USD"
  else if String.eqb exchange_name "HUOBI-spot" then "BTC/USDT"
  else if String.eqb exchange_name "OKX-spot" then "BTC/USDT"
  else if String.eqb exchange_name "BITFINEX-spot" then "BTC/USD"
  else "BTC/USDT".

(** ["symbol" not in data or not data["symbol"]] *)
Definition symbol_missing (t : ticker) : bool := negb (truthy (t_symbol t)).

(** The Kraken loop over the four keys.  [float(data[key])] of a float is
    the float; the one change is to a zero ['mark_price'] when the dict
    has a ['last'] entry: [float(data["last"])], and [None] when that
    raises [TypeError]. *)
Definition kraken_numeric (t : ticker) : ticker :=
  match t_fields t !! "mark_price"%string with
  | Some (Some x) =>
      if is_zero x then
        match t_fields t !! "last"%string with
        | Some v => t_set "mark_price" v t
        | None => t
        end
      else t
  | _ => t
  end.

(** The special handling under [exchange_name == "KRAKEN-spot"]. *)
Definition kraken_fix (polled : option loc) (h : store) : loc * store :=
  let '(l, h1) :=
    match polled with
    | Some l => (l, h)
    | None =>
        alloc (OTicker (Ticker (Some "BTC/USD"%string)
                 (<["mark_price"%string := None]>
                   (<["bid_price"%string := None]>
                     (<["ask_price"%string := None]>
                       (<["volume_24h"%string := None]> ∅)))))) h
    end in
  let t := ticker_at h1 l in
  let t := if symbol_missing t then t_set_symbol "BTC/USD" t else t in
  (l, <[l := OTicker (kraken_numeric t)]> h1).

(** [for field in required_fields: if field not in data: data[field] = None] *)
Definition fill_required (t : ticker) : ticker :=
  foldl (fun t field => if t_has field t then t else t_set field None t) t
        ["mark_price"; "bid_price"; "ask_price"; "volume_24h"]%string.

(** [all(data.get(field) in [0, None] for field in ["mark_price", "bid_price", "ask_price"])] *)
Definition all_prices_null (t : ticker) : bool :=
  forallb (fun field => none_or_zero (t_get field t))
          ["mark_price"; "bid_price"; "ask_price"]%string.

(** One pass through the body of the [while True] of
    [update_repository_from_websocket], on the value [polled] that
    [exchange_ws.get_data()] returned. *)
Definition pump_cycle (now : float) (exchange_name : string)
    (polled : option loc) (w : world) : world * outcome :=
  let '(polled, h) :=
    if String.eqb exchange_name "KRAKEN-spot"
    then let '(l, h) := kraken_fix polled (objects w) in (Some l, h)
    else (polled, objects w) in
  match polled with
  | None => (World h (self w) (calls w), Waiting)
  | Some l =>
      if t_nonempty (ticker_at h l) then
        let t := ticker_at h l in
        let t := if symbol_missing t
                 then t_set_symbol (default_symbols exchange_name) t else t in
        let symbol := t_symbol t in
        let t := fill_required t in
        let w1 := World (<[l := OTicker t]> h) (self w) (calls w) in
        if all_prices_null t then (w1, Skipped)
        else
          match update_ticker now symbol exchange_name l w1 with
          | Ok w2 => (w2, Called (Ok tt))
          | Raise e => (w1, Called (Raise e))
          end
      else (World h (self w) (calls w), Waiting)
  end.

(** ** Reading the state *)

Definition is_ticker (h : store) (l : loc) : Prop :=
  exists t, h !! l = Some (OTicker t).

Definition is_dict (h : store) (l : loc) : Prop :=
  exists d, h !! l = Some (ODict d).

(** The references the repository holds name live dicts of their kind:
    every symbol has a dict of exchanges, whose values are ticker dicts. *)
Definition wf (w : world) : Prop :=
  Forall (fun item : string * loc =>
            exists d, objects w !! item.2 = Some (ODict d)
                      /\ Forall (fun e : string * loc => is_ticker (objects w) e.2) d)
         (_ticker_data (self w)).

(** The dict stored for the key (standardized symbol, exchange). *)
Definition stored (std_symbol exchange : string) (w : world) : option loc :=
  match od_get std_symbol (_ticker_data (self w)) with
  | None => None
  | Some inner => od_get exchange (dict_at (objects w) inner)
  end.

(** The time of the last write for the key. *)
Definition last_written (std_symbol exchange : string) (w : world) : option float :=
  match _last_update (self w) !! std_symbol with
  | None => None
  | Some last => last !! exchange
  end.

(** Everything a reader of the repository can see: for every symbol and
    exchange, in order, the contents of the stored ticker dict. *)
Definition read_all (w : world) : list (string * list (string * ticker)) :=
  map (fun item : string * loc =>
         (item.1, map (fun e : string * loc => (e.1, ticker_at (objects w) e.2))
                      (dict_at (objects w) item.2)))
      (_ticker_data (self w)).

(** [data.get('mark_price')] of the dict at [l]. *)
Definition mark_price (h : store) (l : loc) : num :=
  t_get "mark_price" (ticker_at h l).

(** The condition under which [update_ticker] notifies. *)
Definition changed (std_symbol exchange : string) (ticker_data : loc)
    (w : world) : bool :=
  match stored std_symbol exchange w with
  | None => true
  | Some prev => ne (mark_price (objects w) prev) (mark_price (objects w) ticker_data)
  end.

(** A write by the owner of a ticker dict: [d[key] = v] on the dict at [l]. *)
Definition write_field (l : loc) (key : string) (v : num) (w : world) : world :=
  World (<[l := OTicker (t_set key v (ticker_at (objects w) l))]> (objects w))
        (self w) (calls w).

(** The symbol the pump passes to [update_ticker]. *)
Definition pump_symbol (exchange_name : string) (t : ticker) : option string :=
  if symbol_missing t then Some (default_symbols exchange_name) else t_symbol t.

(** The three prices are all [None] or 0. *)
Definition prices_null (t : ticker) : Prop :=
  none_or_zero (t_get "mark_price" t) = true
  /\ none_or_zero (t_get "bid_price" t) = true
  /\ none_or_zero (t_get "ask_price" t) = true.

(** ** Scenarios *)

(** A ticker dict with the two quotes [ask_price] and [bid_price]. *)
Definition quote (ask bid : float) : obj :=
  OTicker (Ticker None (<["ask_price"%string := Some ask]>
                         (<["bid_price"%string := Some bid]> ∅))).

(** Three exchanges X, Y, Z written at time [T] for "BTC/USDT", with the
    quotes of the dicts at locations 0, 1 and 2 of [h]. *)
Definition three_exchanges (h : store) (T : float) : result world :=
  w <- update_ticker T (Some "BTC/USDT"%string) "X" 0 (init h) ;;
  w <- update_ticker T (Some "BTC/USDT"%string) "Y" 1 w ;;
  update_ticker T (Some "BTC/USDT"%string) "Z" 2 w.

(** The active entries of section 8 of the specification. *)
Definition scenario_quotes : store := [quote 100 99; quote 98 97; quote 102 101].

(** The state after the three writes at time 1000. *)
Definition scenario_world : world :=
  match three_exchanges scenario_quotes 1000 with
  | Ok w => w
  | Raise _ => init scenario_quotes
  end.

(** The list a call returned. *)
Definition returned {A : Type} (r : result (world * A)) : option A :=
  match r with
  | Ok (_, a) => Some a
  | Raise _ => None
  end.


(** The dict of a Bybit adapter after a ticker message: symbol "BTCUSDT",
    [mark_price] 100, [volume_24h] 5. *)
Definition bybit_data : store :=
  [OTicker (Ticker (Some "BTCUSDT"%string)
             (<["mark_price"%string := Some 100%float]>
               (<["volume_24h"%string := Some 5%float]> ∅)))].

(** A repository with the one entry ("BTC/USDT", "X"): ask 100, bid 99. *)
Definition one_entry : world :=
  World [quote 100 99; ODict [("X"%string, 0)]]
        (Repo [("BTC/USDT"%string, 1)]
              (<["BTC/USDT"%string := <["X"%string := 1000%float]> ∅]> ∅) [])
        [].

(** ** More of the repository's state *)

(** [self._ticker_data.get(std_symbol, {})]: the entries of a symbol, in
    the order of their first writes. *)
Definition exchanges_of (std_symbol : string) (w : world) : list (string * loc) :=
  match od_get std_symbol (_ticker_data (self w)) with
  | None => []
  | Some inner => dict_at (objects w) inner
  end.

(** The invariant of the repository: its references name live dicts of
    their kind ([wf]), every symbol has a dict of its own, and the keys of
    every dict are distinct. *)
Definition inv (w : world) : Prop :=
  wf w
  /\ List.NoDup (od_keys (_ticker_data (self w)))
  /\ List.NoDup (map snd (_ticker_data (self w)))
  /\ Forall (fun item : string * loc =>
               List.NoDup (od_keys (dict_at (objects w) item.2)))
            (_ticker_data (self w)).

(** ** The adapters' message handlers

    A handler gets the part of the decoded message it reads: the numbers
    of a JSON object are a map from its keys to floats, the prices of an
    order book side are a list.  Decoding, the connection and the
    handlers' [except] clauses (which drop a malformed message) are not
    modelled. *)

(** [bool(x)] for a float. *)
Definition float_truthy (x : float) : bool := negb (is_zero x).

(** [float(data.get(key, 0))] *)
Definition number (data : gmap string float) (key : string) : float :=
  default 0%float (data !! key).

(** The dict literal [{"symbol": ..., "mark_price": ..., "bid_price": ...,
    "ask_price": ..., "volume_24h": ...}]. *)
Definition ticker_dict (symbol : string)
    (mark_price bid_price ask_price volume_24h : num) : ticker :=
  Ticker (Some symbol)
    (<["mark_price"%string := mark_price]>
      (<["bid_price"%string := bid_price]>
        (<["ask_price"%string := ask_price]>
          (<["volume_24h"%string := volume_24h]> ∅)))).

(** [BybitSpotWebSocket.__init__]: [self.data = {}]. *)
Definition bybit_init (h : store) : adapter * store :=
  let '(l, h') := alloc (OTicker empty_ticker) h in
  (Adapter (Some l), h').

(** [BybitSpotWebSocket.handle_orderbook_data] on a message whose ["b"]
    and ["a"] arrays hold the given prices, best first (an absent array
    reads as an empty one): [self.data.update({...})] when both have a
    price. *)
Definition handle_orderbook_data (ws : adapter) (bids asks : list float)
    (h : store) : store :=
  match data ws, bids, asks with
  | Some l, best_bid :: _, best_ask :: _ =>
      <[l := OTicker (t_set "ask_price" (Some best_ask)
                       (t_set "bid_price" (Some best_bid) (ticker_at h l)))]> h
  | _, _, _ => h
  end.

Module Kraken.

(** [KrakenSpotWebSocket.handle_message] on a message whose
    [message['data'][0]] holds the numbers [ticker]: a new dict replaces
    [self.data]. *)
Definition handle_message (ws : adapter) (ticker : gmap string float)
    (h : store) : adapter * store :=
  let t :=
    ticker_dict "BTC/USD"
      (Some (number ticker "last")) (Some (number ticker "bid"))
      (Some (number ticker "ask")) (Some (number ticker "volume")) in
  (* if self.data["mark_price"] == 0 and data.get('last'): *)
  let t :=
    match t_get "mark_price" t, ticker !! "last"%string with
    | Some m, Some last =>
        if is_zero m && float_truthy last
        then t_set "mark_price" (Some last) t else t
    | _, _ => t
    end in
  let '(l, h') := alloc (OTicker t) h in
  (Adapter (Some l), h').

End Kraken.

Module Huobi.

(** The ticker branch of [HuobiSpotWebSocket.connect] on a message whose
    ["tick"] holds the numbers [tick]: a new dict replaces [self.data]. *)
Definition handle_tick (ws : adapter) (tick : gmap string float)
    (h : store) : adapter * store :=
  let t :=
    ticker_dict "BTCUSDT"
      (Some (number tick "close")) (Some (number tick "bid"))
      (Some (number tick "ask")) (Some (number tick "amount")) in
  let '(l, h') := alloc (OTicker t) h in
  (Adapter (Some l), h').

End Huobi.

Module Bitfinex.

(** [BitfinexSpotWebSocket.on_message] on a message [[channel_id, data]]
    whose [data] is a list of numbers: a new dict replaces [self.data]
    when the list has at least 8 elements. *)
Definition on_message (ws : adapter) (data : list float) (h : store)
    : adapter * store :=
  if (8 <=? length data)%nat then
    let t :=
      ticker_dict "BTC/USD"
        (data !! 6%nat) (data !! 0%nat) (data !! 2%nat) (data !! 7%nat) in
    let '(l, h') := alloc (OTicker t) h in
    (Adapter (Some l), h')
  else (ws, h).

End Bitfinex.

Module OKX.

(** [OKXSpotWebSocket.handle_message] on a message whose
    [message['data'][0]] holds the numbers [ticker_data]: the dict that
    [self.data] names is made at the first message and updated in place
    from then on. *)
Definition handle_message (ws : adapter) (ticker_data : gmap string float)
    (h : store) : adapter * store :=
  let '(l, h1) :=
    match data ws with
    | Some l => (l, h)
    | None => alloc (OTicker empty_ticker) h
    end in
  (Adapter (Some l),
   <[l := OTicker
            (t_set "volume_24h" (Some (number ticker_data "vol24h"))
              (t_set "ask_price" (Some (number ticker_data "askPx"))
                (t_set "bid_price" (Some (number ticker_data "bidPx"))
                  (t_set "mark_price" (Some (number ticker_data "last"))
                    (t_set_symbol "BTC-USDT" (ticker_at h1 l))))))]> h1).

End OKX.

(** ** The states the program reaches *)

(** One step of the program on the state: a call of a method of the
    repository, one cycle of a pump, a write of an adapter into its
    ticker dict, or the making of a new dict. *)
Inductive step : world -> world -> Prop :=
| step_update now symbol exchange l w w1 :
    is_ticker (objects w) l ->
    update_ticker now symbol exchange l w = Ok w1 -> step w w1
| step_register cb w :
    step w (register_update_callback cb w)
| step_get_ticker symbol exchange w w1 r :
    get_ticker symbol exchange w = Ok (w1, r) -> step w w1
| step_get_all_tickers w w1 l :
    get_all_tickers w = (w1, l) -> step w w1
| step_detect now symbol m w w1 res :
    get_arbitrage_opportunities now symbol m w = Ok (w1, res) -> step w w1
| step_pump now exchange_name polled w w1 o :
    (forall l, polled = Some l -> is_ticker (objects w) l) ->
    pump_cycle now exchange_name polled w = (w1, o) -> step w w1
| step_write l t w :
    is_ticker (objects w) l ->
    step w (World (<[l := OTicker t]> (objects w)) (self w) (calls w))
| step_new o w :
    step w (World (objects w ++ [o]) (self w) (calls w)).

(** The states reached from a new repository in a store [h]. *)
Definition reachable (h : store) (w : world) : Prop := rtc step (init h) w.

(** The number of occurrences of a character in a string. *)
Fixpoint count_char (c : ascii) (s : string) : nat :=
  match s with
  | EmptyString => 0
  | String a s' => (if Ascii.eqb a c then 1 else 0) + count_char c s'
  end.

(** The dict the pump makes when the Kraken adapter has no data yet. *)
Definition kraken_placeholder : ticker :=
  Ticker (Some "BTC/USD"%string)
    (<["mark_price"%string := None]>
      (<["bid_price"%string := None]>
        (<["ask_price"%string := None]>
          (<["volume_24h"%string := None]> ∅)))).

(** The callback invocations that a write of the dict [l] with the
    [mark_price] [m] makes for the key: every callback, in the order of
    registration, when no dict is stored for the key or the stored one has
    another [mark_price]. *)
Definition notifications (std_symbol exchange : string) (l : loc) (m : num)
    (w : world) : list call :=
  if match stored std_symbol exchange w with
     | None => true
     | Some prev => ne (mark_price (objects w) prev) m
     end
  then map (fun cb => Call cb std_symbol exchange l) (_update_callbacks (self w))
  else [].

(** A Kraken dict whose [mark_price] is 0 and that has a ['last'] entry. *)
Definition kraken_zero_mark : store :=
  [OTicker (Ticker (Some "BTC/USD"%string)
             (<["mark_price"%string := Some 0%float]>
               (<["last"%string := Some 50000%float]>
                 (<["bid_price"%string := Some 49999%float]>
                   (<["ask_price"%string := Some 50001%float]> ∅)))))].

(** The numbers of a Kraken ticker message. *)
Definition kraken_ticker : gmap string float :=
  <["last"%string := 50000%float]>
    (<["bid"%string := 49999%float]>
      (<["ask"%string := 50001%float]>
        (<["volume"%string := 12%float]> ∅))).

(** The numbers of a Huobi tick. *)
Definition huobi_tick : gmap string float :=
  <["close"%string := 50000%float]>
    (<["bid"%string := 49999%float]>
      (<["ask"%string := 50001%float]>
        (<["amount"%string := 12%float]> ∅))).

(** The numbers of an OKX ticker message. *)
Definition okx_ticker : gmap string float :=
  <["last"%string := 50000%float]>
    (<["bidPx"%string := 49999%float]>
      (<["askPx"%string := 50001%float]>
        (<["vol24h"%string := 12%float]> ∅))).

(** The numbers of a Bitfinex ticker message: bid, bid size, ask, ask
    size, daily change, its fraction, last price, volume, high, low. *)
Definition bitfinex_data : list float :=
  [49999; 1; 50001; 2; 100; 0.25; 50000; 12; 50500; 49500]%float.

(** A repository in which the dict at location 0, with [mark_price] 100,
    is stored for "BTC/USDT" and the exchange. *)
Definition stored_entry (exchange : string) : world :=
  World [OTicker (ticker_dict "BTC/USDT" (Some 100%float) (Some 99%float)
                              (Some 101%float) (Some 5%float));
         ODict [(exchange, 0)]]
        (Repo [("BTC/USDT"%string, 1)]
              (<["BTC/USDT"%string := <[exchange := 1000%float]> ∅]> ∅) [7])
        [].

(** ** The rows of the spreadsheet ([main_ui.py])

    [CryptoSpreadsheet] keeps a tkinter [Entry] for every cell; the model
    keeps the text of every entry.  Colours, the highlighting timer and
    the layout are not modelled. *)

Record CryptoSpreadsheet : Type := Sheet {
  entries : gmap (nat * nat) string;
  symbol_exchange_row_mapping : gmap string nat;
  free_rows : list nat;
  current_row : nat
}.

Definition COLUMNS : list string :=
  ["Symbol"; "Exchange"; "Mark Price"; "Volume 24h"; "Bid Price"; "Ask Price"]%string.

(** [CryptoSpreadsheet.__init__] with [create_headers]. *)
Definition new_sheet : CryptoSpreadsheet :=
  Sheet (foldl (fun e '(col, header) => <[(0, col) := header]> e) ∅
               (enumerate COLUMNS))
        ∅ [] 1.

(** [CryptoSpreadsheet.add_row] *)
Definition add_row (s : CryptoSpreadsheet) : nat * CryptoSpreadsheet :=
  let row := current_row s in
  (row,
   Sheet (foldl (fun e col => <[(row, col) := EmptyString]> e) (entries s)
                (seq 0 (length COLUMNS)))
         (symbol_exchange_row_mapping s)
         (free_rows s ++ [row])
         (current_row s + 1)).

(** [CryptoSpreadsheet.update_cell], the text of the entry. *)
Definition update_cell (row col : nat) (value : string) (s : CryptoSpreadsheet)
    : CryptoSpreadsheet :=
  match entries s !! (row, col) with
  | Some current_value =>
      if String.eqb current_value value then s
      else Sheet (<[(row, col) := value]> (entries s))
                 (symbol_exchange_row_mapping s) (free_rows s) (current_row s)
  | None => s
  end.

(** [f"{symbol}:{exchange}"] *)
Definition row_key (symbol exchange : string) : string :=
  (symbol ++ ":" ++ exchange)%string.

(** [CryptoSpreadsheet.get_row] *)
Definition get_row (symbol exchange : string) (s : CryptoSpreadsheet)
    : nat * CryptoSpreadsheet :=
  let key := row_key symbol exchange in
  match symbol_exchange_row_mapping s !! key with
  | Some row => (row, s)
  | None =>
      let '(row, s) :=
        match free_rows s with
        | row :: rest =>
            (row, Sheet (entries s) (symbol_exchange_row_mapping s) rest
                        (current_row s))
        | [] => add_row s
        end in
      let s := Sheet (entries s) (<[key := row]> (symbol_exchange_row_mapping s))
                     (free_rows s) (current_row s) in
      let s := update_cell row 0 symbol s in
      let s := update_cell row 1 exchange s in
      (row, s)
  end.

(** The rows that [get_row] returns for the pairs, asked in order. *)
Fixpoint get_rows (pairs : list (string * string)) (s : CryptoSpreadsheet)
    : list nat * CryptoSpreadsheet :=
  match pairs with
  | [] => ([], s)
  | (symbol, exchange) :: pairs' =>
      let '(row, s) := get_row symbol exchange s in
      let '(rows, s) := get_rows pairs' s in
      (row :: rows, s)
  end.

(** The pairs for which [run_with_repository] asks for a row at the
    start, in the order of its two loops. *)
Definition initial_pairs : list (string * string) :=
  flat_map (fun exchange_name =>
              map (fun symbol => (symbol, exchange_name))
                  ["BTC/USDT"; "BTC/USD"]%string)
           ["BYBIT-spot"; "KRAKEN-spot"; "HUOBI-spot"; "OKX-spot";
            "BITFINEX-spot"]%string.

(** ** Runs of updates, and what the pump tests *)




(** The polled dict as the pump tests it: the Kraken loop has replaced a
    [mark_price] that equals 0 by the ['last'] entry, when there is one. *)
Definition kraken_repaired (exchange_name : string) (t : ticker) : ticker :=
  if String.eqb exchange_name "KRAKEN-spot" then kraken_numeric t else t.

(** A Kraken dict whose three prices are 0 and that has a ['last'] entry. *)
Definition kraken_zero_prices : store :=
  [OTicker (Ticker (Some "BTC/USD"%string)
             (<["mark_price"%string := Some 0%float]>
               (<["bid_price"%string := Some 0%float]>
                 (<["ask_price"%string := Some 0%float]>
                   (<["last"%string := Some 7%float]> ∅)))))].

(** The snapshot of the specification's rejection scenario. *)
Definition rejected_snapshot : store :=
  [OTicker (Ticker (Some "BTC/USDT"%string)
             (<["mark_price"%string := None]>
               (<["bid_price"%string := Some 0%float]>
                 (<["ask_price"%string := None]>
                   (<["volume_24h"%string := Some 50%float]> ∅)))))].

(** The strings of ASCII characters, on which [upper] is [str.upper]. *)
Fixpoint is_ascii (s : string) : bool :=
  match s with
  | EmptyString => true
  | String c s' => (nat_of_ascii c <? 128)%nat && is_ascii s'
  end.

(** * Properties *)

(** ** Strings *)

Lemma upper_char_idem (c : ascii) : upper_char (upper_char c) = upper_char c.
Proof. destruct c as [[] [] [] [] [] [] [] []]; reflexivity. Qed.

Lemma upper_idem (s : string) : upper (upper s) = upper s.
Proof.
  induction s as [|c s IH]; simpl; [reflexivity|].
  rewrite upper_char_idem, IH. reflexivity.
Qed.

Lemma upper_app (a b : string) : upper (a ++ b)%string = (upper a ++ upper b)%string.
Proof. induction a as [|c a IH]; simpl; [reflexivity | rewrite IH; reflexivity]. Qed.

(** The pieces of an upper-case string are upper-case. *)
Lemma split_upper (sep : ascii) (u : string) :
  upper u = u -> Forall (fun p => upper p = p) (split sep u).
Proof.
  induction u as [|c u IH]; simpl; intros Hu.
  - repeat constructor.
  - injection Hu as Hc Hu'. specialize (IH Hu').
    destruct (Ascii.eqb c sep).
    + constructor; [reflexivity | exact IH].
    + destruct (split sep u) as [|p ps]; [repeat constructor; simpl; congruence|].
      inversion IH as [|? ? Hp Hps]; subst.
      constructor; [simpl; congruence | exact Hps].
Qed.

Lemma contains_app_slash (b q : string) :
  contains "/" (b ++ "/" ++ q)%string = true.
Proof.
  induction b as [|c b IH]; [destruct q; reflexivity|].
  change (contains "/" (String c (b ++ "/" ++ q)%string) = true).
  cbn [contains]. rewrite IH. apply orb_true_r.
Qed.

(** ** The standardizer *)

(** Where the standardizer returns, its result is a fixed point. *)
Lemma standardize_fixed_point (x : option string) (s : string) :
  _standardize_symbol x = Ok s -> _standardize_symbol (Some s) = Ok s.
Proof.
  destruct x as [raw|]; [|intros [= <-]; reflexivity].
  unfold _standardize_symbol at 1. cbv zeta.
  pose proof (upper_idem raw) as Hu. set (u := upper raw) in *.
  destruct (contains "/" u) eqn:Hslash.
  { intros [= <-]. unfold _standardize_symbol. cbv zeta. rewrite Hu, Hslash. reflexivity. }
  destruct (contains "-" u) eqn:Hdash.
  { pose proof (split_upper "-" u Hu) as Hparts.
    destruct (split "-" u) as [|base [|quote [|? ?]]]; try discriminate.
    intros [= <-].
    inversion Hparts as [|? ? Hb Hrest]; subst.
    inversion Hrest as [|? ? Hq _]; subst.
    unfold _standardize_symbol. cbv zeta.
    rewrite !upper_app, Hb, Hq. change (upper "/") with "/"%string.
    rewrite contains_app_slash. reflexivity. }
  destruct (String.eqb u "BTCUSDT") eqn:E1; [intros [= <-]; reflexivity|].
  destruct (String.eqb u "BTCUSD") eqn:E2; [intros [= <-]; reflexivity|].
  destruct (contains "BTC" u && (contains "USDT" u || contains "USD" u)) eqn:E3.
  { destruct (contains "USDT" u); intros [= <-]; reflexivity. }
  intros [= <-]. unfold _standardize_symbol. cbv zeta.
  rewrite Hu, Hslash, Hdash, E1, E2, E3. reflexivity.
Qed.

(** C8.  [_standardize_symbol("A-B-C")] raises [ValueError] (the unpacking
    [base, quote = symbol.split('-')] gets three pieces), so the
    standardizer is not idempotent on every string with '-' separators;
    on every input for which it returns, its result is a fixed point. *)
Theorem standardize_two_dashes_raises :
  _standardize_symbol (Some "A-B-C"%string) = Raise ValueError
  /\ (forall x s, _standardize_symbol x = Ok s ->
                  _standardize_symbol (Some s) = Ok s).
Proof. split; [reflexivity | exact standardize_fixed_point]. Qed.

(** C9, as the code has it.  "BTC-USD", "BTCUSDT", "btcusd" and [None]
    are mapped as the specification says; the empty string is returned
    unchanged. *)
Theorem standardize_cases :
  _standardize_symbol (Some "BTC-USD"%string) = Ok "BTC/USD"%string
  /\ _standardize_symbol (Some "BTCUSDT"%string) = Ok "BTC/USDT"%string
  /\ _standardize_symbol (Some "btcusd"%string) = Ok "BTC/USD"%string
  /\ _standardize_symbol None = Ok "BTC/USDT"%string
  /\ _standardize_symbol (Some ""%string) = Ok ""%string.
Proof. repeat split; reflexivity. Qed.

(** C9, counterexample: the empty string is not mapped to "BTC/USDT". *)
Lemma standardize_empty_not_default :
  ~ (_standardize_symbol (Some "BTC-USD"%string) = Ok "BTC/USD"%string
     /\ _standardize_symbol (Some "BTCUSDT"%string) = Ok "BTC/USDT"%string
     /\ _standardize_symbol (Some "btcusd"%string) = Ok "BTC/USD"%string
     /\ _standardize_symbol None = Ok "BTC/USDT"%string
     /\ _standardize_symbol (Some ""%string) = Ok "BTC/USDT"%string).
Proof. intros (_ & _ & _ & _ & H). discriminate H. Qed.

(** ** Comparisons of floats *)

Ltac cmp_cases :=
  repeat match goal with
  | H : context [Z.compare ?x ?y] |- _ => destruct (Z.compare_spec x y)
  | |- context [Z.compare ?x ?y] => destruct (Z.compare_spec x y)
  | H : context [Pos.compare ?x ?y] |- _ => destruct (Pos.compare_spec x y)
  | |- context [Pos.compare ?x ?y] => destruct (Pos.compare_spec x y)
  end.

Lemma SFcompare_swap (a b : spec_float) :
  SFcompare b a = option_map CompOpp (SFcompare a b).
Proof.
  destruct a as [sa|sa| |sa ma ea], b as [sb|sb| |sb mb eb]; simpl;
    try destruct sa; try destruct sb; try reflexivity;
    change (Pos.compare_cont Eq) with Pos.compare;
    rewrite (Z.compare_antisym eb ea), (Pos.compare_antisym mb ma);
    destruct (eb ?= ea)%Z, (mb ?= ma)%positive; reflexivity.
Qed.

Lemma SFleb_trans (a b c : spec_float) :
  SFleb a b = true -> SFleb b c = true -> SFleb a c = true.
Proof.
  unfold SFleb.
  destruct a as [sa|sa| |sa ma ea], b as [sb|sb| |sb mb eb],
    c as [sc|sc| |sc mc ec]; simpl;
    try destruct sa; try destruct sb; try destruct sc; simpl;
    try (intros; congruence);
    change (Pos.compare_cont Eq) with Pos.compare;
    intros H1 H2; cmp_cases; simpl in *; subst; try congruence; try lia.
Qed.

Lemma SFcompare_self (a b : spec_float) (c : comparison) :
  SFcompare a b = Some c -> SFcompare b b = Some Eq.
Proof.
  destruct a as [sa|sa| |sa ma ea], b as [sb|sb| |sb mb eb]; simpl;
    try discriminate; intros _; try destruct sb; try reflexivity;
    change (Pos.compare_cont Eq) with Pos.compare;
    rewrite Z.compare_refl, Pos.compare_refl; reflexivity.
Qed.

Lemma SFcompare_defined (a b : spec_float) :
  SFcompare a a = Some Eq -> SFcompare b b = Some Eq ->
  exists c, SFcompare a b = Some c.
Proof.
  destruct a as [sa|sa| |sa ma ea], b as [sb|sb| |sb mb eb]; simpl;
    try discriminate; intros _ _; eauto.
Qed.

Section float_order.
Open Scope float_scope.

Lemma is_number_cmp (x : float) :
  is_number x <-> SFcompare (Prim2SF x) (Prim2SF x) = Some Eq.
Proof.
  unfold is_number. rewrite FloatAxioms.eqb_spec. unfold SFeqb.
  destruct (SFcompare (Prim2SF x) (Prim2SF x)) as [[]|]; split; congruence.
Qed.

Lemma leb_is_number (m x : float) : (m <=? x) = true -> is_number x.
Proof.
  rewrite FloatAxioms.leb_spec, is_number_cmp. unfold SFleb.
  destruct (SFcompare (Prim2SF m) (Prim2SF x)) as [c|] eqn:E; [|discriminate].
  intros _. exact (SFcompare_self _ _ _ E).
Qed.

Lemma ltb_leb (x y : float) : (x <? y) = true -> (x <=? y) = true.
Proof.
  rewrite FloatAxioms.ltb_spec, FloatAxioms.leb_spec. unfold SFltb, SFleb.
  destruct (SFcompare (Prim2SF x) (Prim2SF y)) as [[]|]; congruence.
Qed.

Lemma leb_total (x y : float) :
  is_number x -> is_number y -> (x <? y) = false -> (y <=? x) = true.
Proof.
  rewrite !is_number_cmp, FloatAxioms.ltb_spec, FloatAxioms.leb_spec. unfold SFltb, SFleb.
  intros Hx Hy. rewrite (SFcompare_swap (Prim2SF x) (Prim2SF y)).
  destruct (SFcompare_defined _ _ Hx Hy) as [c ->].
  destruct c; simpl; congruence.
Qed.

Lemma leb_trans (x y z : float) :
  (x <=? y) = true -> (y <=? z) = true -> (x <=? z) = true.
Proof. rewrite !FloatAxioms.leb_spec. apply SFleb_trans. Qed.

Lemma eqb_leb (x y : float) : (x =? y) = true -> (x <=? y) = true /\ (y <=? x) = true.
Proof.
  rewrite FloatAxioms.eqb_spec, !FloatAxioms.leb_spec. unfold SFeqb, SFleb.
  rewrite (SFcompare_swap (Prim2SF x) (Prim2SF y)).
  destruct (SFcompare (Prim2SF x) (Prim2SF y)) as [[]|]; simpl; try discriminate.
  intros _; split; reflexivity.
Qed.

Lemma leb_not_ltb (x y : float) : (y <=? x) = true -> (x <? y) = false.
Proof.
  rewrite FloatAxioms.leb_spec, FloatAxioms.ltb_spec. unfold SFleb, SFltb.
  rewrite (SFcompare_swap (Prim2SF x) (Prim2SF y)).
  destruct (SFcompare (Prim2SF x) (Prim2SF y)) as [[]|]; simpl; congruence.
Qed.

(** Two keys equal to a third are not in the order [<]. *)
Lemma eqb_not_ltb (x y p : float) :
  (x =? p) = true -> (y =? p) = true -> (x <? y) = false.
Proof.
  intros Hx Hy. apply leb_not_ltb.
  destruct (eqb_leb _ _ Hx) as [_ Hpx], (eqb_leb _ _ Hy) as [Hyp _].
  exact (leb_trans _ _ _ Hyp Hpx).
Qed.

End float_order.

(** ** The sort *)

Lemma insert_desc_perm (x : opportunity) (l : list opportunity) :
  Permutation (insert_desc x l) (x :: l).
Proof.
  induction l as [|y l IH]; simpl; [reflexivity|].
  destruct (profit_percent x <? profit_percent y)%float; [|reflexivity].
  rewrite IH. apply perm_swap.
Qed.

Lemma sort_desc_perm (l : list opportunity) : Permutation (sort_desc l) l.
Proof.
  induction l as [|x l IH]; simpl; [reflexivity|].
  rewrite insert_desc_perm, IH. reflexivity.
Qed.

Lemma insert_desc_sorted (x : opportunity) (l : list opportunity) :
  is_number (profit_percent x) ->
  Forall (fun o => is_number (profit_percent o)) l ->
  StronglySorted profit_ge l -> StronglySorted profit_ge (insert_desc x l).
Proof.
  intros Hx Hl Hs. induction Hs as [|y l Hs IH Hy]; simpl.
  - repeat constructor.
  - inversion Hl as [|? ? Hny Hl']; subst.
    destruct (profit_percent x <? profit_percent y)%float eqn:E.
    + constructor; [exact (IH Hl')|].
      rewrite insert_desc_perm. constructor; [|exact Hy].
      apply ltb_leb, E.
    + constructor; [constructor; assumption|].
      assert (Hxy : profit_ge x y) by (apply leb_total; assumption).
      constructor; [exact Hxy|].
      eapply List.Forall_impl; [|exact Hy].
      intros z Hz. unfold profit_ge in *. exact (leb_trans _ _ _ Hz Hxy).
Qed.

Lemma sort_desc_sorted (l : list opportunity) :
  Forall (fun o => is_number (profit_percent o)) l ->
  StronglySorted profit_ge (sort_desc l).
Proof.
  induction 1 as [|x l Hx Hl IH]; simpl; [constructor|].
  apply insert_desc_sorted; [exact Hx| |exact IH].
  rewrite sort_desc_perm. exact Hl.
Qed.

Lemma insert_desc_stable (p : float) (x : opportunity) (l : list opportunity) :
  with_profit p (insert_desc x l) = with_profit p (x :: l).
Proof.
  unfold with_profit. induction l as [|y l IH]; simpl; [reflexivity|].
  destruct (profit_percent x <? profit_percent y)%float eqn:E; [|reflexivity].
  rewrite (filter_cons _ y), IH, !filter_cons.
  destruct (decide ((profit_percent y =? p)%float = true)) as [Hy|Hy],
           (decide ((profit_percent x =? p)%float = true)) as [Hx|Hx];
    try reflexivity.
  rewrite (eqb_not_ltb _ _ _ Hx Hy) in E. discriminate.
Qed.

Lemma sort_desc_stable (p : float) (l : list opportunity) :
  with_profit p (sort_desc l) = with_profit p l.
Proof.
  induction l as [|x l IH]; simpl; [reflexivity|].
  rewrite insert_desc_stable. unfold with_profit in *.
  rewrite !filter_cons, IH. reflexivity.
Qed.

(** ** The loops of the detector *)

Lemma for_each_append {A B : Type} (g : A -> list B)
    (body : A -> list B -> result (list B)) (l : list A) (s : list B) :
  (forall x s, body x s = Ok (s ++ g x)) ->
  for_each l body s = Ok (s ++ flat_map g l).
Proof.
  intros Hbody. revert s. induction l as [|x l IH]; intros s; simpl.
  - rewrite app_nil_r. reflexivity.
  - rewrite Hbody, IH, <- app_assoc. reflexivity.
Qed.

Lemma combine_snoc {A B : Type} (l1 : list A) (l2 : list B) (a : A) (b : B) :
  length l1 = length l2 ->
  combine (l1 ++ [a]) (l2 ++ [b]) = combine l1 l2 ++ [(a, b)].
Proof.
  revert l2. induction l1 as [|x l1 IH]; intros [|y l2] Hlen;
    simpl in *; try discriminate; [reflexivity|].
  rewrite IH by congruence. reflexivity.
Qed.

Lemma enumerate_snoc {A : Type} (l : list A) (x : A) :
  enumerate (l ++ [x]) = enumerate l ++ [(length l, x)].
Proof.
  unfold enumerate. rewrite length_app. simpl.
  rewrite seq_app. simpl.
  apply combine_snoc, length_seq.
Qed.

Lemma flat_map_ext_in {A B : Type} (f g : A -> list B) (l : list A) :
  (forall x, In x l -> f x = g x) -> flat_map f l = flat_map g l.
Proof.
  induction l as [|x l IH]; intros H; simpl; [reflexivity|].
  rewrite (H x) by (left; reflexivity).
  rewrite IH by (intros y Hy; apply H; right; exact Hy). reflexivity.
Qed.

Lemma flat_map_enumerate {A B : Type} (f : nat * A -> list B) (l : list A) :
  flat_map f (enumerate l)
  = flat_map (fun i => match l !! i with Some x => f (i, x) | None => [] end)
             (seq 0 (length l)).
Proof.
  induction l as [|x l IH] using rev_ind; [reflexivity|].
  rewrite enumerate_snoc, length_app, seq_app, !flat_map_app, IH.
  simpl. rewrite !app_nil_r.
  f_equal.
  - apply flat_map_ext_in. intros i Hi. apply in_seq in Hi.
    rewrite lookup_app_l by lia. reflexivity.
  - rewrite list_lookup_middle by reflexivity. reflexivity.
Qed.

Lemma omap_flat_map {A B C : Type} (f : B -> option C) (g : A -> list B)
    (l : list A) :
  omap f (flat_map g l) = flat_map (fun x => omap f (g x)) l.
Proof.
  induction l as [|x l IH]; simpl; [reflexivity|].
  rewrite omap_app, IH. reflexivity.
Qed.

Lemma flat_map_nil {A B : Type} (l : list A) :
  flat_map (fun _ : A => @nil B) l = [].
Proof. induction l; simpl; auto. Qed.

Lemma profit_percent_ok (buy_price sell_price : float) :
  is_zero buy_price = false ->
  profit buy_price sell_price = Ok (percent buy_price sell_price).
Proof. intros H. unfold profit, fdiv. rewrite H. reflexivity. Qed.

Lemma scan_sell_appends std_symbol h active m i bx bp item opps :
  is_zero bp = false ->
  scan_sell std_symbol h active m i bx bp item opps
  = Ok (opps ++ sell_step std_symbol h active m i bx bp item).
Proof.
  intros Hbp. destruct item as [j sx]. unfold scan_sell, sell_step. simpl.
  destruct (Nat.eqb i j); [rewrite app_nil_r; reflexivity|].
  destruct (price_of h active sx "bid_price") as [sp|];
    [|rewrite app_nil_r; reflexivity].
  destruct (is_zero sp); [rewrite app_nil_r; reflexivity|].
  rewrite (profit_percent_ok _ _ Hbp). simpl.
  destruct (fge (percent bp sp) m); [reflexivity|].
  rewrite app_nil_r. reflexivity.
Qed.

Lemma scan_buy_appends std_symbol h active m item opps :
  scan_buy std_symbol h active m item opps
  = Ok (opps ++ buy_step std_symbol h active m item).
Proof.
  destruct item as [i bx]. unfold scan_buy, buy_step. simpl.
  destruct (price_of h active bx "ask_price") as [bp|];
    [|rewrite app_nil_r; reflexivity].
  destruct (is_zero bp) eqn:Hbp; [rewrite app_nil_r; reflexivity|].
  apply for_each_append. intros x s. apply scan_sell_appends, Hbp.
Qed.

(** The loops raise nothing, and append the qualifying opportunities in
    the order of the specification. *)
Lemma scan_encountered std_symbol h active m :
  scan std_symbol h active m = Ok (encountered std_symbol h active m).
Proof.
  unfold scan.
  rewrite (for_each_append (buy_step std_symbol h active m))
    by (intros; apply scan_buy_appends).
  simpl. f_equal.
  unfold encountered, ordered_pairs.
  rewrite flat_map_enumerate, omap_flat_map.
  assert (Hn : length (od_keys active) = length active)
    by (unfold od_keys; apply length_map).
  rewrite Hn. apply List.flat_map_ext. intros i.
  rewrite omap_flat_map.
  unfold buy_step, opportunity_at. simpl.
  destruct (od_keys active !! i) as [bx|] eqn:Hi; simpl.
  2:{ erewrite List.flat_map_ext; [symmetry; apply flat_map_nil|].
      intros j. destruct (Nat.eqb i j); simpl; [reflexivity|].
      rewrite Hi. reflexivity. }
  destruct (price_of h active bx "ask_price") as [bp|] eqn:Hbp.
  2:{ erewrite List.flat_map_ext; [symmetry; apply flat_map_nil|].
      intros j. destruct (Nat.eqb i j); simpl; [reflexivity|].
      rewrite Hi. destruct (od_keys active !! j); [|reflexivity].
      rewrite Hbp. reflexivity. }
  destruct (is_zero bp) eqn:Hz.
  { erewrite List.flat_map_ext; [symmetry; apply flat_map_nil|].
    intros j. destruct (Nat.eqb i j); simpl; [reflexivity|].
    rewrite Hi. destruct (od_keys active !! j); [|reflexivity].
    rewrite Hbp. destruct (price_of h active _ "bid_price"); [|reflexivity].
    rewrite Hz. reflexivity. }
  rewrite flat_map_enumerate, Hn. apply List.flat_map_ext. intros j.
  unfold sell_step. simpl.
  destruct (Nat.eqb i j); simpl.
  { destruct (od_keys active !! j); reflexivity. }
  rewrite Hi.
  destruct (od_keys active !! j) as [sx|]; [|reflexivity].
  rewrite Hbp.
  destruct (price_of h active sx "bid_price") as [sp|]; [|reflexivity].
  rewrite Hz. simpl. destruct (is_zero sp); simpl; [reflexivity|].
  destruct (fge (percent bp sp) m); reflexivity.
Qed.

(** ** The detector *)

Lemma elem_of_ordered_pairs (n i j : nat) :
  In (i, j) (ordered_pairs n) <-> i < n /\ j < n /\ i <> j.
Proof.
  unfold ordered_pairs. rewrite in_flat_map. split.
  - intros (i' & Hi & Hin). apply in_flat_map in Hin as (j' & Hj & Hin).
    apply in_seq in Hi, Hj.
    destruct (Nat.eqb_spec i' j'); simpl in Hin; [contradiction|].
    destruct Hin as [[= <- <-]|[]]. lia.
  - intros (Hi & Hj & Hne). exists i. split; [apply in_seq; lia|].
    apply in_flat_map. exists j. split; [apply in_seq; lia|].
    destruct (Nat.eqb_spec i j); [contradiction|]. left. reflexivity.
Qed.

Lemma opportunity_at_qualifies std_symbol h active m i j o :
  opportunity_at std_symbol h active m (i, j) = Some o
  <-> qualifies std_symbol h active m i j o.
Proof.
  unfold opportunity_at, qualifies. simpl. split.
  - destruct (od_keys active !! i) as [bx|] eqn:Hi; [|discriminate].
    destruct (od_keys active !! j) as [sx|] eqn:Hj; [|discriminate].
    destruct (price_of h active bx "ask_price") as [bp|] eqn:Hb; [|discriminate].
    destruct (price_of h active sx "bid_price") as [sp|] eqn:Hs; [|discriminate].
    destruct (is_zero bp) eqn:Hzb; [discriminate|].
    destruct (is_zero sp) eqn:Hzs; [discriminate|]. simpl.
    destruct (fge (percent bp sp) m) eqn:E; [|discriminate].
    intros [= <-]. simpl. repeat split; assumption.
  - destruct o as [s bx bp sx sp pp]. simpl.
    intros (-> & -> & -> & -> & -> & -> & -> & -> & ->). reflexivity.
Qed.

Lemma elem_of_encountered std_symbol h active m o :
  In o (encountered std_symbol h active m)
  <-> exists i j, i <> j /\ qualifies std_symbol h active m i j o.
Proof.
  unfold encountered. rewrite <- list_elem_of_In, list_elem_of_omap. split.
  - intros ([i j] & Hin & Ho). apply list_elem_of_In, elem_of_ordered_pairs in Hin.
    exists i, j. split; [lia|]. apply opportunity_at_qualifies, Ho.
  - intros (i & j & Hne & Hq). exists (i, j).
    split; [|apply opportunity_at_qualifies, Hq].
    apply list_elem_of_In, elem_of_ordered_pairs.
    destruct Hq as (Hi & Hj & _).
    apply lookup_lt_Some in Hi, Hj. unfold od_keys in Hi, Hj.
    rewrite length_map in Hi, Hj. lia.
Qed.

Lemma encountered_numbers std_symbol h active m :
  Forall (fun o => is_number (profit_percent o)) (encountered std_symbol h active m).
Proof.
  apply List.Forall_forall. intros o Ho.
  apply elem_of_encountered in Ho as (i & j & _ & Hq).
  destruct Hq as (_ & _ & _ & _ & _ & _ & _ & Hge & _).
  exact (leb_is_number _ _ Hge).
Qed.

(** The call returns the sorted list of the specification's opportunities
    and leaves the dicts, the entries and the callbacks as they were. *)
Lemma get_arbitrage_opportunities_returns now symbol m w std_symbol :
  _standardize_symbol symbol = Ok std_symbol ->
  exists w',
    get_arbitrage_opportunities now symbol m w
    = Ok (w', sort_desc (encountered std_symbol (objects w)
                           (active_entries now std_symbol w) m))
    /\ objects w' = objects w
    /\ _ticker_data (self w') = _ticker_data (self w)
    /\ _update_callbacks (self w') = _update_callbacks (self w)
    /\ calls w' = calls w.
Proof.
  intros Hstd. unfold get_arbitrage_opportunities, active_entries.
  rewrite Hstd. simpl.
  destruct (od_get std_symbol (_ticker_data (self w))) as [inner|].
  - rewrite scan_encountered. simpl. eexists. split; [reflexivity|].
    simpl. repeat split; reflexivity.
  - exists w. repeat split; reflexivity.
Qed.

(** The keys of a dict are distinct, and stay so under [d[k] = v] and in
    the dict of the active entries. *)
Lemma od_keys_od_set {V : Type} (k : string) (v : V) (d : list (string * V)) :
  od_keys (od_set k v d)
  = match od_get k d with
    | Some _ => od_keys d
    | None => od_keys d ++ [k]
    end.
Proof.
  unfold od_keys. induction d as [|[k' v'] d IH]; simpl; [reflexivity|].
  destruct (String.eqb k k') eqn:E; simpl.
  - apply String.eqb_eq in E. subst k'. reflexivity.
  - rewrite IH. destruct (od_get k d); reflexivity.
Qed.

Lemma od_get_None_keys {V : Type} (k : string) (d : list (string * V)) :
  od_get k d = None -> ~ In k (od_keys d).
Proof.
  unfold od_keys. induction d as [|[k' v'] d IH]; simpl; [tauto|].
  destruct (String.eqb k k') eqn:E; [discriminate|].
  apply String.eqb_neq in E. intros H [Hk|Hk]; [congruence|exact (IH H Hk)].
Qed.

Lemma NoDup_od_set {V : Type} (k : string) (v : V) (d : list (string * V)) :
  List.NoDup (od_keys d) -> List.NoDup (od_keys (od_set k v d)).
Proof.
  intros Hd. rewrite od_keys_od_set.
  destruct (od_get k d) eqn:E; [exact Hd|].
  apply NoDup_ListNoDup, NoDup_app. split; [apply NoDup_ListNoDup, Hd|].
  split; [|apply NoDup_singleton].
  intros x Hx Hk. apply list_elem_of_singleton in Hk. subst x.
  apply list_elem_of_In in Hx. exact (od_get_None_keys _ _ E Hx).
Qed.

Lemma active_exchanges_NoDup now last (d : list (string * loc)) :
  List.NoDup (od_keys d) -> List.NoDup (od_keys (active_exchanges now last d)).
Proof.
  unfold active_exchanges, od_keys. induction d as [|[k v] d IH]; simpl.
  - intros _. constructor.
  - intros Hd. inversion Hd as [|? ? Hk Hd']; subst.
    rewrite filter_cons. destruct (decide _); simpl; [|exact (IH Hd')].
    constructor; [|exact (IH Hd')].
    intros Hin. apply Hk. apply in_map_iff in Hin as ([k' v'] & Hfst & Hin).
    apply in_map_iff. exists (k', v'). split; [exact Hfst|].
    apply list_elem_of_In, list_elem_of_filter in Hin. apply list_elem_of_In, Hin.
Qed.

(** C1.  For every state, symbol and threshold the call returns; an
    opportunity is returned if and only if it is the pair of two distinct
    positions of the active entries that the step before has not skipped
    (buy-side [ask_price] and sell-side [bid_price] both neither [None]
    nor 0), with
    [profit_percent = (sell - buy) / buy * 100 >= min_profit_percent];
    the result holds each such pair once (it is a permutation of the list
    in encounter order), is sorted by [profit_percent] descending, and
    keeps opportunities of equal profit in encounter order.  In the
    scenario X, Y, Z with threshold 0.5 the result is Y->Z (3.06...%),
    Y->X, X->Z: Y->Z appears, X->Y does not. *)
Theorem arbitrage_opportunities_sorted_qualifying :
  (forall now symbol m w std_symbol,
     _standardize_symbol symbol = Ok std_symbol ->
     let h := objects w in
     let active := active_entries now std_symbol w in
     exists w' res,
       get_arbitrage_opportunities now symbol m w = Ok (w', res)
       /\ (forall o, In o res <->
             exists i j, i <> j /\ qualifies std_symbol h active m i j o)
       /\ Permutation res (encountered std_symbol h active m)
       /\ StronglySorted profit_ge res
       /\ (forall p, with_profit p res
                     = with_profit p (encountered std_symbol h active m))
       /\ (List.NoDup (od_keys active) ->
           forall o, In o res -> buy_exchange o <> sell_exchange o))
  /\ (w <- three_exchanges scenario_quotes 1000 ;;
      Ok (returned (get_arbitrage_opportunities 1001 (Some "BTC/USDT"%string) 0.5 w)))
     = Ok (Some [Opportunity "BTC/USDT" "Y" 98 "Z" 101 3.0612244897959182;
                 Opportunity "BTC/USDT" "Y" 98 "X" 99 1.0204081632653061;
                 Opportunity "BTC/USDT" "X" 100 "Z" 101 1])
  /\ (3.06 <? 3.0612244897959182)%float && (3.0612244897959182 <? 3.07)%float = true.
Proof.
  split; [|split; vm_compute; reflexivity].
  intros now symbol m w std_symbol Hstd h active.
  destruct (get_arbitrage_opportunities_returns now symbol m w _ Hstd)
    as (w' & Hret & _).
  exists w', (sort_desc (encountered std_symbol h active m)).
  assert (Hmem : forall o,
            In o (sort_desc (encountered std_symbol h active m)) <->
            exists i j, i <> j /\ qualifies std_symbol h active m i j o).
  { intros o. rewrite <- elem_of_encountered. split; intros Ho.
    - eapply Permutation_in; [apply sort_desc_perm|exact Ho].
    - eapply Permutation_in; [symmetry; apply sort_desc_perm|exact Ho]. }
  split; [exact Hret|]. split; [exact Hmem|]. split; [|split; [|split]].
  - apply sort_desc_perm.
  - apply sort_desc_sorted, encountered_numbers.
  - intros p. apply sort_desc_stable.
  - intros Hnodup o Ho Heq.
    apply Hmem in Ho as (i & j & Hij & Hi & Hj & _).
    apply Hij. rewrite <- Heq in Hj.
    apply NoDup_ListNoDup in Hnodup.
    exact (NoDup_lookup _ _ _ _ Hnodup Hi Hj).
Qed.

(** C1, witness: in the scenario X, Y, Z with threshold 0.5 the result
    is sorted and holds the pair (buy on Y, sell on Z). *)
Lemma arbitrage_opportunities_scenario_witness :
  _standardize_symbol (Some "BTC/USDT"%string) = Ok "BTC/USDT"%string
  /\ exists w' res,
       get_arbitrage_opportunities 1001 (Some "BTC/USDT"%string) 0.5 scenario_world
       = Ok (w', res)
       /\ StronglySorted profit_ge res
       /\ In (Opportunity "BTC/USDT" "Y" 98 "Z" 101 3.0612244897959182) res.
Proof.
  split; [reflexivity|].
  destruct (proj1 arbitrage_opportunities_sorted_qualifying
              1001%float (Some "BTC/USDT"%string) 0.5%float
              scenario_world "BTC/USDT"%string eq_refl)
    as (w' & res & Hret & Hmem & _ & Hs & _).
  exists w', res. split; [exact Hret|]. split; [exact Hs|].
  apply Hmem. exists 1, 2. split; [discriminate|].
  repeat split; vm_compute; reflexivity.
Defined.

(** C2.  The call never raises [ZeroDivisionError], and every returned
    opportunity has as [buy_price] the [ask_price] of its buy exchange,
    which is neither [None] nor 0, and as [sell_price] the [bid_price] of
    its sell exchange, which is neither [None] nor 0; the division that
    gives its [profit_percent] has the non-zero divisor [buy_price]. *)
Theorem arbitrage_prices_never_null now symbol m w :
  get_arbitrage_opportunities now symbol m w <> Raise ZeroDivisionError
  /\ forall w' res o,
       get_arbitrage_opportunities now symbol m w = Ok (w', res) ->
       In o res ->
       exists std_symbol,
         _standardize_symbol symbol = Ok std_symbol
         /\ price_of (objects w) (active_entries now std_symbol w)
                     (buy_exchange o) "ask_price" = Some (buy_price o)
         /\ is_zero (buy_price o) = false
         /\ price_of (objects w) (active_entries now std_symbol w)
                     (sell_exchange o) "bid_price" = Some (sell_price o)
         /\ is_zero (sell_price o) = false
         /\ profit (buy_price o) (sell_price o) = Ok (profit_percent o).
Proof.
  destruct (_standardize_symbol symbol) as [std_symbol|e] eqn:Hstd.
  - destruct (get_arbitrage_opportunities_returns now symbol m w _ Hstd)
      as (w0 & Hret & _).
    split; [rewrite Hret; discriminate|].
    intros w' res o Hres Hin. rewrite Hret in Hres. injection Hres as _ <-.
    exists std_symbol. split; [reflexivity|].
    eapply Permutation_in in Hin; [|apply sort_desc_perm].
    apply elem_of_encountered in Hin as (i & j & _ & Hq).
    destruct Hq as (_ & _ & Hb & Hs & Hzb & Hzs & Hp & _).
    repeat (split; [assumption|]).
    rewrite Hp. apply profit_percent_ok, Hzb.
  - unfold get_arbitrage_opportunities. rewrite Hstd. simpl.
    split; [|discriminate].
    destruct symbol as [s|]; [|discriminate].
    unfold _standardize_symbol in Hstd.
    repeat match type of Hstd with
           | (if ?c then _ else _) = _ => destruct c
           | match ?l with _ => _ end = _ => destruct l
           end; try discriminate; injection Hstd as <-; discriminate.
Qed.

(** ** Dicts and the store *)

Lemma od_get_od_set_eq {V : Type} (k : string) (v : V) (d : list (string * V)) :
  od_get k (od_set k v d) = Some v.
Proof.
  induction d as [|[k' v'] d IH]; simpl.
  - rewrite String.eqb_refl. reflexivity.
  - destruct (String.eqb k k') eqn:E; simpl; rewrite ?String.eqb_refl, ?E; auto.
Qed.

Lemma od_get_od_set_ne {V : Type} (k k0 : string) (v : V) (d : list (string * V)) :
  k0 <> k -> od_get k0 (od_set k v d) = od_get k0 d.
Proof.
  intros Hne. induction d as [|[k' v'] d IH]; simpl.
  - apply String.eqb_neq in Hne. rewrite Hne. reflexivity.
  - destruct (String.eqb k k') eqn:E; simpl.
    + apply String.eqb_eq in E. subst k'.
      apply String.eqb_neq in Hne. rewrite Hne. reflexivity.
    + rewrite IH. reflexivity.
Qed.

Lemma od_get_In {V : Type} (k : string) (v : V) (d : list (string * V)) :
  od_get k d = Some v -> In (k, v) d.
Proof.
  induction d as [|[k' v'] d IH]; simpl; [discriminate|].
  destruct (String.eqb k k') eqn:E.
  - apply String.eqb_eq in E. intros [= ->]. left. congruence.
  - intros H. right. exact (IH H).
Qed.

Lemma Forall_od_set {V : Type} (P : string * V -> Prop) (k : string) (v : V)
    (d : list (string * V)) :
  Forall P d -> P (k, v) -> Forall P (od_set k v d).
Proof.
  intros Hd Hkv. induction Hd as [|[k' v'] d Hx Hd IH]; simpl.
  - repeat constructor. exact Hkv.
  - destruct (String.eqb k k'); constructor; assumption.
Qed.

Lemma is_ticker_lt (h : store) (l : loc) : is_ticker h l -> l < length h.
Proof. intros [t Ht]. exact (lookup_lt_Some _ _ _ Ht). Qed.

Lemma ticker_at_insert_eq (h : store) (l : loc) (t : ticker) :
  l < length h -> ticker_at (<[l := OTicker t]> h) l = t.
Proof. intros Hl. unfold ticker_at. rewrite list_lookup_insert_eq by exact Hl. reflexivity. Qed.

Lemma ticker_at_insert_ne (h : store) (l x : loc) (o : obj) :
  x <> l -> ticker_at (<[l := o]> h) x = ticker_at h x.
Proof. intros Hne. unfold ticker_at. rewrite list_lookup_insert_ne by congruence. reflexivity. Qed.

Lemma dict_at_insert_eq (h : store) (l : loc) (d : list (string * loc)) :
  l < length h -> dict_at (<[l := ODict d]> h) l = d.
Proof. intros Hl. unfold dict_at. rewrite list_lookup_insert_eq by exact Hl. reflexivity. Qed.

Lemma dict_at_insert_ne (h : store) (l x : loc) (o : obj) :
  x <> l -> dict_at (<[l := o]> h) x = dict_at h x.
Proof. intros Hne. unfold dict_at. rewrite list_lookup_insert_ne by congruence. reflexivity. Qed.

(** Overwriting a ticker dict by a ticker dict keeps every dict of the
    store a dict of its kind. *)
Lemma is_ticker_insert (h : store) (l x : loc) (t : ticker) :
  is_ticker h x -> is_ticker (<[l := OTicker t]> h) x.
Proof.
  intros [t' Hx]. destruct (decide (x = l)) as [->|Hne].
  - exists t. apply list_lookup_insert_eq. exact (lookup_lt_Some _ _ _ Hx).
  - exists t'. rewrite list_lookup_insert_ne by congruence. exact Hx.
Qed.

Lemma lookup_dict_insert_ticker (h : store) (l x : loc) (t : ticker)
    (d : list (string * loc)) :
  is_ticker h l -> h !! x = Some (ODict d) ->
  <[l := OTicker t]> h !! x = Some (ODict d).
Proof.
  intros [t' Hl] Hx. rewrite list_lookup_insert_ne; [exact Hx|].
  intros ->. congruence.
Qed.

Lemma is_ticker_insert_dict (h : store) (l x : loc) (d : list (string * loc)) :
  is_dict h l -> is_ticker h x -> is_ticker (<[l := ODict d]> h) x.
Proof.
  intros [d' Hl] [t Hx]. exists t. rewrite list_lookup_insert_ne; [exact Hx|].
  intros ->. congruence.
Qed.

Lemma is_ticker_app (h : store) (o : obj) (x : loc) :
  is_ticker h x -> is_ticker (h ++ [o]) x.
Proof.
  intros [t Hx]. exists t. rewrite lookup_app_l; [exact Hx|].
  exact (lookup_lt_Some _ _ _ Hx).
Qed.

(** The entries of a well-formed repository, one at a time. *)
Lemma wf_lookup (w : world) (s : string) (inner : loc) :
  wf w -> od_get s (_ticker_data (self w)) = Some inner ->
  exists d, objects w !! inner = Some (ODict d)
            /\ Forall (fun e : string * loc => is_ticker (objects w) e.2) d.
Proof.
  intros Hwf Hget. apply od_get_In in Hget.
  unfold wf in Hwf. rewrite List.Forall_forall in Hwf.
  exact (Hwf _ Hget).
Qed.

Lemma wf_stored (w : world) (s ex : string) (l : loc) :
  wf w -> stored s ex w = Some l -> is_ticker (objects w) l.
Proof.
  unfold stored. intros Hwf.
  destruct (od_get s (_ticker_data (self w))) as [inner|] eqn:Hs; [|discriminate].
  destruct (wf_lookup _ _ _ Hwf Hs) as (d & Hd & Hall).
  unfold dict_at. rewrite Hd. intros Hex. apply od_get_In in Hex.
  rewrite List.Forall_forall in Hall. exact (Hall _ Hex).
Qed.

Lemma wf_init (h : store) : wf (init h).
Proof. constructor. Qed.

(** ** [update_ticker] *)

Lemma ticker_data_getitem_post (std_symbol exchange : string) (w : world) :
  wf w ->
  forall inner h1 td,
    ticker_data_getitem std_symbol (objects w) (_ticker_data (self w))
    = (inner, h1, td) ->
    od_get std_symbol td = Some inner
    /\ (exists d, h1 !! inner = Some (ODict d)
                  /\ Forall (fun e : string * loc => is_ticker h1 e.2) d
                  /\ od_get exchange d = stored std_symbol exchange w)
    /\ (forall x, x < length (objects w) -> h1 !! x = objects w !! x)
    /\ length (objects w) <= length h1
    /\ Forall (fun item : string * loc =>
                 exists d, h1 !! item.2 = Some (ODict d)
                           /\ Forall (fun e : string * loc => is_ticker h1 e.2) d)
              td.
Proof.
  intros Hwf inner h1 td. unfold ticker_data_getitem, stored.
  destruct (od_get std_symbol (_ticker_data (self w))) as [inner0|] eqn:Hget.
  - intros [= <- <- <-].
    destruct (wf_lookup _ _ _ Hwf Hget) as (d & Hd & Hall).
    split; [exact Hget|]. split.
    { exists d. repeat split; try assumption. unfold dict_at. rewrite Hd. reflexivity. }
    repeat split; auto.
  - unfold alloc. intros [= <- <- <-].
    split; [apply od_get_od_set_eq|]. split.
    { exists []. rewrite list_lookup_middle by reflexivity.
      repeat split; constructor. }
    split; [intros x Hx; apply lookup_app_l, Hx|].
    split; [rewrite length_app; lia|].
    apply Forall_od_set.
    + eapply List.Forall_impl; [|exact Hwf].
      intros [s i] (d & Hd & Hall). exists d. simpl in *. split.
      * rewrite lookup_app_l; [exact Hd|exact (lookup_lt_Some _ _ _ Hd)].
      * eapply List.Forall_impl; [|exact Hall].
        intros e He. apply is_ticker_app, He.
    + exists []. simpl. rewrite list_lookup_middle by reflexivity.
      split; [reflexivity|constructor].
Qed.

(** What a call of [update_ticker] does, on a well-formed state and a
    ticker dict [l]. *)
Lemma update_ticker_post now symbol exchange l w std_symbol :
  wf w -> is_ticker (objects w) l ->
  _standardize_symbol symbol = Ok std_symbol ->
  exists w1,
    update_ticker now symbol exchange l w = Ok w1
    /\ wf w1
    /\ stored std_symbol exchange w1 = Some l
    /\ last_written std_symbol exchange w1 = Some now
    /\ calls w1
       = calls w ++ (if changed std_symbol exchange l w
                     then map (fun cb => Call cb std_symbol exchange l)
                              (_update_callbacks (self w))
                     else [])
    /\ _update_callbacks (self w1) = _update_callbacks (self w)
    /\ ticker_at (objects w1) l = t_set_symbol std_symbol (ticker_at (objects w) l)
    /\ (forall x, x <> l -> is_ticker (objects w) x ->
                  ticker_at (objects w1) x = ticker_at (objects w) x)
    /\ (forall x, is_ticker (objects w) x -> is_ticker (objects w1) x).
Proof.
  intros Hwf Hl Hstd. unfold update_ticker. rewrite Hstd. simpl.
  destruct (ticker_data_getitem std_symbol (objects w) (_ticker_data (self w)))
    as [[inner h1] td] eqn:Hitem.
  destruct (ticker_data_getitem_post std_symbol exchange w Hwf _ _ _ Hitem)
    as (Htd & (d & Hd & Hdall & Hprev) & Hold & Hlen & Hall).
  pose proof (is_ticker_lt _ _ Hl) as Hllt.
  assert (Hl1 : is_ticker h1 l).
  { destruct Hl as [t Ht]. exists t. rewrite Hold by exact Hllt. exact Ht. }
  assert (Hne : inner <> l).
  { intros ->. destruct Hl1 as [t Ht]. congruence. }
  set (t1 := t_set_symbol std_symbol (ticker_at h1 l)).
  set (h2 := <[l := OTicker t1]> h1).
  assert (Hd2 : h2 !! inner = Some (ODict d)).
  { apply lookup_dict_insert_ticker; assumption. }
  assert (Hdict2 : dict_at h2 inner = d).
  { unfold dict_at. rewrite Hd2. reflexivity. }
  assert (Hdict1 : dict_at h1 inner = d).
  { unfold dict_at. rewrite Hd. reflexivity. }
  rewrite Hdict1, Hdict2.
  set (h3 := <[inner := ODict (od_set exchange l d)]> h2).
  assert (Hin2 : inner < length h2) by exact (lookup_lt_Some _ _ _ Hd2).
  assert (Hl1lt : l < length h1) by exact (is_ticker_lt _ _ Hl1).
  assert (Hsame : ticker_at h1 l = ticker_at (objects w) l).
  { unfold ticker_at. rewrite Hold by exact Hllt. reflexivity. }
  assert (Ht3 : forall x, is_ticker (objects w) x ->
                  is_ticker h3 x
                  /\ ticker_at h3 x
                     = if decide (x = l) then t_set_symbol std_symbol (ticker_at (objects w) l)
                       else ticker_at (objects w) x).
  { intros x Hx. pose proof (is_ticker_lt _ _ Hx) as Hxlt.
    assert (Hx1 : is_ticker h1 x).
    { destruct Hx as [t Ht]. exists t. rewrite Hold by exact Hxlt. exact Ht. }
    assert (Hxne : x <> inner).
    { intros ->. destruct Hx1 as [t Ht]. congruence. }
    split.
    - apply is_ticker_insert_dict; [exists d; exact Hd2|].
      apply is_ticker_insert, Hx1.
    - unfold h3. rewrite ticker_at_insert_ne by exact Hxne.
      unfold h2. destruct (decide (x = l)) as [->|Hxl].
      + rewrite ticker_at_insert_eq by exact Hl1lt. unfold t1. rewrite Hsame. reflexivity.
      + rewrite ticker_at_insert_ne by exact Hxl.
        unfold ticker_at. rewrite Hold by exact Hxlt. reflexivity. }
  assert (Hmark : forall x, is_ticker (objects w) x ->
                    mark_price h3 x = mark_price (objects w) x).
  { intros x Hx. unfold mark_price. rewrite (proj2 (Ht3 x Hx)).
    destruct (decide (x = l)) as [->|]; reflexivity. }
  eexists. split; [reflexivity|]. simpl.
  assert (Hstored : forall lu cbs c,
            stored std_symbol exchange (World h3 (Repo td lu cbs) c) = Some l).
  { intros lu cbs c. unfold stored. simpl. rewrite Htd.
    unfold h3. rewrite dict_at_insert_eq by exact Hin2. apply od_get_od_set_eq. }
  split; [|split; [apply Hstored|]].
  { unfold wf. simpl. eapply List.Forall_impl; [|exact Hall].
    intros [s i] (d' & Hd' & Hall'). simpl in *.
    assert (Htick : forall e : string * loc, is_ticker h1 e.2 -> is_ticker h3 e.2).
    { intros e He. apply is_ticker_insert_dict; [exists d; exact Hd2|].
      apply is_ticker_insert, He. }
    destruct (decide (i = inner)) as [->|Hi].
    - exists (od_set exchange l d). split.
      + unfold h3. apply list_lookup_insert_eq. exact Hin2.
      + apply Forall_od_set.
        * eapply List.Forall_impl; [|exact Hdall]. exact Htick.
        * apply (Htick (exchange, l)). exact Hl1.
    - exists d'. split.
      + unfold h3. rewrite list_lookup_insert_ne by congruence.
        apply lookup_dict_insert_ticker; assumption.
      + eapply List.Forall_impl; [|exact Hall']. exact Htick. }
  split.
  { unfold last_written. simpl. rewrite lookup_insert_eq. apply lookup_insert_eq. }
  split.
  { f_equal. unfold changed. rewrite <- Hprev.
    destruct (od_get exchange d) as [prev|] eqn:Hp; [|reflexivity].
    assert (Hpt : is_ticker (objects w) prev).
    { apply (wf_stored w std_symbol exchange); [exact Hwf|].
      rewrite <- Hprev. reflexivity. }
    fold (mark_price h3 prev). fold (mark_price h3 l).
    rewrite (Hmark _ Hpt), (Hmark _ Hl). reflexivity. }
  split; [reflexivity|].
  split.
  { rewrite (proj2 (Ht3 l Hl)). destruct (decide (l = l)); [reflexivity|contradiction]. }
  split.
  { intros x Hxl Hx. rewrite (proj2 (Ht3 x Hx)).
    destruct (decide (x = l)); [contradiction|reflexivity]. }
  intros x Hx. exact (proj1 (Ht3 x Hx)).
Qed.

(** ** Staleness *)

Lemma active_entries_In now std_symbol exchange l T w :
  stored std_symbol exchange w = Some l ->
  last_written std_symbol exchange w = Some T ->
  In exchange (od_keys (active_entries now std_symbol w))
  <-> (now - T <? 30)%float = true.
Proof.
  unfold stored, last_written, active_entries, active_exchanges, od_keys.
  destruct (od_get std_symbol (_ticker_data (self w))) as [inner|]; [|discriminate].
  intros Hex Hlast.
  destruct (_last_update (self w) !! std_symbol) as [last|]; [|discriminate].
  simpl. rewrite in_map_iff. split.
  - intros ([ex l'] & Heq & Hin). simpl in Heq. subst ex.
    apply list_elem_of_In, list_elem_of_filter in Hin.
    destruct Hin as [Hf _]. unfold fresh_at in Hf. simpl in Hf.
    rewrite Hlast in Hf. exact Hf.
  - intros Hf. exists (exchange, l). split; [reflexivity|].
    apply list_elem_of_In, list_elem_of_filter. split.
    + unfold fresh_at. simpl. rewrite Hlast. exact Hf.
    + apply list_elem_of_In, od_get_In, Hex.
Qed.

(** The detector changes nothing a reader of the repository sees. *)
Lemma get_arbitrage_opportunities_reads now symbol m w w' res :
  get_arbitrage_opportunities now symbol m w = Ok (w', res) ->
  objects w' = objects w
  /\ _ticker_data (self w') = _ticker_data (self w)
  /\ calls w' = calls w.
Proof.
  destruct (_standardize_symbol symbol) as [std_symbol|e] eqn:Hstd.
  - destruct (get_arbitrage_opportunities_returns now symbol m w _ Hstd)
      as (w0 & Hret & Ho & Ht & _ & Hc).
    rewrite Hret. intros [= <- _]. auto.
  - unfold get_arbitrage_opportunities. rewrite Hstd. discriminate.
Qed.

(** ** Clock readings

    For a clock reading [T] of the years 2004 to 2038
    ([2^30 <= T <= 2^31 - 32], where binary64 has 22 bits below the
    unit), adding 29, 30 or 31 seconds and taking the difference is
    exact. *)

Lemma digits2_pos_size (p : positive) : digits2_pos p = Pos.size p.
Proof. induction p; simpl; congruence. Qed.

Lemma digits2_pos_53 (q : positive) :
  (4503599627370496 <= Z.pos q < 9007199254740992)%Z ->
  digits2_pos q = 53%positive.
Proof.
  intros [Hlo Hhi]. rewrite digits2_pos_size.
  pose proof (Pos.size_gt q) as Hgt. pose proof (Pos.size_le q) as Hle.
  apply Pos2Z.pos_lt_pos in Hgt. apply Pos2Z.pos_le_pos in Hle.
  rewrite Pos2Z.inj_pow in Hgt, Hle.
  destruct (Z.lt_trichotomy (Z.pos (Pos.size q)) 53) as [E|[E|E]].
  - exfalso.
    assert (H : (2 ^ Z.pos (Pos.size q) <= 2 ^ 52)%Z)
      by (apply Z.pow_le_mono_r; lia).
    change (2 ^ 52)%Z with 4503599627370496%Z in H. lia.
  - injection E as E. exact E.
  - exfalso.
    assert (H : (2 ^ 54 <= 2 ^ Z.pos (Pos.size q))%Z)
      by (apply Z.pow_le_mono_r; lia).
    change (2 ^ 54)%Z with 18014398509481984%Z in H. lia.
Qed.

(** Rounding a 79-bit integer whose 26 low bits are 0 to 53 bits. *)
Lemma binary_round_shifted (q : positive) :
  digits2_pos q = 53%positive ->
  binary_round prec emax false (Pos.iter xO q 26) (-48) = S754_finite false q (-22).
Proof.
  intros H.
  assert (D1 : digits2_pos (Pos.iter xO q 26) = 79%positive)
    by (cbn [Pos.iter digits2_pos]; rewrite H; reflexivity).
  unfold binary_round. rewrite D1.
  change (fexp prec emax (Z.pos 79 + -48)) with (-22)%Z.
  unfold shl_align. change (-22 - -48)%Z with 26%Z. cbv beta iota.
  unfold binary_round_aux, shr_fexp. cbn [Zdigits2]. rewrite D1.
  change (fexp prec emax (Z.pos 79 + -48) - -48)%Z with 26%Z.
  unfold shr. cbn [shr_record_of_loc].
  assert (S : SpecFloat.iter_pos shr_1 26
                {| shr_m := Z.pos (Pos.iter xO q 26); shr_r := false; shr_s := false |}
              = {| shr_m := Z.pos q; shr_r := false; shr_s := false |})
    by reflexivity.
  rewrite S. cbn [shr_m loc_of_shr_record round_nearest_even Zdigits2 shr_record_of_loc].
  rewrite H.
  change (fexp prec emax (Z.pos 53 + (-48 + 26)) - (-48 + 26))%Z with 0%Z.
  reflexivity.
Qed.

Lemma SFadd_seconds (m K : positive) :
  (4503599627370496 <= Z.pos m)%Z ->
  (Z.pos m + Z.pos K * 4194304 < 9007199254740992)%Z ->
  SF64add (S754_finite false m (-22)) (S754_finite false (Pos.iter xO K 48) (-48))
  = S754_finite false (m + Pos.iter xO K 22) (-22).
Proof.
  intros Hlo Hhi. unfold SF64add, SFadd.
  change (Z.min (-22) (-48)) with (-48)%Z.
  unfold shl_align. change (-48 - -22)%Z with (Z.neg 26).
  change (-48 - -48)%Z with 0%Z.
  cbv beta iota. unfold cond_Zopp, fst, binary_normalize.
  change (Z.pos (Pos.iter xO m 26) + Z.pos (Pos.iter xO K 48))%Z
    with (Z.pos (Pos.iter xO m 26 + Pos.iter xO K 48)).
  assert (E : (Pos.iter xO m 26 + Pos.iter xO K 48
               = Pos.iter xO (m + Pos.iter xO K 22) 26)%positive).
  { cbn [Pos.iter]. lia. }
  rewrite E. apply binary_round_shifted, digits2_pos_53.
  assert (EK : Z.pos (Pos.iter xO K 22) = (Z.pos K * 4194304)%Z).
  { cbn [Pos.iter]. lia. }
  rewrite Pos2Z.inj_add, EK. lia.
Qed.

Lemma SFsub_seconds (m D : positive) :
  SF64sub (S754_finite false (m + D) (-22)) (S754_finite false m (-22))
  = binary_round prec emax false D (-22).
Proof.
  unfold SF64sub, SFsub. change (Z.min (-22) (-22)) with (-22)%Z.
  unfold shl_align. change (-22 - -22)%Z with 0%Z. cbv beta iota.
  unfold cond_Zopp, fst.
  replace (Z.pos (m + D) - Z.pos m)%Z with (Z.pos D) by lia.
  reflexivity.
Qed.

Lemma compare_cont_Eq (a b : positive) :
  Pos.compare_cont Eq a b = Z.compare (Z.pos a) (Z.pos b).
Proof. reflexivity. Qed.

(** The binary64 form of a clock reading between [2^30] and [2^31 - 32]. *)
Lemma timestamp_form (T : float) :
  (1073741824 <=? T)%float = true -> (T <=? 2147483616)%float = true ->
  exists m, Prim2SF T = S754_finite false m (-22)
            /\ (4503599627370496 <= Z.pos m <= 9007199120523264)%Z.
Proof.
  rewrite !FloatAxioms.leb_spec.
  replace (Prim2SF 1073741824) with (S754_finite false 4503599627370496 (-22))
    by (vm_compute; reflexivity).
  replace (Prim2SF 2147483616) with (S754_finite false 9007199120523264 (-22))
    by (vm_compute; reflexivity).
  unfold SFleb, SFcompare.
  destruct (Prim2SF T) as [s|s| |s m e]; try discriminate.
  - destruct s; discriminate.
  - destruct s; [discriminate|].
    rewrite !compare_cont_Eq.
    destruct (Z.compare_spec (-22) e) as [<-|Hlt|Hgt]; [| |discriminate].
    + rewrite Z.compare_refl.
      destruct (Z.compare_spec 4503599627370496 (Z.pos m)) as [E|E|E];
        destruct (Z.compare_spec (Z.pos m) 9007199120523264) as [E'|E'|E'];
        intros H1 H2; try discriminate H1; try discriminate H2;
        exists m; (split; [reflexivity|]); lia.
    + destruct (Z.compare_spec e (-22)); try discriminate; lia.
Qed.

(** The age of an entry 29, 30 or 31 seconds after it was written. *)
Lemma timestamp_age (T k : float) :
  (1073741824 <=? T)%float = true -> (T <=? 2147483616)%float = true ->
  k = 29%float \/ k = 30%float \/ k = 31%float ->
  ((T + k) - T)%float = k.
Proof.
  intros Hlo Hhi Hk. apply FloatAxioms.Prim2SF_inj.
  rewrite FloatAxioms.sub_spec, FloatAxioms.add_spec.
  destruct (timestamp_form T Hlo Hhi) as (m & -> & Hm).
  assert (H : forall K : positive,
            (Z.pos K < 32)%Z ->
            Prim2SF k = S754_finite false (Pos.iter xO K 48) (-48) ->
            binary_round prec emax false (Pos.iter xO K 22) (-22) = Prim2SF k ->
            SF64sub (SF64add (S754_finite false m (-22)) (Prim2SF k))
                    (S754_finite false m (-22)) = Prim2SF k).
  { intros K HK -> Hn. rewrite SFadd_seconds.
    - rewrite SFsub_seconds. exact Hn.
    - lia.
    - lia. }
  destruct Hk as [Hk|[Hk|Hk]]; subst k.
  - apply (H 29%positive); [lia|vm_compute; reflexivity|vm_compute; reflexivity].
  - apply (H 30%positive); [lia|vm_compute; reflexivity|vm_compute; reflexivity].
  - apply (H 31%positive); [lia|vm_compute; reflexivity|vm_compute; reflexivity].
Qed.

Lemma qualifies_active std_symbol h active m i j o :
  qualifies std_symbol h active m i j o ->
  In (buy_exchange o) (od_keys active) /\ In (sell_exchange o) (od_keys active).
Proof.
  intros (Hi & Hj & _).
  split; apply list_elem_of_In; eapply list_elem_of_lookup_2; eassumption.
Qed.

(** C3.  The detector works on the active entries and on nothing else: it
    returns exactly the qualifying pairs of two positions of the active
    entries, so both exchanges of every returned opportunity are active.
    An entry written at time [T] is among the active entries of a query
    at time [now] if and only if [now - T < 30] (strict); when it is not,
    no returned opportunity buys or sells on its exchange, and the entry
    is still stored after the detection.  For every clock reading [T] of
    the years 2004 to 2038 ([2^30 <= T <= 2^31 - 32]) the entry is active
    at [T + 29] and not at [T + 30] or [T + 31].  With X, Y, Z written at
    [T = 1700000000.5], the detector finds the three opportunities at
    [T + 29] and none at [T + 31]. *)
Theorem stale_entries_excluded :
  (forall w T symbol exchange l std_symbol now,
     wf w -> is_ticker (objects w) l ->
     _standardize_symbol symbol = Ok std_symbol ->
     exists w1,
       update_ticker T symbol exchange l w = Ok w1
       /\ (In exchange (od_keys (active_entries now std_symbol w1))
           <-> (now - T <? 30)%float = true)
       /\ forall m, exists w2 res,
            get_arbitrage_opportunities now symbol m w1 = Ok (w2, res)
            /\ (forall o, In o res <->
                  exists i j, i <> j
                    /\ qualifies std_symbol (objects w1)
                         (active_entries now std_symbol w1) m i j o)
            /\ (forall o, In o res ->
                  In (buy_exchange o) (od_keys (active_entries now std_symbol w1))
                  /\ In (sell_exchange o)
                        (od_keys (active_entries now std_symbol w1)))
            /\ ((now - T <? 30)%float = false ->
                forall o, In o res ->
                  buy_exchange o <> exchange /\ sell_exchange o <> exchange)
            /\ stored std_symbol exchange w2 = Some l
            /\ read_all w2 = read_all w1)
  /\ (forall w T symbol exchange l std_symbol,
        wf w -> is_ticker (objects w) l ->
        _standardize_symbol symbol = Ok std_symbol ->
        (1073741824 <=? T)%float = true -> (T <=? 2147483616)%float = true ->
        exists w1,
          update_ticker T symbol exchange l w = Ok w1
          /\ In exchange (od_keys (active_entries (T + 29) std_symbol w1))
          /\ ~ In exchange (od_keys (active_entries (T + 30) std_symbol w1))
          /\ ~ In exchange (od_keys (active_entries (T + 31) std_symbol w1))
          /\ forall m w2 res o,
               get_arbitrage_opportunities (T + 31) symbol m w1 = Ok (w2, res) ->
               In o res ->
               buy_exchange o <> exchange /\ sell_exchange o <> exchange)
  /\ (w <- three_exchanges scenario_quotes 1700000000.5 ;;
      Ok (od_keys (active_entries (1700000000.5 + 29) "BTC/USDT" w),
          returned (get_arbitrage_opportunities (1700000000.5 + 29)
                      (Some "BTC/USDT"%string) 0.5 w),
          od_keys (active_entries (1700000000.5 + 31) "BTC/USDT" w),
          returned (get_arbitrage_opportunities (1700000000.5 + 31)
                      (Some "BTC/USDT"%string) 0.5 w)))
     = Ok (["X"; "Y"; "Z"]%string,
           Some [Opportunity "BTC/USDT" "Y" 98 "Z" 101 3.0612244897959182;
                 Opportunity "BTC/USDT" "Y" 98 "X" 99 1.0204081632653061;
                 Opportunity "BTC/USDT" "X" 100 "Z" 101 1],
           [], Some []).
Proof.
  assert (Hgen : forall w T symbol exchange l std_symbol now,
     wf w -> is_ticker (objects w) l ->
     _standardize_symbol symbol = Ok std_symbol ->
     exists w1,
       update_ticker T symbol exchange l w = Ok w1
       /\ (In exchange (od_keys (active_entries now std_symbol w1))
           <-> (now - T <? 30)%float = true)
       /\ forall m, exists w2 res,
            get_arbitrage_opportunities now symbol m w1 = Ok (w2, res)
            /\ (forall o, In o res <->
                  exists i j, i <> j
                    /\ qualifies std_symbol (objects w1)
                         (active_entries now std_symbol w1) m i j o)
            /\ (forall o, In o res ->
                  In (buy_exchange o) (od_keys (active_entries now std_symbol w1))
                  /\ In (sell_exchange o)
                        (od_keys (active_entries now std_symbol w1)))
            /\ ((now - T <? 30)%float = false ->
                forall o, In o res ->
                  buy_exchange o <> exchange /\ sell_exchange o <> exchange)
            /\ stored std_symbol exchange w2 = Some l
            /\ read_all w2 = read_all w1).
  { intros w T symbol exchange l std_symbol now Hwf Hl Hstd.
    destruct (update_ticker_post T symbol exchange l w _ Hwf Hl Hstd)
      as (w1 & Hup & Hwf1 & Hst & Hlast & _).
    exists w1. split; [exact Hup|].
    pose proof (active_entries_In now _ _ _ _ _ Hst Hlast) as Hiff.
    split; [exact Hiff|]. intros m.
    destruct (get_arbitrage_opportunities_returns now symbol m w1 _ Hstd)
      as (w2 & Hret & Ho & Ht & _ & _).
    set (active := active_entries now std_symbol w1) in *.
    assert (Hmem : forall o,
              In o (sort_desc (encountered std_symbol (objects w1) active m)) <->
              exists i j, i <> j /\ qualifies std_symbol (objects w1) active m i j o).
    { intros o. rewrite <- elem_of_encountered. split; intros Hin.
      - eapply Permutation_in; [apply sort_desc_perm|exact Hin].
      - eapply Permutation_in; [symmetry; apply sort_desc_perm|exact Hin]. }
    assert (Hact : forall o,
              In o (sort_desc (encountered std_symbol (objects w1) active m)) ->
              In (buy_exchange o) (od_keys active)
              /\ In (sell_exchange o) (od_keys active)).
    { intros o Hin. apply Hmem in Hin as (i & j & _ & Hq).
      exact (qualifies_active _ _ _ _ _ _ _ Hq). }
    eexists w2, _. split; [exact Hret|]. split; [exact Hmem|].
    split; [exact Hact|]. split.
    - intros Hstale o Hin. destruct (Hact o Hin) as [Hb Hs].
      split; intros E; subst exchange.
      + apply Hiff in Hb. congruence.
      + apply Hiff in Hs. congruence.
    - unfold stored, read_all in *. rewrite Ho, Ht. auto. }
  split; [exact Hgen|]. split; [|vm_compute; reflexivity].
  intros w T symbol exchange l std_symbol Hwf Hl Hstd Hlo Hhi.
  destruct (Hgen w T symbol exchange l std_symbol (T + 31)%float Hwf Hl Hstd)
    as (w1 & Hup & Hiff31 & Hdet).
  destruct (Hgen w T symbol exchange l std_symbol (T + 29)%float Hwf Hl Hstd)
    as (w1' & Hup' & Hiff29 & _).
  destruct (Hgen w T symbol exchange l std_symbol (T + 30)%float Hwf Hl Hstd)
    as (w1'' & Hup'' & Hiff30 & _).
  rewrite Hup in Hup', Hup''. injection Hup' as <-. injection Hup'' as <-.
  rewrite (timestamp_age T 29 Hlo Hhi) in Hiff29 by auto.
  rewrite (timestamp_age T 30 Hlo Hhi) in Hiff30 by auto.
  rewrite (timestamp_age T 31 Hlo Hhi) in Hiff31, Hdet by auto.
  exists w1. split; [exact Hup|].
  split; [apply Hiff29; reflexivity|].
  split; [intros Hin; apply Hiff30 in Hin; discriminate Hin|].
  split; [intros Hin; apply Hiff31 in Hin; discriminate Hin|].
  intros m w2 res o Hret Hin.
  destruct (Hdet m) as (w2' & res' & Hret' & _ & _ & Hstale & _).
  rewrite Hret in Hret'. injection Hret' as <- <-.
  exact (Hstale eq_refl o Hin).
Qed.

(** C3, witness: an entry written at time 1000 into an empty repository
    is active at 1029. *)
Lemma stale_entries_excluded_witness :
  wf (init scenario_quotes) /\ is_ticker (objects (init scenario_quotes)) 0
  /\ _standardize_symbol (Some "BTC/USDT"%string) = Ok "BTC/USDT"%string
  /\ exists w1,
       update_ticker 1000 (Some "BTC/USDT"%string) "X" 0 (init scenario_quotes) = Ok w1
       /\ In "X"%string (od_keys (active_entries 1029 "BTC/USDT" w1)).
Proof.
  assert (Ht : is_ticker (objects (init scenario_quotes)) 0) by (eexists; reflexivity).
  split; [apply wf_init|]. split; [exact Ht|]. split; [reflexivity|].
  destruct (proj1 stale_entries_excluded (init scenario_quotes) 1000%float
              (Some "BTC/USDT"%string) "X"%string 0 "BTC/USDT"%string 1029%float
              (wf_init _) Ht eq_refl) as (w1 & Hup & Hiff & _).
  exists w1. split; [exact Hup|]. apply Hiff. reflexivity.
Defined.

(** ** Notification *)

Lemma update_ticker_mark_price now symbol exchange l w w1 std_symbol x :
  wf w -> is_ticker (objects w) l ->
  _standardize_symbol symbol = Ok std_symbol ->
  update_ticker now symbol exchange l w = Ok w1 ->
  is_ticker (objects w) x ->
  mark_price (objects w1) x = mark_price (objects w) x.
Proof.
  intros Hwf Hl Hstd Hup Hx.
  destruct (update_ticker_post now symbol exchange l w _ Hwf Hl Hstd)
    as (w1' & Hup' & _ & _ & _ & _ & _ & Hsame & Hother & _).
  rewrite Hup in Hup'. injection Hup' as <-.
  unfold mark_price. destruct (decide (x = l)) as [->|Hne].
  - rewrite Hsame. reflexivity.
  - rewrite (Hother x Hne Hx). reflexivity.
Qed.

Lemma write_field_read (l : loc) (key : string) (v : num) (w : world) :
  is_ticker (objects w) l ->
  t_get key (ticker_at (objects (write_field l key v w)) l) = v.
Proof.
  intros Hl. unfold write_field. simpl.
  rewrite ticker_at_insert_eq by exact (is_ticker_lt _ _ Hl).
  unfold t_get, t_set. simpl. rewrite lookup_insert_eq. reflexivity.
Qed.

Lemma write_field_stored (l : loc) (key : string) (v : num) (w : world)
    (std_symbol exchange : string) :
  wf w -> is_ticker (objects w) l ->
  stored std_symbol exchange (write_field l key v w) = stored std_symbol exchange w.
Proof.
  intros Hwf Hl. unfold stored, write_field. simpl.
  destruct (od_get std_symbol (_ticker_data (self w))) as [inner|] eqn:Hs;
    [|reflexivity].
  destruct (wf_lookup _ _ _ Hwf Hs) as (d & Hd & _).
  rewrite dict_at_insert_ne; [reflexivity|].
  intros ->. destruct Hl as [t Ht]. congruence.
Qed.

Lemma wf_insert_ticker (w : world) (l : loc) (t : ticker) (c : list call) :
  wf w -> is_ticker (objects w) l ->
  wf (World (<[l := OTicker t]> (objects w)) (self w) c).
Proof.
  intros Hwf Hl. unfold wf in *. simpl.
  eapply List.Forall_impl; [|exact Hwf].
  intros a (d & Hd & Hall). exists d. split.
  - apply lookup_dict_insert_ticker; assumption.
  - eapply List.Forall_impl; [|exact Hall]. intros e He.
    apply is_ticker_insert, He.
Qed.





(** ** The handoff of a snapshot *)

(** C6, as the code has it.  [update_ticker] writes the standardized
    symbol into the ['symbol'] entry of the caller's dict and leaves its
    other entries as they are; the entry it stores is that same dict, the
    one the adapter's [get_data] returns: a later write through the
    adapter's reference is read through the repository's entry. *)
Theorem update_ticker_stores_callers_dict
    (w : world) (now : float) (symbol : option string) (exchange : string)
    (l : loc) (std_symbol : string) (ws : adapter) :
  wf w -> is_ticker (objects w) l ->
  _standardize_symbol symbol = Ok std_symbol ->
  get_data ws = Some l ->
  exists w1,
    update_ticker now symbol exchange l w = Ok w1
    /\ stored std_symbol exchange w1 = get_data ws
    /\ t_symbol (ticker_at (objects w1) l) = Some std_symbol
    /\ t_fields (ticker_at (objects w1) l) = t_fields (ticker_at (objects w) l)
    /\ (forall x, x <> l -> is_ticker (objects w) x ->
                  ticker_at (objects w1) x = ticker_at (objects w) x)
    /\ forall key v,
         stored std_symbol exchange (write_field l key v w1) = get_data ws
         /\ t_get key (ticker_at (objects (write_field l key v w1)) l) = v.
Proof.
  intros Hwf Hl Hstd Hws.
  destruct (update_ticker_post now symbol exchange l w _ Hwf Hl Hstd)
    as (w1 & Hup & Hwf1 & Hst & _ & _ & _ & Hsame & Hother & Htick).
  exists w1. rewrite Hws, Hsame.
  repeat (split; [assumption || reflexivity|]).
  intros key v. split.
  - rewrite write_field_stored; [exact Hst|exact Hwf1|exact (Htick _ Hl)].
  - apply write_field_read, Htick, Hl.
Qed.

(** C6, witness: the dict of a Bybit adapter handed to an empty
    repository. *)
Lemma update_ticker_stores_callers_dict_witness :
  wf (init bybit_data) /\ is_ticker (objects (init bybit_data)) 0
  /\ _standardize_symbol (Some "BTCUSDT"%string) = Ok "BTC/USDT"%string
  /\ get_data (Adapter (Some 0)) = Some 0
  /\ exists w1,
       update_ticker 1000 (Some "BTCUSDT"%string) "BYBIT-spot" 0 (init bybit_data)
       = Ok w1
       /\ stored "BTC/USDT" "BYBIT-spot" w1 = get_data (Adapter (Some 0)).
Proof.
  assert (Ht : is_ticker (objects (init bybit_data)) 0) by (eexists; reflexivity).
  split; [apply wf_init|]. split; [exact Ht|].
  split; [reflexivity|]. split; [reflexivity|].
  destruct (update_ticker_stores_callers_dict (init bybit_data) 1000%float
              (Some "BTCUSDT"%string) "BYBIT-spot"%string 0 "BTC/USDT"%string
              (Adapter (Some 0)) (wf_init _) Ht eq_refl eq_refl)
    as (w1 & Hup & Hst & _).
  exists w1. split; assumption.
Defined.

(** C6, counterexample.  The Bybit adapter's dict (symbol "BTCUSDT",
    [mark_price] 100) is handed to [update_ticker]: after the call the
    caller's dict has the symbol "BTC/USDT", and the stored entry is the
    adapter's dict itself.  The adapter's next ticker message
    ([mark_price] 101) then changes what the repository's entry reads,
    and the update that follows invokes no callback, the stored and the
    new dict being one object. *)
Lemma update_ticker_mutates_and_shares :
  let ws := Adapter (Some 0) in
  let w := register_update_callback 7 (init bybit_data) in
  exists w1 w2,
    t_symbol (ticker_at (objects w) 0) = Some "BTCUSDT"%string
    /\ update_ticker 1000 (Some "BTCUSDT"%string) "BYBIT-spot" 0 w = Ok w1
    /\ t_symbol (ticker_at (objects w1) 0) = Some "BTC/USDT"%string
    /\ stored "BTC/USDT" "BYBIT-spot" w1 = get_data ws
    /\ calls w1 = [Call 7 "BTC/USDT" "BYBIT-spot" 0]
    /\ mark_price (objects w1) 0 = Some 100%float
    /\ mark_price (handle_ticker_data ws 101 6 (objects w1)) 0 = Some 101%float
    /\ update_ticker 1001 (Some "BTCUSDT"%string) "BYBIT-spot" 0
         (World (handle_ticker_data ws 101 6 (objects w1)) (self w1) (calls w1))
       = Ok w2
    /\ calls w2 = calls w1.
Proof.
  intros ws w. eexists. eexists.
  split; [reflexivity|].
  split; [vm_compute; reflexivity|].
  repeat (split; [vm_compute; reflexivity|]).
  vm_compute; reflexivity.
Qed.

(** ** The read operations *)

Lemma wf_one_entry : wf one_entry.
Proof.
  repeat constructor. exists [("X"%string, 0)]. split; [reflexivity|].
  repeat constructor. eexists. reflexivity.
Qed.

(** What a reader sees depends on the objects of the state only. *)
Lemma read_all_ext (w : world) (h' : store) (c : list call) :
  wf w ->
  (forall x, x < length (objects w) -> h' !! x = objects w !! x) ->
  read_all (World h' (self w) c) = read_all w.
Proof.
  intros Hwf Hold. unfold read_all. simpl.
  apply map_ext_in. intros [s inner] Hin. simpl.
  unfold wf in Hwf. rewrite List.Forall_forall in Hwf.
  destruct (Hwf _ Hin) as (d & Hd & Hall). simpl in Hd.
  assert (Hd' : h' !! inner = Some (ODict d)).
  { rewrite Hold; [exact Hd|exact (lookup_lt_Some _ _ _ Hd)]. }
  unfold dict_at. rewrite Hd, Hd'. f_equal.
  apply map_ext_in. intros [ex l] Hex. simpl.
  rewrite List.Forall_forall in Hall. specialize (Hall _ Hex).
  unfold ticker_at. rewrite Hold; [reflexivity|exact (is_ticker_lt _ _ Hall)].
Qed.

(** A write at a location that was not in the state is not seen. *)
Lemma read_all_new_object (w : world) (ext : store) (x : loc) (o : obj)
    (c : list call) :
  wf w -> length (objects w) <= x ->
  read_all (World (<[x := o]> (objects w ++ ext)) (self w) c) = read_all w.
Proof.
  intros Hwf Hx. apply read_all_ext; [exact Hwf|].
  intros y Hy. rewrite list_lookup_insert_ne by lia.
  apply lookup_app_l, Hy.
Qed.

Lemma In_od_set {V : Type} (k s : string) (v c : V) (d : list (string * V)) :
  In (s, c) (od_set k v d) -> (s, c) = (k, v) \/ In (s, c) d.
Proof.
  induction d as [|[k' v'] d IH]; simpl.
  - intros [H|[]]. left. congruence.
  - destruct (String.eqb k k'); simpl.
    + intros [H|H]; [left; congruence|right; right; exact H].
    + intros [H|H]; [right; left; exact H|].
      destruct (IH H) as [H'|H']; [left; exact H'|right; right; exact H'].
Qed.

Lemma copy_all_extends (items : list (string * loc)) :
  forall h acc h' d,
    copy_all items h acc = (h', d) -> exists ext, h' = h ++ ext.
Proof.
  induction items as [|[s data] items IH]; intros h acc h' d; simpl.
  - intros [= <- _]. exists []. rewrite app_nil_r. reflexivity.
  - intros Hc. apply IH in Hc as [ext ->].
    exists ([ODict (dict_at h data)] ++ ext). rewrite app_assoc. reflexivity.
Qed.

(** Every entry of the dict that [get_all_tickers] builds is a new dict
    with the entries of a dict of the repository. *)
Lemma copy_all_entries (items : list (string * loc)) :
  forall h acc h' d,
    Forall (fun item : string * loc => item.2 < length h) items ->
    copy_all items h acc = (h', d) ->
    forall s c, In (s, c) d ->
      In (s, c) acc
      \/ exists inner, In (s, inner) items /\ length h <= c
                       /\ dict_at h' c = dict_at h inner.
Proof.
  induction items as [|[s0 data] items IH]; intros h acc h' d Hvalid; simpl.
  - intros [= <- <-] s c Hin. left. exact Hin.
  - intros Hc s c Hin.
    inversion Hvalid as [|? ? Hdata Hrest]; subst. simpl in Hdata.
    pose proof (copy_all_extends _ _ _ _ _ Hc) as [ext Hext].
    assert (Hvalid1 : Forall (fun item : string * loc =>
                                item.2 < length (h ++ [ODict (dict_at h data)])) items).
    { eapply List.Forall_impl; [|exact Hrest]. intros a Ha.
      rewrite length_app. simpl. simpl in Ha. lia. }
    destruct (IH _ _ _ _ Hvalid1 Hc s c Hin) as [Hacc|(inner & Hi & Hlen & Hd)].
    + apply In_od_set in Hacc as [[= -> ->]|Hacc]; [|left; exact Hacc].
      right. exists data. split; [left; reflexivity|]. split; [lia|].
      rewrite Hext. unfold dict_at at 1.
      rewrite lookup_app_l by (rewrite length_app; simpl; lia).
      rewrite list_lookup_middle by reflexivity. reflexivity.
    + right. exists inner. split; [right; exact Hi|].
      rewrite length_app in Hlen. simpl in Hlen. split; [lia|].
      rewrite Hd. unfold dict_at. rewrite lookup_app_l; [reflexivity|].
      rewrite List.Forall_forall in Hrest. exact (Hrest _ Hi).
Qed.

Lemma copy_all_bound (items : list (string * loc)) :
  forall h acc h' d,
    copy_all items h acc = (h', d) ->
    Forall (fun e : string * loc => e.2 < length h) acc ->
    Forall (fun e : string * loc => e.2 < length h') d.
Proof.
  induction items as [|[s0 data] items IH]; intros h acc h' d; simpl.
  - intros [= <- <-] H. exact H.
  - intros Hc Hacc. eapply IH; [exact Hc|].
    apply Forall_od_set.
    + eapply List.Forall_impl; [|exact Hacc]. intros a Ha.
      rewrite length_app. simpl in *. lia.
    + simpl. rewrite length_app. simpl. lia.
Qed.

Lemma wf_valid (w : world) :
  wf w ->
  Forall (fun item : string * loc => item.2 < length (objects w))
         (_ticker_data (self w)).
Proof.
  intros Hwf. eapply List.Forall_impl; [|exact Hwf].
  intros a (d & Hd & _). exact (lookup_lt_Some _ _ _ Hd).
Qed.

(** C5, as the code has it.  [get_ticker] without an exchange (or with
    one that is not true) and [get_all_tickers] return dicts that are new
    objects holding the entries of the repository's dicts: whatever is
    written into a returned dict of exchanges or of symbols, every later
    read of the repository is as before.  The ticker dicts in them, and
    the dict that [get_ticker] returns for an exchange, are the stored
    objects themselves: a write into one is read back from the
    repository. *)
Theorem reads_copy_dicts_share_tickers (w : world) :
  wf w ->
  (forall symbol exchange w1 r,
     truthy exchange = false ->
     get_ticker symbol exchange w = Ok (w1, r) ->
     self w1 = self w /\ read_all w1 = read_all w
     /\ forall l, r = Some l ->
          length (objects w) <= l
          /\ (exists std_symbol inner,
                _standardize_symbol symbol = Ok std_symbol
                /\ od_get std_symbol (_ticker_data (self w)) = Some inner
                /\ dict_at (objects w1) l = dict_at (objects w) inner)
          /\ forall o, read_all (World (<[l := o]> (objects w1)) (self w1) (calls w1))
                       = read_all w)
  /\ (forall w1 l,
        get_all_tickers w = (w1, l) ->
        self w1 = self w /\ read_all w1 = read_all w
        /\ length (objects w) <= l
        /\ (forall s c, In (s, c) (dict_at (objects w1) l) ->
              length (objects w) <= c
              /\ exists inner, In (s, inner) (_ticker_data (self w))
                               /\ dict_at (objects w1) c = dict_at (objects w) inner)
        /\ forall x o, length (objects w) <= x ->
             read_all (World (<[x := o]> (objects w1)) (self w1) (calls w1))
             = read_all w)
  /\ (forall symbol exchange w1 r,
        truthy exchange = true ->
        get_ticker symbol exchange w = Ok (w1, r) ->
        w1 = w
        /\ exists std_symbol,
             _standardize_symbol symbol = Ok std_symbol
             /\ r = stored std_symbol (default ""%string exchange) w)
  /\ (forall std_symbol exchange l key v,
        stored std_symbol exchange w = Some l ->
        stored std_symbol exchange (write_field l key v w) = Some l
        /\ t_get key (ticker_at (objects (write_field l key v w)) l) = v).
Proof.
  intros Hwf. split; [|split; [|split]].
  - intros symbol exchange w1 r Hfalse. unfold get_ticker.
    destruct (_standardize_symbol symbol) as [std_symbol|] eqn:Hstd; [|discriminate].
    simpl.
    destruct (od_get std_symbol (_ticker_data (self w))) as [inner|] eqn:Hget.
    + rewrite Hfalse. simpl. intros [= <- <-]. simpl.
      split; [reflexivity|]. split.
      { apply read_all_ext; [exact Hwf|]. intros x Hx. apply lookup_app_l, Hx. }
      intros l [= <-]. split; [lia|]. split.
      { exists std_symbol, inner. repeat split; try assumption.
        unfold dict_at at 1. rewrite list_lookup_middle by reflexivity. reflexivity. }
      intros o. apply read_all_new_object; [exact Hwf|lia].
    + intros [= <- <-]. split; [reflexivity|]. split; [reflexivity|]. discriminate.
  - intros w1 l. unfold get_all_tickers.
    destruct (copy_all (_ticker_data (self w)) (objects w) []) as [h d] eqn:Hc.
    simpl. intros [= <- <-]. simpl.
    pose proof (copy_all_extends _ _ _ _ _ Hc) as [ext ->].
    split; [reflexivity|]. split.
    { apply read_all_ext; [exact Hwf|]. intros x Hx.
      rewrite <- app_assoc. apply lookup_app_l, Hx. }
    split; [rewrite length_app; lia|]. split.
    { intros s c. unfold dict_at at 1. rewrite list_lookup_middle by reflexivity.
      intros Hin.
      destruct (copy_all_entries _ _ _ _ _ (wf_valid _ Hwf) Hc s c Hin)
        as [[]|(inner & Hi & Hlen & Hd)].
      split; [exact Hlen|]. exists inner. split; [exact Hi|].
      rewrite <- Hd. unfold dict_at. rewrite lookup_app_l; [reflexivity|].
      pose proof (copy_all_bound _ _ _ _ _ Hc (List.Forall_nil _)) as Hb.
      rewrite List.Forall_forall in Hb. exact (Hb _ Hin). }
    intros x o Hx. rewrite <- app_assoc.
    apply read_all_new_object; [exact Hwf|exact Hx].
  - intros symbol exchange w1 r Htrue. unfold get_ticker, stored.
    destruct (_standardize_symbol symbol) as [std_symbol|] eqn:Hstd; [|discriminate].
    simpl.
    destruct (od_get std_symbol (_ticker_data (self w))) as [inner|] eqn:Hget.
    + rewrite Htrue. intros [= <- <-]. split; [reflexivity|].
      exists std_symbol. rewrite Hget. split; reflexivity.
    + intros [= <- <-]. split; [reflexivity|].
      exists std_symbol. rewrite Hget. split; reflexivity.
  - intros std_symbol exchange l key v Hst.
    pose proof (wf_stored _ _ _ _ Hwf Hst) as Hl. split.
    + rewrite write_field_stored; assumption.
    + apply write_field_read, Hl.
Qed.

(** C5, witness: the repository with the one entry ("BTC/USDT", "X"). *)
Lemma reads_copy_dicts_share_tickers_witness :
  wf one_entry
  /\ forall w1 l,
       get_all_tickers one_entry = (w1, l) ->
       forall o, read_all (World (<[l := o]> (objects w1)) (self w1) (calls w1))
                 = read_all one_entry.
Proof.
  split; [exact wf_one_entry|].
  intros w1 l Hget o.
  destruct (proj1 (proj2 (reads_copy_dicts_share_tickers one_entry wf_one_entry))
              w1 l Hget) as (_ & _ & Hl & _ & Hframe).
  apply Hframe, Hl.
Defined.

(** C5, counterexample.  In the repository with the entry
    ("BTC/USDT", "X") whose [bid_price] is 99, the dict that
    [get_ticker("BTC/USDT", "X")] returns is the stored one (location 0),
    as are the values of the dicts that [get_ticker("BTC/USDT")] and
    [get_all_tickers()] return: after the caller sets [bid_price] to 1 in
    the returned dict, [get_ticker("BTC/USDT", "X")] reads a [bid_price]
    of 1. *)
Lemma returned_ticker_is_the_stored_one :
  let read (w : world) : option num :=
    match get_ticker (Some "BTC/USDT"%string) (Some "X"%string) w with
    | Ok (w', Some l) => Some (t_get "bid_price" (ticker_at (objects w') l))
    | _ => None
    end in
  read one_entry = Some (Some 99%float)
  /\ returned (get_ticker (Some "BTC/USDT"%string) (Some "X"%string) one_entry)
     = Some (Some 0)
  /\ read (write_field 0 "bid_price" (Some 1%float) one_entry) = Some (Some 1%float)
  /\ (match get_ticker (Some "BTC/USDT"%string) None one_entry with
      | Ok (w', Some l) => Some (dict_at (objects w') l)
      | _ => None
      end) = Some [("X"%string, 0)]
  /\ (let '(w', l) := get_all_tickers one_entry in
      map (fun e : string * loc => (e.1, dict_at (objects w') e.2))
          (dict_at (objects w') l))
     = [("BTC/USDT"%string, [("X"%string, 0)])]
  /\ (99 =? 1)%float = false.
Proof. repeat split; vm_compute; reflexivity. Qed.

(** C10.  For a symbol with stored entries, [get_ticker(symbol, "")]
    does what [get_ticker(symbol)] does: it returns a new dict with the
    entries of the symbol's dict of exchanges, not the result of a lookup
    of the exchange id "". *)
Theorem get_ticker_empty_exchange_is_no_exchange
    (w : world) (symbol : option string) (std_symbol : string) (inner : loc) :
  _standardize_symbol symbol = Ok std_symbol ->
  od_get std_symbol (_ticker_data (self w)) = Some inner ->
  get_ticker symbol (Some ""%string) w = get_ticker symbol None w
  /\ exists w1 l,
       get_ticker symbol (Some ""%string) w = Ok (w1, Some l)
       /\ l = length (objects w)
       /\ dict_at (objects w1) l = dict_at (objects w) inner
       /\ (od_get ""%string (dict_at (objects w) inner) = None ->
           Some l <> stored std_symbol "" w).
Proof.
  intros Hstd Hget. split; [reflexivity|].
  unfold get_ticker, stored. rewrite Hstd. simpl. rewrite Hget. simpl.
  eexists. eexists. split; [reflexivity|]. simpl.
  split; [reflexivity|]. split.
  - unfold dict_at at 1. rewrite list_lookup_middle by reflexivity. reflexivity.
  - intros ->. discriminate.
Qed.

(** C10, witness: the repository with the one entry ("BTC/USDT", "X"). *)
Lemma get_ticker_empty_exchange_witness :
  _standardize_symbol (Some "BTC/USDT"%string) = Ok "BTC/USDT"%string
  /\ od_get "BTC/USDT"%string (_ticker_data (self one_entry)) = Some 1
  /\ get_ticker (Some "BTC/USDT"%string) (Some ""%string) one_entry
     = get_ticker (Some "BTC/USDT"%string) None one_entry.
Proof.
  split; [reflexivity|]. split; [reflexivity|].
  exact (proj1 (get_ticker_empty_exchange_is_no_exchange one_entry
                  (Some "BTC/USDT"%string) "BTC/USDT"%string 1 eq_refl eq_refl)).
Defined.

(** ** The ingestion pump *)

Lemma t_get_fill (key field : string) (t : ticker) :
  t_get key (if t_has field t then t else t_set field None t) = t_get key t.
Proof.
  unfold t_has, t_get, t_set.
  destruct (t_fields t !! field) as [v|] eqn:E; [reflexivity|]. cbn [t_fields].
  destruct (decide (field = key)) as [<-|Hne].
  - rewrite lookup_insert_eq, E. reflexivity.
  - rewrite lookup_insert_ne by exact Hne. reflexivity.
Qed.

Lemma t_get_fill_required (key : string) (t : ticker) :
  t_get key (fill_required t) = t_get key t.
Proof. unfold fill_required. cbn [foldl]. rewrite !t_get_fill. reflexivity. Qed.

Lemma t_symbol_fill_required (t : ticker) :
  t_symbol (fill_required t) = t_symbol t.
Proof.
  unfold fill_required. cbn [foldl].
  repeat match goal with
         | |- context [if t_has ?f ?x then _ else _] => destruct (t_has f x)
         end; reflexivity.
Qed.

Lemma t_get_symbol_choice (key : string) (b : bool) (s : string) (t : ticker) :
  t_get key (if b then t_set_symbol s t else t) = t_get key t.
Proof. destruct b; reflexivity. Qed.

(** The Kraken repair changes a price only when the [mark_price] is 0
    and the dict has a ['last'] entry. *)
Lemma t_get_kraken_numeric (key : string) (t : ticker) :
  t_fields t !! "last"%string = None \/ none_or_zero (t_get "mark_price" t) = false
  \/ key <> "mark_price"%string ->
  t_get key (kraken_numeric t) = t_get key t.
Proof.
  unfold kraken_numeric, t_get.
  destruct (t_fields t !! "mark_price"%string) as [[x|]|] eqn:Hm; try reflexivity.
  simpl. destruct (is_zero x) eqn:Hz; [|reflexivity].
  destruct (t_fields t !! "last"%string) as [v|] eqn:Hl; [|reflexivity].
  intros [H|[H|H]]; try discriminate.
  unfold t_set. simpl.
  rewrite lookup_insert_ne by (intros E; apply H; symmetry; exact E).
  reflexivity.
Qed.

Lemma kraken_numeric_symbol (t : ticker) :
  t_symbol (kraken_numeric t) = t_symbol t.
Proof.
  unfold kraken_numeric.
  destruct (t_fields t !! "mark_price"%string) as [[x|]|]; try reflexivity.
  destruct (is_zero x); [|reflexivity].
  destruct (t_fields t !! "last"%string); reflexivity.
Qed.

Lemma kraken_numeric_last (t : ticker) :
  t_fields t !! "last"%string = None -> kraken_numeric t = t.
Proof.
  intros Hl. unfold kraken_numeric. rewrite Hl.
  destruct (t_fields t !! "mark_price"%string) as [[x|]|]; try reflexivity.
  destruct (is_zero x); reflexivity.
Qed.

Lemma default_symbols_truthy (exchange_name : string) :
  truthy (Some (default_symbols exchange_name)) = true.
Proof.
  unfold default_symbols.
  repeat match goal with
         | |- context [if ?c then _ else _] => destruct c
         end; reflexivity.
Qed.

(** One cycle on a polled dict, step by step. *)
Lemma pump_cycle_polled now exchange_name l w :
  is_ticker (objects w) l ->
  let t0 := ticker_at (objects w) l in
  let kraken := String.eqb exchange_name "KRAKEN-spot" in
  let tk := if kraken
            then kraken_numeric (if symbol_missing t0
                                 then t_set_symbol "BTC/USD" t0 else t0)
            else t0 in
  let hk := if kraken then <[l := OTicker tk]> (objects w) else objects w in
  let t1 := if symbol_missing tk
            then t_set_symbol (default_symbols exchange_name) tk else tk in
  let w1 := World (<[l := OTicker (fill_required t1)]> hk) (self w) (calls w) in
  pump_cycle now exchange_name (Some l) w
  = if t_nonempty tk then
      if all_prices_null (fill_required t1) then (w1, Skipped)
      else match update_ticker now (t_symbol t1) exchange_name l w1 with
           | Ok w2 => (w2, Called (Ok tt))
           | Raise e => (w1, Called (Raise e))
           end
    else (World hk (self w) (calls w), Waiting).
Proof.
  intros Hl. pose proof (is_ticker_lt _ _ Hl) as Hlt.
  unfold pump_cycle, kraken_fix.
  destruct (String.eqb exchange_name "KRAKEN-spot"); cbv beta iota zeta.
  - rewrite ticker_at_insert_eq by exact Hlt. reflexivity.
  - reflexivity.
Qed.

(** The prices the pump tests are those of the polled dict, unless the
    Kraken repair replaces a zero [mark_price]. *)
Lemma pump_prices (exchange_name key : string) (t0 : ticker) :
  t_fields t0 !! "last"%string = None
  \/ none_or_zero (t_get "mark_price" t0) = false
  \/ key <> "mark_price"%string ->
  let kraken := String.eqb exchange_name "KRAKEN-spot" in
  let tk := if kraken
            then kraken_numeric (if symbol_missing t0
                                 then t_set_symbol "BTC/USD" t0 else t0)
            else t0 in
  let t1 := if symbol_missing tk
            then t_set_symbol (default_symbols exchange_name) tk else tk in
  t_get key (fill_required t1) = t_get key t0.
Proof.
  intros H kraken tk t1. unfold t1.
  rewrite t_get_fill_required, t_get_symbol_choice. unfold tk.
  destruct kraken; [|reflexivity].
  rewrite t_get_kraken_numeric; [apply t_get_symbol_choice|].
  destruct (symbol_missing t0); exact H.
Qed.

Lemma all_prices_null_iff (t : ticker) :
  all_prices_null t = true <-> prices_null t.
Proof.
  unfold all_prices_null, prices_null. cbn [forallb].
  rewrite !andb_true_iff. tauto.
Qed.

Lemma symbol_missing_nonempty (t : ticker) :
  symbol_missing t = false -> t_nonempty t = true.
Proof.
  unfold symbol_missing, t_nonempty.
  destruct (t_symbol t); [reflexivity|discriminate].
Qed.

(** One cycle on a polled dict that has no ['last'] entry, as the dict of
    no adapter has: the Kraken loop changes nothing then. *)
Lemma pump_cycle_no_last now exchange_name l w :
  is_ticker (objects w) l ->
  t_fields (ticker_at (objects w) l) !! "last"%string = None ->
  let t0 := ticker_at (objects w) l in
  let t1 := fill_required
              (if symbol_missing t0
               then t_set_symbol (default_symbols exchange_name) t0 else t0) in
  let w1 := World (<[l := OTicker t1]> (objects w)) (self w) (calls w) in
  pump_cycle now exchange_name (Some l) w
  = if String.eqb exchange_name "KRAKEN-spot" || t_nonempty t0 then
      if all_prices_null t1 then (w1, Skipped)
      else match update_ticker now (pump_symbol exchange_name t0)
                   exchange_name l w1 with
           | Ok w2 => (w2, Called (Ok tt))
           | Raise e => (w1, Called (Raise e))
           end
    else (w, Waiting).
Proof.
  intros Hl Hlast. rewrite (pump_cycle_polled now exchange_name l w Hl).
  cbv zeta. unfold pump_symbol.
  set (t0 := ticker_at (objects w) l) in *.
  destruct (String.eqb exchange_name "KRAKEN-spot") eqn:E.
  - apply String.eqb_eq in E. subst exchange_name.
    change (default_symbols "KRAKEN-spot") with "BTC/USD"%string.
    cbn [orb]. rewrite list_insert_insert_eq.
    destruct (symbol_missing t0) eqn:M.
    + rewrite (kraken_numeric_last (t_set_symbol "BTC/USD" t0)) by exact Hlast.
      reflexivity.
    + rewrite (kraken_numeric_last t0) by exact Hlast.
      rewrite M, (symbol_missing_nonempty _ M). reflexivity.
  - cbn [orb]. destruct (t_nonempty t0).
    + destruct (symbol_missing t0); reflexivity.
    + destruct w; reflexivity.
Qed.

Lemma wf_pump_dict (w : world) (l : loc) (t : ticker) (b : bool) :
  wf w -> is_ticker (objects w) l ->
  let hk := if b then <[l := OTicker t]> (objects w) else objects w in
  wf (World hk (self w) (calls w)) /\ is_ticker hk l.
Proof.
  intros Hwf Hl. destruct b; cbv zeta.
  - split; [apply wf_insert_ticker; assumption|apply is_ticker_insert, Hl].
  - split; [destruct w; exact Hwf|exact Hl].
Qed.

Lemma pump_symbol_polled (exchange_name : string) (t0 : ticker) :
  let tk := if String.eqb exchange_name "KRAKEN-spot"
            then kraken_numeric (if symbol_missing t0
                                 then t_set_symbol "BTC/USD" t0 else t0)
            else t0 in
  t_symbol (if symbol_missing tk
            then t_set_symbol (default_symbols exchange_name) tk else tk)
  = pump_symbol exchange_name t0.
Proof.
  cbv zeta. unfold pump_symbol.
  destruct (String.eqb exchange_name "KRAKEN-spot") eqn:E.
  - apply String.eqb_eq in E. subst exchange_name.
    change (default_symbols "KRAKEN-spot") with "BTC/USD"%string.
    destruct (symbol_missing t0) eqn:M.
    + set (tk := kraken_numeric (t_set_symbol "BTC/USD" t0)).
      assert (H : symbol_missing tk = false)
        by (unfold symbol_missing, tk; rewrite kraken_numeric_symbol; reflexivity).
      rewrite H. unfold tk. rewrite kraken_numeric_symbol. reflexivity.
    + set (tk := kraken_numeric t0).
      assert (H : symbol_missing tk = false)
        by (unfold symbol_missing, tk; rewrite kraken_numeric_symbol; exact M).
      rewrite H. unfold tk. apply kraken_numeric_symbol.
  - destruct (symbol_missing t0); reflexivity.
Qed.

Lemma t_get_kraken_numeric_symbol (key s : string) (t : ticker) :
  t_get key (kraken_numeric (t_set_symbol s t)) = t_get key (kraken_numeric t).
Proof.
  unfold kraken_numeric. cbn [t_fields t_set_symbol].
  destruct (t_fields t !! "mark_price"%string) as [[x|]|]; try reflexivity.
  destruct (is_zero x); [|reflexivity].
  destruct (t_fields t !! "last"%string); reflexivity.
Qed.

(** The prices the pump tests are those of [kraken_repaired]. *)
Lemma pump_tested (exchange_name key : string) (t0 : ticker) :
  let tk := if String.eqb exchange_name "KRAKEN-spot"
            then kraken_numeric (if symbol_missing t0
                                 then t_set_symbol "BTC/USD" t0 else t0)
            else t0 in
  let t1 := if symbol_missing tk
            then t_set_symbol (default_symbols exchange_name) tk else tk in
  t_get key (fill_required t1) = t_get key (kraken_repaired exchange_name t0)
  /\ t_get key tk = t_get key (kraken_repaired exchange_name t0).
Proof.
  cbv zeta. rewrite t_get_fill_required, t_get_symbol_choice.
  unfold kraken_repaired.
  destruct (String.eqb exchange_name "KRAKEN-spot"); [|split; reflexivity].
  destruct (symbol_missing t0); [|split; reflexivity].
  split; apply t_get_kraken_numeric_symbol.
Qed.

(** What the Kraken loop changes. *)
Lemma kraken_repaired_prices (exchange_name key : string) (t : ticker) :
  t_get key (kraken_repaired exchange_name t)
  = match t_fields t !! "mark_price"%string, t_fields t !! "last"%string with
    | Some (Some x), Some v =>
        if String.eqb exchange_name "KRAKEN-spot" && is_zero x
           && String.eqb key "mark_price"
        then v else t_get key t
    | _, _ => t_get key t
    end.
Proof.
  unfold kraken_repaired, kraken_numeric.
  destruct (String.eqb exchange_name "KRAKEN-spot");
    [|destruct (t_fields t !! "mark_price"%string) as [[x|]|];
      destruct (t_fields t !! "last"%string); reflexivity].
  destruct (t_fields t !! "mark_price"%string) as [[x|]|] eqn:Hm;
    try (destruct (t_fields t !! "last"%string); reflexivity).
  destruct (t_fields t !! "last"%string) as [v|] eqn:Hl;
    [|destruct (is_zero x); reflexivity].
  destruct (is_zero x); [|reflexivity]. cbn [andb].
  destruct (String.eqb_spec key "mark_price") as [->|Hne].
  - unfold t_get, t_set. cbn [t_fields]. rewrite lookup_insert_eq. reflexivity.
  - unfold t_get, t_set. cbn [t_fields].
    rewrite lookup_insert_ne by (intros E; apply Hne; symmetry; exact E).
    reflexivity.
Qed.

(** C7, as the code has it.  The pump tests the three prices after its
    Kraken loop, which for "KRAKEN-spot" replaces a [mark_price] equal to
    0 by the ['last'] entry of the polled dict when it has one.  When the
    three prices so tested are all [None] or 0 the cycle ends without a
    call of [update_ticker]: the repository and the callback invocations
    are as before, and no dict other than the polled one has changed.
    Otherwise the cycle calls [update_ticker], which stores the polled
    dict under the standardized symbol when the standardizer returns, and
    raises when it raises, the repository being as before.  The tested
    prices are those of the polled dict for every other exchange name,
    for a dict without a ['last'] entry, and for a [mark_price] that is
    [None] or not 0; so a polled dict with a price that is neither [None]
    nor 0 is always handed to [update_ticker].  The snapshot
    [mark_price=None, bid_price=0, ask_price=None, volume_24h=50] is
    skipped under every exchange name. *)
Theorem pump_skips_null_prices :
  (forall now exchange_name l w,
     is_ticker (objects w) l ->
     prices_null (kraken_repaired exchange_name (ticker_at (objects w) l)) ->
     exists w' o,
       pump_cycle now exchange_name (Some l) w = (w', o)
       /\ (o = Skipped \/ o = Waiting)
       /\ self w' = self w /\ calls w' = calls w
       /\ forall x, x <> l -> objects w' !! x = objects w !! x)
  /\ (forall now exchange_name l w,
        wf w -> is_ticker (objects w) l ->
        ~ prices_null (kraken_repaired exchange_name (ticker_at (objects w) l)) ->
        exists w' r,
          pump_cycle now exchange_name (Some l) w = (w', Called r)
          /\ (forall std_symbol,
                _standardize_symbol
                  (pump_symbol exchange_name (ticker_at (objects w) l))
                = Ok std_symbol ->
                r = Ok tt /\ stored std_symbol exchange_name w' = Some l)
          /\ (forall e,
                _standardize_symbol
                  (pump_symbol exchange_name (ticker_at (objects w) l))
                = Raise e ->
                r = Raise e /\ self w' = self w /\ calls w' = calls w))
  /\ (forall exchange_name (t : ticker),
        (String.eqb exchange_name "KRAKEN-spot" = false
         \/ t_fields t !! "last"%string = None
         \/ t_get "mark_price" t = None
         \/ none_or_zero (t_get "mark_price" t) = false ->
         forall key, t_get key (kraken_repaired exchange_name t) = t_get key t)
        /\ (~ prices_null t -> ~ prices_null (kraken_repaired exchange_name t)))
  /\ (forall now exchange_name,
        pump_cycle now exchange_name (Some 0) (init rejected_snapshot)
        = (init rejected_snapshot, Skipped)).
Proof.
  split; [|split; [|split]].
  - intros now exchange_name l w Hl Hnull.
    rewrite (pump_cycle_polled now exchange_name l w Hl). cbv zeta.
    set (t0 := ticker_at (objects w) l) in *.
    pose proof (fun key => proj1 (pump_tested exchange_name key t0)) as Htest.
    cbv zeta in Htest.
    set (tk := if String.eqb exchange_name "KRAKEN-spot" then _ else t0) in *.
    set (hk := if String.eqb exchange_name "KRAKEN-spot" then _ else objects w).
    set (t1 := if symbol_missing tk then _ else tk) in *.
    assert (Hhk : forall x, x <> l -> hk !! x = objects w !! x).
    { intros x Hx. unfold hk.
      destruct (String.eqb exchange_name "KRAKEN-spot"); [|reflexivity].
      apply list_lookup_insert_ne. congruence. }
    destruct (t_nonempty tk).
    + assert (Hall : all_prices_null (fill_required t1) = true).
      { apply all_prices_null_iff. unfold prices_null.
        rewrite !Htest. exact Hnull. }
      rewrite Hall. eexists. eexists. split; [reflexivity|].
      split; [left; reflexivity|]. simpl. repeat split.
      intros x Hx. rewrite list_lookup_insert_ne by congruence. apply Hhk, Hx.
    + eexists. eexists. split; [reflexivity|].
      split; [right; reflexivity|]. simpl. repeat split. exact Hhk.
  - intros now exchange_name l w Hwf Hl Hsome.
    rewrite (pump_cycle_polled now exchange_name l w Hl). cbv zeta.
    pose proof (pump_symbol_polled exchange_name (ticker_at (objects w) l)) as Hsym.
    cbv zeta in Hsym.
    set (t0 := ticker_at (objects w) l) in *.
    pose proof (fun key => pump_tested exchange_name key t0) as Htest.
    cbv zeta in Htest.
    set (tk := if String.eqb exchange_name "KRAKEN-spot" then _ else t0) in *.
    set (hk := if String.eqb exchange_name "KRAKEN-spot"
               then <[l := OTicker tk]> (objects w) else objects w).
    set (t1 := if symbol_missing tk then _ else tk) in *.
    destruct (wf_pump_dict w l tk (String.eqb exchange_name "KRAKEN-spot") Hwf Hl)
      as [Hwfk Hlk]. fold hk in Hwfk, Hlk.
    set (w1 := World (<[l := OTicker (fill_required t1)]> hk) (self w) (calls w)).
    assert (Hwf1 : wf w1) by exact (wf_insert_ticker _ l _ (calls w) Hwfk Hlk).
    assert (Hl1 : is_ticker (objects w1) l) by (apply is_ticker_insert, Hlk).
    assert (Hall : all_prices_null (fill_required t1) = false).
    { apply not_true_iff_false. intros Hall. apply all_prices_null_iff in Hall.
      apply Hsome. unfold prices_null in *.
      rewrite <- !(fun key => proj1 (Htest key)). exact Hall. }
    assert (Hne : t_nonempty tk = true).
    { unfold t_nonempty. destruct (t_symbol tk); [reflexivity|].
      apply negb_true_iff, bool_decide_eq_false. intros Hempty.
      apply Hsome. unfold prices_null.
      rewrite <- !(fun key => proj2 (Htest key)).
      unfold t_get. rewrite Hempty, !lookup_empty. auto. }
    rewrite Hne, Hall, Hsym.
    destruct (_standardize_symbol (pump_symbol exchange_name t0))
      as [std_symbol|e] eqn:Hstd.
    + rewrite <- Hsym in Hstd.
      destruct (update_ticker_post now _ exchange_name l w1 _ Hwf1 Hl1 Hstd)
        as (w2 & Hup & _ & Hst & _).
      rewrite Hsym in Hup. rewrite Hup.
      eexists. eexists. split; [reflexivity|]. split.
      * intros s [= <-]. split; [reflexivity|exact Hst].
      * intros e He. discriminate He.
    + assert (Hup : update_ticker now (pump_symbol exchange_name t0)
                      exchange_name l w1 = Raise e)
        by (unfold update_ticker; rewrite Hstd; reflexivity).
      rewrite Hup. eexists. eexists. split; [reflexivity|]. split.
      * intros s Hs. discriminate Hs.
      * intros e' [= <-]. repeat split.
  - intros exchange_name t. split.
    + intros H key. rewrite kraken_repaired_prices.
      destruct (t_fields t !! "mark_price"%string) as [[x|]|] eqn:Hm;
        try reflexivity.
      destruct (t_fields t !! "last"%string) as [v|] eqn:Hl; [|reflexivity].
      destruct H as [H|[H|[H|H]]].
      * rewrite H. reflexivity.
      * discriminate H.
      * unfold t_get in H. rewrite Hm in H. discriminate H.
      * unfold t_get in H. rewrite Hm in H.
        change (is_zero x = false) in H. rewrite H.
        rewrite andb_false_r. reflexivity.
    + intros Hsome Hnull. apply Hsome. unfold prices_null in *.
      destruct Hnull as (Hmk & Hb & Ha).
      rewrite kraken_repaired_prices in Hmk, Hb, Ha.
      change (String.eqb "bid_price" "mark_price") with false in Hb.
      change (String.eqb "ask_price" "mark_price") with false in Ha.
      change (String.eqb "mark_price" "mark_price") with true in Hmk.
      destruct (t_fields t !! "mark_price"%string) as [[x|]|] eqn:Hm;
        try (repeat split; assumption);
        try (destruct (t_fields t !! "last"%string); repeat split; assumption).
      destruct (t_fields t !! "last"%string) as [v|];
        [|repeat split; assumption].
      rewrite andb_false_r in Hb, Ha. rewrite andb_true_r in Hmk.
      split; [|split; assumption].
      unfold t_get in *. rewrite Hm in *.
      change (is_zero x = true). destruct (is_zero x) eqn:Hz; [reflexivity|].
      rewrite andb_false_r in Hmk. change (is_zero x = true) in Hmk. congruence.
  - intros now exchange_name.
    assert (Hl : is_ticker (objects (init rejected_snapshot)) 0)
      by (eexists; reflexivity).
    rewrite (pump_cycle_no_last now exchange_name 0 (init rejected_snapshot) Hl)
      by (vm_compute; reflexivity).
    cbv zeta.
    change (ticker_at (objects (init rejected_snapshot)) 0)
      with (Ticker (Some "BTC/USDT"%string)
              (<["mark_price"%string := None]>
                (<["bid_price"%string := Some 0%float]>
                  (<["ask_price"%string := None]>
                    (<["volume_24h"%string := Some 50%float]> ∅))))).
    set (t := Ticker _ _).
    change (symbol_missing t) with false. cbv iota.
    change (t_nonempty t) with true. rewrite orb_true_r.
    assert (Hf : fill_required t = t) by (vm_compute; reflexivity).
    rewrite Hf.
    assert (Hn : all_prices_null t = true) by (vm_compute; reflexivity).
    rewrite Hn. reflexivity.
Qed.

(** C7, witness: a polled dict with an ask of 100 and a bid of 99 is
    written. *)
Lemma pump_skips_null_prices_witness :
  wf (init scenario_quotes) /\ is_ticker (objects (init scenario_quotes)) 0
  /\ exists w' r,
       pump_cycle 1000 "BYBIT-spot" (Some 0) (init scenario_quotes) = (w', Called r)
       /\ r = Ok tt /\ stored "BTC/USDT" "BYBIT-spot" w' = Some 0.
Proof.
  assert (Ht : is_ticker (objects (init scenario_quotes)) 0) by (eexists; reflexivity).
  assert (Hn : ~ prices_null (kraken_repaired "BYBIT-spot"
                                (ticker_at (objects (init scenario_quotes)) 0))).
  { intros (_ & H & _). vm_compute in H. discriminate. }
  split; [apply wf_init|]. split; [exact Ht|].
  destruct (proj1 (proj2 pump_skips_null_prices) 1000%float "BYBIT-spot"%string 0
              (init scenario_quotes) (wf_init _) Ht Hn) as (w' & r & Hp & Hr & _).
  exists w', r. split; [exact Hp|]. apply Hr. reflexivity.
Defined.

(** C7, counterexample.  A dict polled for "KRAKEN-spot" whose
    [mark_price], [bid_price] and [ask_price] are all 0 and that has a
    ['last'] entry of 7: the cycle calls [update_ticker], and the dict is
    stored with the [mark_price] 7. *)
Lemma kraken_null_prices_written :
  prices_null (ticker_at (objects (init kraken_zero_prices)) 0)
  /\ exists w',
       pump_cycle 1000 "KRAKEN-spot" (Some 0) (init kraken_zero_prices)
       = (w', Called (Ok tt))
       /\ stored "BTC/USD" "KRAKEN-spot" w' = Some 0
       /\ mark_price (objects w') 0 = Some 7%float.
Proof.
  split; [repeat split; vm_compute; reflexivity|].
  eexists. split; [vm_compute; reflexivity|].
  split; vm_compute; reflexivity.
Qed.

(** * More properties *)

(** ** The repository's invariant and the effect of a write *)

Lemma NoDup_snd_inj {B : Type} (l : list (string * B)) (a b : string) (x : B) :
  List.NoDup (od_keys l) -> List.NoDup (map snd l) ->
  In (a, x) l -> In (b, x) l -> a = b.
Proof.
  unfold od_keys. induction l as [|[k v] l IH]; simpl; [tauto|].
  intros Hk Hv Ha Hb.
  inversion Hk as [|? ? Hk1 Hk2]; inversion Hv as [|? ? Hv1 Hv2]; subst.
  destruct Ha as [Ha|Ha], Hb as [Hb|Hb].
  - congruence.
  - exfalso. injection Ha as -> ->. apply Hv1. apply in_map_iff. exists (b, x). auto.
  - exfalso. injection Hb as -> ->. apply Hv1. apply in_map_iff. exists (a, x). auto.
  - exact (IH Hk2 Hv2 Ha Hb).
Qed.

Lemma od_get_Some_keys {V : Type} (k : string) (v : V) (d : list (string * V)) :
  List.NoDup (od_keys d) -> In (k, v) d -> od_get k d = Some v.
Proof.
  unfold od_keys. induction d as [|[k' v'] d IH]; simpl; [tauto|].
  intros Hd Hin. inversion Hd as [|? ? Hk Hd']; subst.
  destruct Hin as [[= -> ->]|Hin].
  - rewrite String.eqb_refl. reflexivity.
  - destruct (String.eqb k k') eqn:E; [|exact (IH Hd' Hin)].
    apply String.eqb_eq in E. subst k'. exfalso. apply Hk.
    apply in_map_iff. exists (k, v). auto.
Qed.

Lemma od_set_new {V : Type} (k : string) (v : V) (d : list (string * V)) :
  od_get k d = None -> od_set k v d = d ++ [(k, v)].
Proof.
  induction d as [|[k' v'] d IH]; simpl; [reflexivity|].
  destruct (String.eqb k k'); [discriminate|].
  intros H. rewrite (IH H). reflexivity.
Qed.

(** The two writes of [update_ticker] into the store. *)
Lemma update_store_dicts (h1 : store) (inner l : loc) (t : ticker)
    (d d' : list (string * loc)) :
  h1 !! inner = Some (ODict d) -> is_ticker h1 l ->
  let h3 := <[inner := ODict d']> (<[l := OTicker t]> h1) in
  dict_at h3 inner = d'
  /\ forall i, i <> inner -> dict_at h3 i = dict_at h1 i.
Proof.
  intros Hd Hl h3. unfold h3.
  assert (Hne : inner <> l) by (intros ->; destruct Hl as [t' Ht]; congruence).
  split.
  - apply dict_at_insert_eq. rewrite length_insert. exact (lookup_lt_Some _ _ _ Hd).
  - intros i Hi. rewrite dict_at_insert_ne by exact Hi.
    destruct (decide (i = l)) as [->|Hil].
    + unfold dict_at. destruct Hl as [t' Ht]. rewrite Ht.
      rewrite list_lookup_insert_eq by exact (lookup_lt_Some _ _ _ Ht). reflexivity.
    + apply dict_at_insert_ne, Hil.
Qed.

Lemma inv_wf (w : world) : inv w -> wf w.
Proof. intros H. apply H. Qed.

Lemma inv_init (h : store) : inv (init h).
Proof. repeat split; constructor. Qed.

(** What a call of [update_ticker] does to the entries: the dict is put
    under its key in the symbol's dict (an exchange already there keeps
    its place, a new one goes last), the entries of every other symbol
    are as before, and the invariant is kept. *)
Lemma update_ticker_effect now symbol exchange l w std_symbol :
  inv w -> is_ticker (objects w) l ->
  _standardize_symbol symbol = Ok std_symbol ->
  exists w1,
    update_ticker now symbol exchange l w = Ok w1
    /\ inv w1
    /\ exchanges_of std_symbol w1 = od_set exchange l (exchanges_of std_symbol w)
    /\ (forall s, s <> std_symbol -> exchanges_of s w1 = exchanges_of s w)
    /\ _last_update (self w1)
       = <[std_symbol := <[exchange := now]>
                           (default ∅ (_last_update (self w) !! std_symbol))]>
           (_last_update (self w))
    /\ od_keys (_ticker_data (self w1))
       = match od_get std_symbol (_ticker_data (self w)) with
         | Some _ => od_keys (_ticker_data (self w))
         | None => od_keys (_ticker_data (self w)) ++ [std_symbol]
         end.
Proof.
  intros (Hwf & Hkeys & Hlocs & Hdicts) Hl Hstd.
  destruct (update_ticker_post now symbol exchange l w _ Hwf Hl Hstd)
    as (w1 & Hup & Hwf1 & _).
  exists w1. split; [exact Hup|].
  revert Hup Hwf1. unfold update_ticker. rewrite Hstd. simpl.
  destruct (ticker_data_getitem std_symbol (objects w) (_ticker_data (self w)))
    as [[inner h1] td] eqn:Hitem.
  destruct (ticker_data_getitem_post std_symbol exchange w Hwf _ _ _ Hitem)
    as (Htd & (d & Hd & _ & _) & Hold & Hlen & Hall).
  assert (Hl1 : is_ticker h1 l).
  { destruct Hl as [t Ht]. exists t.
    rewrite Hold by exact (lookup_lt_Some _ _ _ Ht). exact Ht. }
  assert (Hdict1 : dict_at h1 inner = d) by (unfold dict_at; rewrite Hd; reflexivity).
  assert (Hdict2 : dict_at (<[l := OTicker (t_set_symbol std_symbol (ticker_at h1 l))]> h1)
                     inner = d).
  { unfold dict_at. erewrite lookup_dict_insert_ticker by eassumption. reflexivity. }
  rewrite Hdict1, Hdict2.
  destruct (update_store_dicts h1 inner l (t_set_symbol std_symbol (ticker_at h1 l))
              d (od_set exchange l d) Hd Hl1) as [Hnew Hother].
  intros [= <-] Hwf1.
  (* the symbol's dict before the call, and the other symbols' dicts *)
  assert (Hbefore : d = exchanges_of std_symbol w
                    /\ od_keys td
                       = match od_get std_symbol (_ticker_data (self w)) with
                         | Some _ => od_keys (_ticker_data (self w))
                         | None => od_keys (_ticker_data (self w)) ++ [std_symbol]
                         end
                    /\ List.NoDup (map snd td)
                    /\ (forall s i, s <> std_symbol -> od_get s td = Some i ->
                          od_get s (_ticker_data (self w)) = Some i
                          /\ i < length (objects w))
                    /\ (forall s, s <> std_symbol ->
                          od_get s td = od_get s (_ticker_data (self w)))).
  { unfold exchanges_of. revert Hitem. unfold ticker_data_getitem.
    destruct (od_get std_symbol (_ticker_data (self w))) as [inner0|] eqn:Hget.
    - intros [= <- <- <-]. split; [symmetry; exact Hdict1|].
      split; [reflexivity|]. split; [exact Hlocs|]. split; [|reflexivity].
      intros s i _ Hs. split; [exact Hs|].
      destruct (wf_lookup _ _ _ Hwf Hs) as (d' & Hd' & _).
      exact (lookup_lt_Some _ _ _ Hd').
    - unfold alloc. intros [= <- <- <-].
      rewrite list_lookup_middle in Hd by reflexivity. injection Hd as <-.
      split; [reflexivity|].
      rewrite od_set_new by exact Hget.
      split; [unfold od_keys; rewrite map_app; reflexivity|].
      split.
      { rewrite map_app. simpl. apply NoDup_ListNoDup, NoDup_app.
        split; [apply NoDup_ListNoDup, Hlocs|].
        split; [|apply NoDup_singleton].
        intros x Hx Hx'. apply list_elem_of_singleton in Hx'. subst x.
        apply list_elem_of_In, in_map_iff in Hx as ([s i] & Hi & Hin).
        simpl in Hi. subst i.
        pose proof (wf_valid _ Hwf) as Hv. rewrite List.Forall_forall in Hv.
        specialize (Hv _ Hin). simpl in Hv. lia. }
      assert (Hsame : forall s, s <> std_symbol ->
                od_get s (_ticker_data (self w) ++ [(std_symbol, length (objects w))])
                = od_get s (_ticker_data (self w))).
      { intros s Hs. rewrite <- (od_set_new std_symbol (length (objects w)) _ Hget).
        apply od_get_od_set_ne, Hs. }
      split; [|exact Hsame].
      intros s i Hs Hget'. rewrite (Hsame s Hs) in Hget'. split; [exact Hget'|].
      destruct (wf_lookup _ _ _ Hwf Hget') as (d' & Hd' & _).
      exact (lookup_lt_Some _ _ _ Hd'). }
  destruct Hbefore as (Hd0 & Hkeys1 & Hlocs1 & Hold_syms & Hget_other).
  assert (Hkeys_td : List.NoDup (od_keys td)).
  { rewrite Hkeys1. destruct (od_get std_symbol (_ticker_data (self w))) eqn:Hget;
      [exact Hkeys|].
    apply NoDup_ListNoDup, NoDup_app. split; [apply NoDup_ListNoDup, Hkeys|].
    split; [|apply NoDup_singleton].
    intros x Hx Hx'. apply list_elem_of_singleton in Hx'. subst x.
    apply list_elem_of_In in Hx. exact (od_get_None_keys _ _ Hget Hx). }
  assert (Hother_syms : forall s i, s <> std_symbol -> od_get s td = Some i ->
            i <> inner).
  { intros s i Hs Hget' ->. apply Hs.
    exact (NoDup_snd_inj td s std_symbol inner Hkeys_td Hlocs1
             (od_get_In _ _ _ Hget') (od_get_In _ _ _ Htd)). }
  assert (Hexch_other : forall lu cbs c s, s <> std_symbol ->
            exchanges_of s
              (World (<[inner := ODict (od_set exchange l d)]>
                        (<[l := OTicker (t_set_symbol std_symbol (ticker_at h1 l))]> h1))
                     (Repo td lu cbs) c)
            = exchanges_of s w).
  { intros lu cbs c s Hs. unfold exchanges_of. simpl. rewrite (Hget_other s Hs).
    destruct (od_get s (_ticker_data (self w))) as [i|] eqn:Hget'; [|reflexivity].
    rewrite <- (Hget_other s Hs) in Hget'.
    rewrite (Hother i (Hother_syms s i Hs Hget')).
    unfold dict_at. rewrite Hold; [reflexivity|].
    exact (proj2 (Hold_syms s i Hs Hget')). }
  split; [|split; [|split; [|split]]].
  - split; [exact Hwf1|]. simpl. split; [exact Hkeys_td|]. split; [exact Hlocs1|].
    apply List.Forall_forall. intros [s i] Hin. simpl.
    destruct (decide (i = inner)) as [->|Hi].
    + rewrite Hnew. apply NoDup_od_set.
      assert (Hs : s = std_symbol).
      { exact (NoDup_snd_inj td s std_symbol inner Hkeys_td Hlocs1 Hin
                 (od_get_In _ _ _ Htd)). }
      subst s. rewrite Hd0. unfold exchanges_of.
      destruct (od_get std_symbol (_ticker_data (self w))) as [i0|] eqn:Hget;
        [|constructor].
      rewrite List.Forall_forall in Hdicts.
      exact (Hdicts _ (od_get_In _ _ _ Hget)).
    + rewrite (Hother i Hi).
      assert (Hs : s <> std_symbol).
      { intros ->. apply Hi.
        pose proof (od_get_Some_keys _ _ _ Hkeys_td Hin) as Hg. congruence. }
      pose proof (od_get_Some_keys _ _ _ Hkeys_td Hin) as Hg.
      destruct (Hold_syms s i Hs Hg) as [Hg0 Hlt].
      unfold dict_at. rewrite Hold by exact Hlt.
      rewrite List.Forall_forall in Hdicts.
      exact (Hdicts _ (od_get_In _ _ _ Hg0)).
  - unfold exchanges_of at 1. simpl. rewrite Htd, Hnew, Hd0. reflexivity.
  - intros s Hs. apply Hexch_other, Hs.
  - reflexivity.
  - exact Hkeys1.
Qed.

Lemma stored_exchanges_of (s exchange : string) (w : world) :
  stored s exchange w = od_get exchange (exchanges_of s w).
Proof.
  unfold stored, exchanges_of.
  destruct (od_get s (_ticker_data (self w))); reflexivity.
Qed.

(** X1.  A write touches its own key only: the dict stored and the time
    of the last write of every other (symbol, exchange) are as before,
    and no ticker dict but the written one is changed. *)
Theorem update_ticker_other_keys now symbol exchange l w std_symbol :
  inv w -> is_ticker (objects w) l ->
  _standardize_symbol symbol = Ok std_symbol ->
  exists w1,
    update_ticker now symbol exchange l w = Ok w1
    /\ (forall s ex, s <> std_symbol \/ ex <> exchange ->
          stored s ex w1 = stored s ex w
          /\ last_written s ex w1 = last_written s ex w)
    /\ (forall x, x <> l -> is_ticker (objects w) x ->
          ticker_at (objects w1) x = ticker_at (objects w) x).
Proof.
  intros Hinv Hl Hstd.
  destruct (update_ticker_effect now symbol exchange l w _ Hinv Hl Hstd)
    as (w1 & Hup & _ & Hsame & Hother & Hlast & _).
  destruct (update_ticker_post now symbol exchange l w _ (inv_wf _ Hinv) Hl Hstd)
    as (w1' & Hup' & _ & _ & _ & _ & _ & _ & Htick & _).
  exists w1. split; [exact Hup|]. split.
  - intros s ex Hne. rewrite !stored_exchanges_of. unfold last_written.
    rewrite Hlast.
    destruct (decide (s = std_symbol)) as [->|Hs].
    + destruct Hne as [Hne|Hne]; [contradiction|].
      rewrite Hsame, od_get_od_set_ne by exact Hne. split; [reflexivity|].
      rewrite lookup_insert_eq.
      rewrite lookup_insert_ne by (intros E; apply Hne; symmetry; exact E).
      destruct (_last_update (self w) !! std_symbol); [reflexivity|].
      simpl. apply lookup_empty.
    + rewrite (Hother s Hs). split; [reflexivity|].
      rewrite lookup_insert_ne by (intros E; apply Hs; symmetry; exact E).
      reflexivity.
  - rewrite Hup in Hup'. injection Hup' as <-. exact Htick.
Qed.

(** X1, witness: a write for "Y" next to the entry ("BTC/USDT", "X"). *)
Lemma update_ticker_other_keys_witness :
  let w := World (objects one_entry ++ [quote 98 97]) (self one_entry) [] in
  inv w /\ is_ticker (objects w) 2
  /\ exists w1,
       update_ticker 1001 (Some "BTCUSDT"%string) "Y" 2 w = Ok w1
       /\ stored "BTC/USDT" "X" w1 = Some 0.
Proof.
  intros w.
  assert (Hinv : inv w).
  { split; [|split; [|split]].
    - repeat constructor. exists [("X"%string, 0)]. split; [reflexivity|].
      repeat constructor. eexists. reflexivity.
    - repeat constructor. vm_compute. tauto.
    - repeat constructor. vm_compute. tauto.
    - repeat constructor. vm_compute. tauto. }
  assert (Ht : is_ticker (objects w) 2) by (eexists; reflexivity).
  split; [exact Hinv|]. split; [exact Ht|].
  destruct (update_ticker_other_keys 1001%float (Some "BTCUSDT"%string) "Y"%string
              2 w "BTC/USDT"%string Hinv Ht eq_refl) as (w1 & Hup & Hkeys & _).
  exists w1. split; [exact Hup|].
  assert (Hne : "X"%string <> "Y"%string) by discriminate.
  destruct (Hkeys "BTC/USDT"%string "X"%string (or_intror Hne)) as [Hs _].
  rewrite Hs. vm_compute. reflexivity.
Defined.

(** X2.  Writes are last-write-wins and keep the order of first writes:
    after a write the key holds the written dict and the time of the
    call, an exchange that had an entry keeps its position among the
    exchanges of the symbol, and a new exchange is put last.  So a second
    write for a key replaces the first and adds no entry. *)
Theorem update_ticker_last_write_wins now symbol exchange l w std_symbol :
  inv w -> is_ticker (objects w) l ->
  _standardize_symbol symbol = Ok std_symbol ->
  exists w1,
    update_ticker now symbol exchange l w = Ok w1
    /\ inv w1
    /\ stored std_symbol exchange w1 = Some l
    /\ last_written std_symbol exchange w1 = Some now
    /\ od_keys (exchanges_of std_symbol w1)
       = match stored std_symbol exchange w with
         | Some _ => od_keys (exchanges_of std_symbol w)
         | None => od_keys (exchanges_of std_symbol w) ++ [exchange]
         end
    /\ forall now2 l2,
         is_ticker (objects w) l2 ->
         exists w2,
           update_ticker now2 symbol exchange l2 w1 = Ok w2
           /\ stored std_symbol exchange w2 = Some l2
           /\ last_written std_symbol exchange w2 = Some now2
           /\ od_keys (exchanges_of std_symbol w2)
              = od_keys (exchanges_of std_symbol w1).
Proof.
  intros Hinv Hl Hstd.
  destruct (update_ticker_effect now symbol exchange l w _ Hinv Hl Hstd)
    as (w1 & Hup & Hinv1 & Hsame & _).
  destruct (update_ticker_post now symbol exchange l w _ (inv_wf _ Hinv) Hl Hstd)
    as (w1' & Hup' & _ & Hst & Hlast & _ & _ & _ & _ & Htick).
  rewrite Hup in Hup'. injection Hup' as <-.
  exists w1. repeat (split; [assumption|]). split.
  - rewrite Hsame, od_keys_od_set, stored_exchanges_of. reflexivity.
  - intros now2 l2 Hl2.
    destruct (update_ticker_effect now2 symbol exchange l2 w1 _ Hinv1 (Htick _ Hl2) Hstd)
      as (w2 & Hup2 & _ & Hsame2 & _).
    destruct (update_ticker_post now2 symbol exchange l2 w1 _ (inv_wf _ Hinv1)
                (Htick _ Hl2) Hstd)
      as (w2' & Hup2' & _ & Hst2 & Hlast2 & _).
    rewrite Hup2 in Hup2'. injection Hup2' as <-.
    exists w2. repeat (split; [assumption|]).
    rewrite Hsame2, od_keys_od_set, <- stored_exchanges_of, Hst. reflexivity.
Qed.

(** X2, witness: two writes for ("BTC/USDT", "X") into an empty
    repository. *)
Lemma update_ticker_last_write_wins_witness :
  inv (init scenario_quotes) /\ is_ticker (objects (init scenario_quotes)) 0
  /\ exists w1 w2,
       update_ticker 1000 (Some "BTC/USDT"%string) "X" 0 (init scenario_quotes) = Ok w1
       /\ update_ticker 1001 (Some "BTC/USDT"%string) "X" 1 w1 = Ok w2
       /\ stored "BTC/USDT" "X" w2 = Some 1
       /\ od_keys (exchanges_of "BTC/USDT" w2) = ["X"%string].
Proof.
  assert (Ht : forall n, n < 3 -> is_ticker (objects (init scenario_quotes)) n).
  { intros [|[|[|n]]] Hn; try lia; eexists; reflexivity. }
  split; [apply inv_init|]. split; [apply Ht; lia|].
  destruct (update_ticker_last_write_wins 1000%float (Some "BTC/USDT"%string)
              "X"%string 0 (init scenario_quotes) "BTC/USDT"%string
              (inv_init _) (Ht 0 ltac:(lia)) eq_refl)
    as (w1 & Hup & _ & _ & _ & Hkeys & Hnext).
  destruct (Hnext 1001%float 1 (Ht 1 ltac:(lia))) as (w2 & Hup2 & Hst2 & _ & Hkeys2).
  exists w1, w2. repeat (split; [assumption|]).
  rewrite Hkeys2, Hkeys. reflexivity.
Defined.

(** X3.  Writing and reading a key is a round trip whatever the spelling
    of the symbol: after [update_ticker(symbol, exchange, d)], a call
    [get_ticker(symbol', exchange)] with a symbol that standardizes to the
    same key and a non-empty exchange id returns the dict [d] itself and
    changes nothing. *)
Theorem get_ticker_after_update now symbol symbol' exchange l w std_symbol :
  wf w -> is_ticker (objects w) l ->
  _standardize_symbol symbol = Ok std_symbol ->
  _standardize_symbol symbol' = Ok std_symbol ->
  exchange <> EmptyString ->
  exists w1,
    update_ticker now symbol exchange l w = Ok w1
    /\ get_ticker symbol' (Some exchange) w1 = Ok (w1, Some l).
Proof.
  intros Hwf Hl Hstd Hstd' Hex.
  destruct (update_ticker_post now symbol exchange l w _ Hwf Hl Hstd)
    as (w1 & Hup & _ & Hst & _).
  exists w1. split; [exact Hup|].
  unfold get_ticker. rewrite Hstd'. cbn [bind].
  unfold stored in Hst.
  destruct (od_get std_symbol (_ticker_data (self w1))) as [inner|]; [|discriminate].
  assert (Htrue : truthy (Some exchange) = true).
  { destruct exchange; [contradiction|reflexivity]. }
  rewrite Htrue. change (default EmptyString (Some exchange)) with exchange.
  rewrite Hst. reflexivity.
Qed.

(** X3, witness: written as "BTCUSDT", read as "btc-usdt". *)
Lemma get_ticker_after_update_witness :
  wf (init scenario_quotes) /\ is_ticker (objects (init scenario_quotes)) 0
  /\ _standardize_symbol (Some "BTCUSDT"%string) = Ok "BTC/USDT"%string
  /\ _standardize_symbol (Some "btc-usdt"%string) = Ok "BTC/USDT"%string
  /\ exists w1,
       update_ticker 1000 (Some "BTCUSDT"%string) "HUOBI-spot" 0 (init scenario_quotes)
       = Ok w1
       /\ get_ticker (Some "btc-usdt"%string) (Some "HUOBI-spot"%string) w1
          = Ok (w1, Some 0).
Proof.
  assert (Ht : is_ticker (objects (init scenario_quotes)) 0) by (eexists; reflexivity).
  split; [apply wf_init|]. split; [exact Ht|].
  split; [reflexivity|]. split; [reflexivity|].
  apply (get_ticker_after_update 1000%float (Some "BTCUSDT"%string)
           (Some "btc-usdt"%string) "HUOBI-spot"%string 0 (init scenario_quotes)
           "BTC/USDT"%string (wf_init _) Ht eq_refl eq_refl).
  discriminate.
Defined.

Lemma ne_self (m : num) :
  match m with Some x => is_number x | None => True end -> ne m m = false.
Proof.
  destruct m as [x|]; simpl; [|reflexivity].
  unfold is_number. intros ->. reflexivity.
Qed.

(** X4.  Handing over the dict that is already stored for the key never
    notifies: when the stored dict and the new one are one object whose
    [mark_price] is [None] or a number, [update_ticker] invokes no
    callback, whatever has been written into the dict since the last
    call. *)
Theorem update_ticker_same_dict_is_silent now symbol exchange l w std_symbol :
  wf w -> stored std_symbol exchange w = Some l ->
  _standardize_symbol symbol = Ok std_symbol ->
  match mark_price (objects w) l with
  | Some x => is_number x
  | None => True
  end ->
  exists w1,
    update_ticker now symbol exchange l w = Ok w1
    /\ calls w1 = calls w
    /\ stored std_symbol exchange w1 = Some l.
Proof.
  intros Hwf Hst Hstd Hm.
  pose proof (wf_stored _ _ _ _ Hwf Hst) as Hl.
  destruct (update_ticker_post now symbol exchange l w _ Hwf Hl Hstd)
    as (w1 & Hup & _ & Hst1 & _ & Hcalls & _).
  exists w1. split; [exact Hup|]. split; [|exact Hst1].
  rewrite Hcalls. unfold changed. rewrite Hst, (ne_self _ Hm). apply app_nil_r.
Qed.

(** X4, witness: the entry ("BTC/USDT", "X") handed over again. *)
Lemma update_ticker_same_dict_is_silent_witness :
  wf one_entry /\ stored "BTC/USDT" "X" one_entry = Some 0
  /\ exists w1,
       update_ticker 1001 (Some "BTC/USDT"%string) "X" 0
         (register_update_callback 7 one_entry) = Ok w1
       /\ calls w1 = [].
Proof.
  split; [exact wf_one_entry|]. split; [reflexivity|].
  assert (Hwf : wf (register_update_callback 7 one_entry)) by exact wf_one_entry.
  destruct (update_ticker_same_dict_is_silent 1001%float (Some "BTC/USDT"%string)
              "X"%string 0 (register_update_callback 7 one_entry) "BTC/USDT"%string
              Hwf eq_refl eq_refl I) as (w1 & Hup & Hcalls & _).
  exists w1. split; [exact Hup|exact Hcalls].
Defined.

(** ** The invariant in every reachable state *)

(** The invariant reads the symbols' dicts and the objects they name. *)
Lemma inv_ext (w : world) (h' : store) (r' : ExchangeDataRepository)
    (c : list call) :
  inv w ->
  _ticker_data r' = _ticker_data (self w) ->
  (forall x, x < length (objects w) -> h' !! x = objects w !! x) ->
  inv (World h' r' c).
Proof.
  intros (Hwf & Hkeys & Hlocs & Hdicts) Htd Hold.
  unfold inv, wf. simpl. rewrite Htd.
  split; [|split; [exact Hkeys|split; [exact Hlocs|]]].
  - eapply List.Forall_impl; [|exact Hwf].
    intros a (d & Hd & Hall). exists d. split.
    + rewrite Hold; [exact Hd|exact (lookup_lt_Some _ _ _ Hd)].
    + eapply List.Forall_impl; [|exact Hall]. intros e [t Ht]. exists t.
      rewrite Hold; [exact Ht|exact (lookup_lt_Some _ _ _ Ht)].
  - apply List.Forall_forall. intros a Ha.
    unfold wf in Hwf. rewrite List.Forall_forall in Hwf, Hdicts.
    destruct (Hwf _ Ha) as (d & Hd & _). specialize (Hdicts _ Ha).
    unfold dict_at in *. rewrite Hold; [exact Hdicts|exact (lookup_lt_Some _ _ _ Hd)].
Qed.

Lemma inv_insert_ticker (w : world) (l : loc) (t : ticker) (c : list call) :
  inv w -> is_ticker (objects w) l ->
  inv (World (<[l := OTicker t]> (objects w)) (self w) c).
Proof.
  intros (Hwf & Hkeys & Hlocs & Hdicts) Hl.
  split; [apply wf_insert_ticker; assumption|].
  simpl. split; [exact Hkeys|]. split; [exact Hlocs|].
  apply List.Forall_forall. intros a Ha.
  unfold wf in Hwf. rewrite List.Forall_forall in Hwf, Hdicts.
  destruct (Hwf _ Ha) as (d & Hd & _). specialize (Hdicts _ Ha).
  unfold dict_at in *. erewrite lookup_dict_insert_ticker by eassumption.
  rewrite Hd in Hdicts. exact Hdicts.
Qed.

Lemma inv_app (w : world) (ext : store) (c : list call) :
  inv w -> inv (World (objects w ++ ext) (self w) c).
Proof.
  intros Hinv. apply inv_ext with (w := w); [exact Hinv|reflexivity|].
  intros x Hx. apply lookup_app_l, Hx.
Qed.

Lemma kraken_fix_shape (polled : option loc) (h h' : store) (l : loc) :
  kraken_fix polled h = (l, h') ->
  (forall l0, polled = Some l0 -> is_ticker h l0) ->
  exists ext t, h' = <[l := OTicker t]> (h ++ ext) /\ is_ticker (h ++ ext) l.
Proof.
  unfold kraken_fix. destruct polled as [l0|].
  - intros [= <- <-] Hl. eexists [], _. rewrite app_nil_r.
    split; [reflexivity|]. apply Hl. reflexivity.
  - unfold alloc. intros [= <- <-] _. eexists [_], _.
    split; [reflexivity|]. eexists. apply list_lookup_middle. reflexivity.
Qed.

Lemma pump_cycle_inv now exchange_name polled w w1 o :
  inv w ->
  (forall l, polled = Some l -> is_ticker (objects w) l) ->
  pump_cycle now exchange_name polled w = (w1, o) -> inv w1.
Proof.
  intros Hinv Hpolled.
  (* the state and the dict after the Kraken branch *)
  assert (Hk : forall p h,
            (if String.eqb exchange_name "KRAKEN-spot"
             then let '(l, h) := kraken_fix polled (objects w) in (Some l, h)
             else (polled, objects w)) = (p, h) ->
            inv (World h (self w) (calls w))
            /\ forall l, p = Some l -> is_ticker h l).
  { intros p h. destruct (String.eqb exchange_name "KRAKEN-spot").
    - destruct (kraken_fix polled (objects w)) as [l0 h0] eqn:Hfix.
      intros [= <- <-].
      destruct (kraken_fix_shape _ _ _ _ Hfix Hpolled) as (ext & t & -> & Hl0).
      split.
      + apply (inv_insert_ticker (World (objects w ++ ext) (self w) (calls w)));
          [apply inv_app, Hinv|exact Hl0].
      + intros l' [= <-]. apply is_ticker_insert, Hl0.
    - intros [= <- <-]. split; [destruct w; exact Hinv|exact Hpolled]. }
  unfold pump_cycle.
  destruct (if String.eqb exchange_name "KRAKEN-spot" then _ else _)
    as [p h] eqn:Hp.
  destruct (Hk p h eq_refl) as [Hinvk Hpk]. clear Hk Hp.
  destruct p as [l|]; [|intros [= <- _]; exact Hinvk].
  specialize (Hpk l eq_refl).
  destruct (t_nonempty (ticker_at h l)); [|intros [= <- _]; exact Hinvk].
  set (t := fill_required _).
  assert (Hinv1 : inv (World (<[l := OTicker t]> h) (self w) (calls w))).
  { apply (inv_insert_ticker (World h (self w) (calls w))); assumption. }
  destruct (all_prices_null t); [intros [= <- _]; exact Hinv1|].
  destruct (update_ticker now _ exchange_name l _) as [w2|e] eqn:Hup;
    [|intros [= <- _]; exact Hinv1].
  intros [= <- _].
  destruct (_standardize_symbol
              (t_symbol (if symbol_missing (ticker_at h l)
                         then t_set_symbol (default_symbols exchange_name) (ticker_at h l)
                         else ticker_at h l))) as [std|e] eqn:Hstd.
  - destruct (update_ticker_effect now _ exchange_name l _ std Hinv1
                (is_ticker_insert _ _ _ _ Hpk) Hstd) as (w2' & Hup' & Hinv2 & _).
    rewrite Hup in Hup'. injection Hup' as <-. exact Hinv2.
  - unfold update_ticker in Hup. rewrite Hstd in Hup. discriminate.
Qed.

Lemma step_inv (w w1 : world) : step w w1 -> inv w -> inv w1.
Proof.
  intros Hstep Hinv. destruct Hstep
    as [now symbol exchange l w w1 Hl Hup | cb w
        | symbol exchange w w1 r Hget | w w1 l Hget
        | now symbol m w w1 res Hget | now name polled w w1 o Hp Hpump
        | l t w Hl | o w].
  - destruct (_standardize_symbol symbol) as [std|e] eqn:Hstd.
    + destruct (update_ticker_effect now symbol exchange l w std Hinv Hl Hstd)
        as (w1' & Hup' & Hinv1 & _).
      rewrite Hup in Hup'. injection Hup' as <-. exact Hinv1.
    + unfold update_ticker in Hup. rewrite Hstd in Hup. discriminate.
  - apply inv_ext with (w := w); [exact Hinv|reflexivity|reflexivity].
  - revert Hget. unfold get_ticker.
    destruct (_standardize_symbol symbol) as [std|e]; [|discriminate]. simpl.
    destruct (od_get std (_ticker_data (self w))) as [inner|];
      [|intros [= <- _]; exact Hinv].
    destruct (truthy exchange); [intros [= <- _]; exact Hinv|].
    unfold alloc. intros [= <- _]. apply inv_app, Hinv.
  - revert Hget. unfold get_all_tickers.
    destruct (copy_all (_ticker_data (self w)) (objects w) []) as [h d] eqn:Hc.
    unfold alloc. intros [= <- _].
    destruct (copy_all_extends _ _ _ _ _ Hc) as [ext ->].
    rewrite <- app_assoc. apply inv_app, Hinv.
  - destruct (get_arbitrage_opportunities_reads _ _ _ _ _ _ Hget) as (Ho & Ht & _).
    destruct w1 as [h1 r1 c1]. simpl in *. subst h1.
    apply inv_ext with (w := w); [exact Hinv|exact Ht|reflexivity].
  - exact (pump_cycle_inv _ _ _ _ _ _ Hinv Hp Hpump).
  - apply inv_insert_ticker; assumption.
  - apply inv_app, Hinv.
Qed.

(** X5.  In every state the program reaches from a new repository, the
    repository holds at most one dict of exchanges per symbol and at most
    one entry per exchange in it, different symbols have different dicts,
    and every entry is a live ticker dict. *)
Theorem reachable_inv (h : store) (w : world) : reachable h w -> inv w.
Proof.
  unfold reachable. intros Hr.
  assert (H : forall a b, rtc step a b -> inv a -> inv b).
  { intros a b Hab. induction Hab as [|a b c Hs _ IH]; [tauto|].
    intros Ha. apply IH. exact (step_inv _ _ Hs Ha). }
  exact (H _ _ Hr (inv_init h)).
Qed.

(** X5, witness: the state after one write into an empty repository. *)
Lemma reachable_inv_witness :
  exists w1,
    update_ticker 1000 (Some "BTC/USDT"%string) "X" 0 (init scenario_quotes) = Ok w1
    /\ reachable scenario_quotes w1 /\ inv w1.
Proof.
  assert (Ht : is_ticker (objects (init scenario_quotes)) 0) by (eexists; reflexivity).
  destruct (update_ticker_post 1000%float (Some "BTC/USDT"%string) "X"%string 0
              (init scenario_quotes) "BTC/USDT"%string (wf_init _) Ht eq_refl)
    as (w1 & Hup & _).
  exists w1. split; [exact Hup|].
  assert (Hr : reachable scenario_quotes w1).
  { eapply rtc_l; [|apply rtc_refl]. eapply step_update; eassumption. }
  split; [exact Hr|]. exact (reachable_inv _ _ Hr).
Defined.

(** ** [get_all_tickers] *)

Lemma copy_all_fresh (items : list (string * loc)) :
  forall h acc,
    List.NoDup (od_keys items) ->
    (forall k, In k (od_keys items) -> od_get k acc = None) ->
    Forall (fun item : string * loc => item.2 < length h) items ->
    copy_all items h acc
    = (h ++ map (fun item : string * loc => ODict (dict_at h item.2)) items,
       acc ++ combine (od_keys items) (seq (length h) (length items))).
Proof.
  unfold od_keys.
  induction items as [|[s data] items IH]; intros h acc Hnd Hacc Hvalid; simpl.
  - rewrite !app_nil_r. reflexivity.
  - inversion Hnd as [|? ? Hs Hnd']; subst.
    inversion Hvalid as [|? ? Hdata Hvalid']; subst. simpl in Hdata.
    unfold alloc.
    rewrite od_set_new by (apply Hacc; left; reflexivity).
    rewrite IH.
    + rewrite length_app. simpl. rewrite Nat.add_1_r, <- !app_assoc. simpl.
      f_equal. f_equal. f_equal.
      apply map_ext_in. intros [s' i] Hin. simpl.
      rewrite List.Forall_forall in Hvalid'. specialize (Hvalid' _ Hin). simpl in Hvalid'.
      unfold dict_at. rewrite lookup_app_l by exact Hvalid'. reflexivity.
    + exact Hnd'.
    + intros k Hk.
      assert (Hks : k <> s) by (intros ->; exact (Hs Hk)).
      rewrite <- (od_set_new s (length h) acc) by (apply Hacc; left; reflexivity).
      rewrite od_get_od_set_ne by exact Hks. apply Hacc. right. exact Hk.
    + eapply List.Forall_impl; [|exact Hvalid']. intros a Ha.
      rewrite length_app. simpl in *. lia.
Qed.

Lemma lookup_map_Some {A B : Type} (f : A -> B) (l : list A) (i : nat) (x : A) :
  l !! i = Some x -> map f l !! i = Some (f x).
Proof.
  revert i. induction l as [|a l IH]; intros [|i] Hi; try discriminate; simpl in *.
  - injection Hi as ->. reflexivity.
  - apply IH. exact Hi.
Qed.

Lemma map_fst_combine_seq (keys : list string) (a : nat) :
  map fst (combine keys (seq a (length keys))) = keys.
Proof.
  revert a. induction keys as [|k keys IH]; intros a; simpl; [reflexivity|].
  rewrite IH. reflexivity.
Qed.

Lemma od_get_combine_seq (keys : list string) (a : nat) (k : string) (i : nat) :
  List.NoDup keys -> keys !! i = Some k ->
  od_get k (combine keys (seq a (length keys))) = Some (a + i).
Proof.
  revert a i. induction keys as [|k0 keys IH]; intros a i Hnd Hi; [discriminate|].
  inversion Hnd as [|? ? Hk0 Hnd']; subst. simpl.
  destruct i as [|i]; simpl in Hi.
  - injection Hi as ->. rewrite String.eqb_refl. f_equal. lia.
  - destruct (String.eqb k k0) eqn:E.
    + apply String.eqb_eq in E. subst k0. exfalso. apply Hk0.
      apply list_elem_of_In, list_elem_of_lookup. eauto.
    + rewrite (IH (S a) i Hnd' Hi). f_equal. lia.
Qed.

(** X6.  [get_all_tickers] returns a new dict with the symbols of the
    repository, in the repository's order, each with a new dict holding
    the entries of the symbol's dict. *)
Theorem get_all_tickers_complete (w : world) :
  inv w ->
  exists w1 l,
    get_all_tickers w = (w1, l)
    /\ od_keys (dict_at (objects w1) l) = od_keys (_ticker_data (self w))
    /\ forall s,
         match od_get s (_ticker_data (self w)) with
         | None => od_get s (dict_at (objects w1) l) = None
         | Some inner =>
             exists c, od_get s (dict_at (objects w1) l) = Some c
                       /\ length (objects w) <= c
                       /\ dict_at (objects w1) c = dict_at (objects w) inner
         end.
Proof.
  intros (Hwf & Hkeys & _ & _). unfold get_all_tickers.
  rewrite (copy_all_fresh _ (objects w) [] Hkeys (fun _ _ => eq_refl) (wf_valid _ Hwf)).
  simpl. eexists. eexists. split; [reflexivity|]. simpl.
  set (td := _ticker_data (self w)) in *.
  set (h := objects w).
  set (copies := map (fun item : string * loc => ODict (dict_at h item.2)) td).
  set (d := combine (od_keys td) (seq (length h) (length td))).
  assert (Hd : dict_at ((h ++ copies) ++ [ODict d]) (length (h ++ copies)) = d).
  { unfold dict_at. rewrite list_lookup_middle by reflexivity. reflexivity. }
  rewrite Hd.
  assert (Hdk : od_keys d = od_keys td).
  { unfold d, od_keys. rewrite <- (length_map fst td).
    apply map_fst_combine_seq. }
  split; [exact Hdk|].
  intros s. destruct (od_get s td) as [inner|] eqn:Hget.
  - pose proof (od_get_In _ _ _ Hget) as Hin.
    apply list_elem_of_In, list_elem_of_lookup in Hin as [i Hi].
    assert (Hki : od_keys td !! i = Some s).
    { unfold od_keys. exact (lookup_map_Some fst _ _ _ Hi). }
    exists (length h + i). split; [|split; [lia|]].
    + unfold d. rewrite <- (length_map fst td).
      apply od_get_combine_seq; assumption.
    + unfold dict_at at 1.
      rewrite lookup_app_l
        by (rewrite length_app; unfold copies; rewrite length_map;
            apply lookup_lt_Some in Hi; lia).
      rewrite lookup_app_r by lia.
      replace (length h + i - length h) with i by lia.
      unfold copies. rewrite (lookup_map_Some _ _ _ _ Hi). reflexivity.
  - destruct (od_get s d) as [c|] eqn:Hc; [|reflexivity].
    exfalso. apply od_get_In in Hc.
    apply (od_get_None_keys _ _ Hget). rewrite <- Hdk.
    unfold od_keys. apply in_map_iff. exists (s, c). auto.
Qed.

(** X6, witness: the repository with the one entry ("BTC/USDT", "X"). *)
Lemma get_all_tickers_complete_witness :
  inv one_entry
  /\ exists w1 l,
       get_all_tickers one_entry = (w1, l)
       /\ od_keys (dict_at (objects w1) l) = ["BTC/USDT"%string].
Proof.
  assert (Hinv : inv one_entry).
  { split; [exact wf_one_entry|]. repeat split; repeat constructor; vm_compute; tauto. }
  split; [exact Hinv|].
  destruct (get_all_tickers_complete one_entry Hinv) as (w1 & l & Hget & Hkeys & _).
  exists w1, l. split; [exact Hget|exact Hkeys].
Defined.

(** ** The detector's edge cases *)

Lemma ordered_pairs_short (n : nat) : n <= 1 -> ordered_pairs n = [].
Proof. intros Hn. destruct n as [|[|n]]; [reflexivity|reflexivity|lia]. Qed.

Lemma pairs_row_length (i n a : nat) :
  length (flat_map (fun j => if Nat.eqb i j then [] else [(i, j)]) (seq a n))
  = if (a <=? i)%nat && (i <? a + n)%nat then n - 1 else n.
Proof.
  revert a. induction n as [|n IH]; intros a.
  - cbn [seq flat_map length].
    destruct (Nat.leb_spec a i); destruct (Nat.ltb_spec i (a + 0)); cbn [andb]; lia.
  - cbn [seq flat_map]. rewrite length_app, IH.
    destruct (Nat.eqb_spec i a) as [E|Hne];
    destruct (Nat.leb_spec (S a) i); destruct (Nat.ltb_spec i (S a + n));
    destruct (Nat.leb_spec a i); destruct (Nat.ltb_spec i (a + S n));
    cbn [andb length]; lia.
Qed.

Lemma ordered_pairs_length (n : nat) : length (ordered_pairs n) = n * (n - 1).
Proof.
  unfold ordered_pairs.
  assert (H : forall l : list nat,
            (forall i, In i l -> i < n) ->
            length (flat_map
                      (fun i => flat_map (fun j => if Nat.eqb i j then [] else [(i, j)])
                                         (seq 0 n)) l)
            = length l * (n - 1)).
  { induction l as [|i l IH]; intros Hl; simpl; [reflexivity|].
    rewrite length_app, IH by (intros j Hj; apply Hl; right; exact Hj).
    rewrite pairs_row_length.
    assert (Hi : i < n) by (apply Hl; left; reflexivity).
    destruct (Nat.leb_spec 0 i); [|lia].
    destruct (Nat.ltb_spec i (0 + n)); simpl; lia. }
  rewrite H by (intros i Hi; apply in_seq in Hi; lia).
  rewrite length_seq. reflexivity.
Qed.

Lemma length_omap_le {A B : Type} (f : A -> option B) (l : list A) :
  length (omap f l) <= length l.
Proof.
  induction l as [|x l IH]; [reflexivity|].
  change (omap f (x :: l))
    with (match f x with Some y => y :: omap f l | None => omap f l end).
  destruct (f x); cbn [length]; lia.
Qed.

Lemma leb_is_number_l (m x : float) : (m <=? x)%float = true -> is_number m.
Proof.
  rewrite FloatAxioms.leb_spec, is_number_cmp. unfold SFleb.
  destruct (SFcompare (Prim2SF m) (Prim2SF x)) as [c|] eqn:E; [|discriminate].
  intros _. pose proof (SFcompare_swap (Prim2SF m) (Prim2SF x)) as Hs.
  rewrite E in Hs. exact (SFcompare_self _ _ _ Hs).
Qed.

(** X7.  With fewer than two active exchanges the detector reports
    nothing; with [n] of them it reports at most [n * (n - 1)]
    opportunities.  Every reported [profit_percent] is a number (not
    [nan]) that is at least the threshold, so a threshold that is [nan]
    gives an empty result. *)
Theorem detector_bounds now sym m w std_symbol :
  _standardize_symbol sym = Ok std_symbol ->
  exists w' res,
    get_arbitrage_opportunities now sym m w = Ok (w', res)
    /\ length res
       <= length (active_entries now std_symbol w)
          * (length (active_entries now std_symbol w) - 1)
    /\ (length (active_entries now std_symbol w) <= 1 -> res = [])
    /\ (forall o, In o res ->
          fge (profit_percent o) m = true /\ is_number (profit_percent o)
          /\ symbol o = std_symbol)
    /\ (~ is_number m -> res = []).
Proof.
  intros Hstd.
  destruct (get_arbitrage_opportunities_returns now sym m w _ Hstd)
    as (w' & Hret & _).
  set (active := active_entries now std_symbol w) in *.
  set (enc := encountered std_symbol (objects w) active m) in *.
  exists w', (sort_desc enc). split; [exact Hret|].
  assert (Hlen : length (sort_desc enc) = length enc)
    by (apply Permutation_length, sort_desc_perm).
  assert (Hprop : forall o, In o (sort_desc enc) ->
            fge (profit_percent o) m = true /\ is_number (profit_percent o)
            /\ symbol o = std_symbol).
  { intros o Ho. eapply Permutation_in in Ho; [|apply sort_desc_perm].
    apply elem_of_encountered in Ho as (i & j & _ & Hq).
    destruct Hq as (_ & _ & _ & _ & _ & _ & _ & Hge & Hsym).
    split; [exact Hge|]. split; [exact (leb_is_number _ _ Hge)|exact Hsym]. }
  split; [|split; [|split]].
  - rewrite Hlen. unfold enc, encountered.
    etransitivity; [apply length_omap_le|]. rewrite ordered_pairs_length. lia.
  - intros Hshort.
    assert (Henc : enc = []).
    { unfold enc, encountered. rewrite ordered_pairs_short by exact Hshort.
      reflexivity. }
    rewrite Henc. reflexivity.
  - exact Hprop.
  - intros Hnan. destruct (sort_desc enc) as [|o res] eqn:E; [reflexivity|].
    exfalso. apply Hnan.
    destruct (Hprop o (or_introl eq_refl)) as [Hge _].
    exact (leb_is_number_l _ _ Hge).
Qed.

(** X7, witness: one stored exchange gives no opportunity. *)
Lemma detector_bounds_witness :
  _standardize_symbol (Some "BTC/USDT"%string) = Ok "BTC/USDT"%string
  /\ exists w',
       get_arbitrage_opportunities 1001 (Some "BTC/USDT"%string) 0.5 one_entry
       = Ok (w', []).
Proof.
  split; [reflexivity|].
  destruct (detector_bounds 1001%float (Some "BTC/USDT"%string) 0.5%float one_entry
              "BTC/USDT"%string eq_refl) as (w' & res & Hret & _ & Hshort & _).
  exists w'. rewrite Hret. rewrite Hshort; [reflexivity|].
  vm_compute. lia.
Defined.

(** ** When the standardizer raises *)

Lemma upper_char_slash (a : ascii) :
  Ascii.eqb (upper_char a) "/" = Ascii.eqb a "/".
Proof. destruct a as [[] [] [] [] [] [] [] []]; reflexivity. Qed.

Lemma upper_char_dash (a : ascii) :
  Ascii.eqb (upper_char a) "-" = Ascii.eqb a "-".
Proof. destruct a as [[] [] [] [] [] [] [] []]; reflexivity. Qed.

Lemma count_char_upper (c : ascii) (s : string) :
  (forall a, Ascii.eqb (upper_char a) c = Ascii.eqb a c) ->
  count_char c (upper s) = count_char c s.
Proof.
  intros Hc. induction s as [|a s IH]; [reflexivity|].
  cbn [upper count_char]. rewrite Hc, IH. reflexivity.
Qed.

Lemma contains_char (c : ascii) (s : string) :
  contains (String c EmptyString) s = negb (Nat.eqb (count_char c s) 0).
Proof.
  induction s as [|a s IH]; [reflexivity|].
  cbn [contains count_char String.prefix]. rewrite IH.
  destruct (ascii_dec c a) as [->|Hne].
  - rewrite Ascii.eqb_refl. destruct s; reflexivity.
  - assert (E : Ascii.eqb a c = false)
      by (apply Ascii.eqb_neq; intros ->; apply Hne; reflexivity).
    rewrite E. reflexivity.
Qed.

Lemma split_length (c : ascii) (s : string) :
  length (split c s) = S (count_char c s).
Proof.
  induction s as [|a s IH]; [reflexivity|].
  cbn [split count_char]. destruct (Ascii.eqb a c).
  - cbn [length]. rewrite IH. reflexivity.
  - destruct (split c s) as [|p ps]; [discriminate IH|exact IH].
Qed.

Lemma standardize_result (s : string) :
  _standardize_symbol (Some s)
  = if negb (Nat.eqb (count_char "/" s) 0) then Ok (upper s)
    else if negb (Nat.eqb (count_char "-" s) 0) then
      match split "-" (upper s) with
      | [base; quote] => Ok (base ++ "/" ++ quote)%string
      | _ => Raise ValueError
      end
    else if String.eqb (upper s) "BTCUSDT" then Ok "BTC/USDT"%string
    else if String.eqb (upper s) "BTCUSD" then Ok "BTC/USD"%string
    else if contains "BTC" (upper s)
            && (contains "USDT" (upper s) || contains "USD" (upper s)) then
      if contains "USDT" (upper s) then Ok "BTC/USDT"%string
      else Ok "BTC/USD"%string
    else Ok (upper s).
Proof.
  unfold _standardize_symbol. cbv zeta.
  rewrite !contains_char.
  rewrite (count_char_upper "/" s upper_char_slash).
  rewrite (count_char_upper "-" s upper_char_dash).
  reflexivity.
Qed.

Lemma standardize_raise_cases (s : string) (e : exn) :
  _standardize_symbol (Some s) = Raise e
  <-> e = ValueError /\ count_char "/" s = 0 /\ 2 <= count_char "-" s.
Proof.
  rewrite standardize_result.
  pose proof (split_length "-" (upper s)) as Hlen.
  rewrite (count_char_upper "-" s upper_char_dash) in Hlen.
  destruct (count_char "/" s) as [|n]; cbn [Nat.eqb negb].
  2:{ split; [discriminate|]. intros (_ & H & _). discriminate H. }
  destruct (count_char "-" s) as [|[|k]]; cbn [Nat.eqb negb].
  - split; [|intros (_ & _ & H); lia].
    repeat match goal with
           | |- context [if ?c then _ else _] => destruct c
           end; discriminate.
  - destruct (split "-" (upper s)) as [|base [|quote [|? ?]]]; try discriminate.
    split; [discriminate|]. intros (_ & _ & H). lia.
  - destruct (split "-" (upper s)) as [|base [|quote [|? ?]]]; try discriminate.
    split.
    + intros [= <-]. split; [reflexivity|]. split; [reflexivity|lia].
    + intros (-> & _). reflexivity.
Qed.

(** X8.  The standardizer raises exactly on the strings that have no '/'
    and at least two '-', and what it raises is [ValueError]; on every
    other string, and on [None], it returns. *)
Theorem standardize_raises_iff (s : string) (e : exn) :
  (_standardize_symbol (Some s) = Raise e
   <-> e = ValueError /\ count_char "/" s = 0 /\ 2 <= count_char "-" s)
  /\ (forall r, _standardize_symbol None <> Raise r).
Proof.
  split; [apply standardize_raise_cases|intros r; discriminate].
Qed.

Lemma standardize_Ok_upper (x : option string) (r : string) :
  _standardize_symbol x = Ok r -> upper r = r.
Proof.
  destruct x as [s|]; [|intros [= <-]; reflexivity].
  unfold _standardize_symbol. cbv zeta.
  pose proof (upper_idem s) as Hu. set (u := upper s) in *.
  destruct (contains "/" u); [intros [= <-]; exact Hu|].
  destruct (contains "-" u).
  { pose proof (split_upper "-" u Hu) as Hparts.
    destruct (split "-" u) as [|base [|quote [|? ?]]]; try discriminate.
    intros [= <-].
    inversion Hparts as [|? ? Hb Hrest]; subst.
    inversion Hrest as [|? ? Hq _]; subst.
    rewrite !upper_app, Hb, Hq. reflexivity. }
  destruct (String.eqb u "BTCUSDT"); [intros [= <-]; reflexivity|].
  destruct (String.eqb u "BTCUSD"); [intros [= <-]; reflexivity|].
  destruct (contains "BTC" u && (contains "USDT" u || contains "USD" u)).
  { destruct (contains "USDT" u); intros [= <-]; reflexivity. }
  intros [= <-]. exact Hu.
Qed.

Lemma is_ascii_upper_char (c : ascii) :
  (nat_of_ascii (upper_char c) <? 128)%nat = (nat_of_ascii c <? 128)%nat.
Proof. destruct c as [[] [] [] [] [] [] [] []]; reflexivity. Qed.

Lemma is_ascii_upper (s : string) : is_ascii (upper s) = is_ascii s.
Proof.
  induction s as [|c s IH]; [reflexivity|].
  cbn [upper is_ascii]. rewrite is_ascii_upper_char, IH. reflexivity.
Qed.

Lemma is_ascii_app (a b : string) :
  is_ascii (a ++ b)%string = is_ascii a && is_ascii b.
Proof.
  induction a as [|c a IH]; [reflexivity|].
  change (is_ascii (String c (a ++ b)) = is_ascii (String c a) && is_ascii b).
  cbn [is_ascii]. rewrite IH, andb_assoc. reflexivity.
Qed.

Lemma is_ascii_split (sep : ascii) (u : string) :
  is_ascii u = true -> Forall (fun p => is_ascii p = true) (split sep u).
Proof.
  induction u as [|c u IH]; cbn [split is_ascii]; intros Hu.
  - repeat constructor.
  - apply andb_true_iff in Hu as [Hc Hu]. specialize (IH Hu).
    destruct (Ascii.eqb c sep).
    + constructor; [reflexivity|exact IH].
    + destruct (split sep u) as [|p ps].
      * repeat constructor. cbn [is_ascii]. rewrite Hc. reflexivity.
      * inversion IH as [|? ? Hp Hps]; subst.
        constructor; [|exact Hps]. cbn [is_ascii]. rewrite Hc, Hp. reflexivity.
Qed.

Lemma standardize_Ok_ascii (s r : string) :
  is_ascii s = true -> _standardize_symbol (Some s) = Ok r -> is_ascii r = true.
Proof.
  intros Hs. unfold _standardize_symbol. cbv zeta.
  assert (Hu : is_ascii (upper s) = true) by (rewrite is_ascii_upper; exact Hs).
  set (u := upper s) in *.
  destruct (contains "/" u); [intros [= <-]; exact Hu|].
  destruct (contains "-" u).
  { pose proof (is_ascii_split "-" u Hu) as Hparts.
    destruct (split "-" u) as [|base [|quote [|? ?]]]; try discriminate.
    intros [= <-].
    inversion Hparts as [|? ? Hb Hrest]; subst.
    inversion Hrest as [|? ? Hq _]; subst.
    rewrite !is_ascii_app, Hb, Hq. reflexivity. }
  destruct (String.eqb u "BTCUSDT"); [intros [= <-]; reflexivity|].
  destruct (String.eqb u "BTCUSD"); [intros [= <-]; reflexivity|].
  destruct (contains "BTC" u && (contains "USDT" u || contains "USD" u)).
  { destruct (contains "USDT" u); intros [= <-]; reflexivity. }
  intros [= <-]. exact Hu.
Qed.

(** X9.  On ASCII symbols the standardizer does not see the case of the
    letters, and what it returns is an ASCII string in upper case (it
    has no letter a-z). *)
Theorem standardize_upper_case (s : string) :
  is_ascii s = true ->
  _standardize_symbol (Some (upper s)) = _standardize_symbol (Some s)
  /\ forall r, _standardize_symbol (Some s) = Ok r ->
               is_ascii r = true /\ upper r = r.
Proof.
  intros Hs. split.
  - unfold _standardize_symbol. cbv zeta. rewrite upper_idem. reflexivity.
  - intros r Hr. split.
    + exact (standardize_Ok_ascii s r Hs Hr).
    + exact (standardize_Ok_upper _ _ Hr).
Qed.

(** X9, witness: "btc-usdt" and "BTC-USDT" give "BTC/USDT". *)
Lemma standardize_upper_case_witness :
  is_ascii "btc-usdt" = true
  /\ _standardize_symbol (Some "BTC-USDT"%string)
     = _standardize_symbol (Some "btc-usdt"%string)
  /\ upper "BTC/USDT" = "BTC/USDT"%string.
Proof.
  split; [reflexivity|].
  destruct (standardize_upper_case "btc-usdt"%string eq_refl) as [Hcase Hup].
  split; [exact Hcase|].
  exact (proj2 (Hup "BTC/USDT"%string eq_refl)).
Defined.

(** X10.  With a symbol that has no '/' and at least two '-', the three
    methods that take a symbol raise [ValueError]; so does the pump's
    call of [update_ticker] when the polled dict carries such a symbol
    and has a price: the cycle ends with the exception, the repository
    and the callback invocations as they were. *)
Theorem malformed_symbol_raises (s : string) :
  count_char "/" s = 0 -> 2 <= count_char "-" s ->
  (forall now exchange l w,
     update_ticker now (Some s) exchange l w = Raise ValueError)
  /\ (forall exchange w, get_ticker (Some s) exchange w = Raise ValueError)
  /\ (forall now m w,
        get_arbitrage_opportunities now (Some s) m w = Raise ValueError)
  /\ (forall now exchange_name l w,
        is_ticker (objects w) l ->
        t_symbol (ticker_at (objects w) l) = Some s ->
        none_or_zero (t_get "bid_price" (ticker_at (objects w) l)) = false ->
        exists w1,
          pump_cycle now exchange_name (Some l) w = (w1, Called (Raise ValueError))
          /\ self w1 = self w /\ calls w1 = calls w).
Proof.
  intros Hslash Hdash.
  assert (Hraise : _standardize_symbol (Some s) = Raise ValueError).
  { apply standardize_raise_cases. auto. }
  assert (Hs : truthy (Some s) = true).
  { destruct s; [cbn in Hdash; lia|reflexivity]. }
  split; [|split; [|split]].
  - intros. unfold update_ticker. rewrite Hraise. reflexivity.
  - intros. unfold get_ticker. rewrite Hraise. reflexivity.
  - intros. unfold get_arbitrage_opportunities. rewrite Hraise. reflexivity.
  - intros now exchange_name l w Hl Hsym Hbid.
    rewrite (pump_cycle_polled now exchange_name l w Hl). cbv zeta.
    set (t0 := ticker_at (objects w) l) in *.
    set (tk := if String.eqb exchange_name "KRAKEN-spot"
               then kraken_numeric (if symbol_missing t0
                                    then t_set_symbol "BTC/USD" t0 else t0)
               else t0).
    assert (Hmiss0 : symbol_missing t0 = false)
      by (unfold symbol_missing; rewrite Hsym, Hs; reflexivity).
    assert (Hsk : t_symbol tk = Some s).
    { unfold tk. destruct (String.eqb exchange_name "KRAKEN-spot"); [|exact Hsym].
      rewrite kraken_numeric_symbol, Hmiss0. exact Hsym. }
    assert (Hmissk : symbol_missing tk = false)
      by (unfold symbol_missing; rewrite Hsk, Hs; reflexivity).
    assert (Hne : t_nonempty tk = true)
      by (unfold t_nonempty; rewrite Hsk; reflexivity).
    rewrite Hne, Hmissk.
    assert (Hbidk : t_get "bid_price" (fill_required tk) = t_get "bid_price" t0).
    { pose proof (pump_prices exchange_name "bid_price" t0) as Hp.
      cbv zeta in Hp. fold tk in Hp. rewrite Hmissk in Hp. apply Hp.
      right. right. discriminate. }
    assert (Hnull : all_prices_null (fill_required tk) = false).
    { unfold all_prices_null. cbn [forallb]. rewrite Hbidk, Hbid.
      rewrite andb_false_r. reflexivity. }
    rewrite Hnull. unfold update_ticker. rewrite Hsk, Hraise.
    eexists. split; [reflexivity|]. split; reflexivity.
Qed.

(** X10, witness: the symbol "A-B-C", in a dict that carries it. *)
Lemma malformed_symbol_raises_witness :
  count_char "/" "A-B-C" = 0 /\ 2 <= count_char "-" "A-B-C"
  /\ get_ticker (Some "A-B-C"%string) None (init []) = Raise ValueError.
Proof.
  assert (H0 : count_char "/" "A-B-C" = 0) by reflexivity.
  assert (H2 : 2 <= count_char "-" "A-B-C") by (vm_compute; lia).
  split; [exact H0|]. split; [exact H2|].
  destruct (malformed_symbol_raises "A-B-C"%string H0 H2) as (_ & Hget & _).
  apply Hget.
Defined.

(** ** The pump, cycle by cycle *)

Lemma stored_insert_ticker (l : loc) (t : ticker) (w : world) (c : list call)
    (std_symbol exchange : string) :
  wf w -> is_ticker (objects w) l ->
  stored std_symbol exchange (World (<[l := OTicker t]> (objects w)) (self w) c)
  = stored std_symbol exchange w.
Proof.
  intros Hwf Hl. unfold stored. simpl.
  destruct (od_get std_symbol (_ticker_data (self w))) as [inner|] eqn:Hs;
    [|reflexivity].
  destruct (wf_lookup _ _ _ Hwf Hs) as (d & Hd & _).
  rewrite dict_at_insert_ne; [reflexivity|].
  intros ->. destruct Hl as [t' Ht]. congruence.
Qed.

(** X11.  Without data the cycle writes nothing: for every exchange but
    Kraken, [None] and the empty dict leave the state as it is.  For
    "KRAKEN-spot" the cycle makes a placeholder dict of [None] prices and
    skips the update; the repository and the dicts there were are as
    before. *)
Theorem pump_without_data now exchange_name w :
  (String.eqb exchange_name "KRAKEN-spot" = false ->
   pump_cycle now exchange_name None w = (w, Waiting)
   /\ forall l, objects w !! l = Some (OTicker empty_ticker) ->
                pump_cycle now exchange_name (Some l) w = (w, Waiting))
  /\ pump_cycle now "KRAKEN-spot" None w
     = (World (objects w ++ [OTicker kraken_placeholder]) (self w) (calls w),
        Skipped).
Proof.
  split.
  - intros E. split.
    + unfold pump_cycle. rewrite E. destruct w; reflexivity.
    + intros l Hl.
      assert (Ht : ticker_at (objects w) l = empty_ticker)
        by (unfold ticker_at; rewrite Hl; reflexivity).
      rewrite pump_cycle_no_last; [|eexists; exact Hl|rewrite Ht; reflexivity].
      cbv zeta. rewrite E, Ht. reflexivity.
  - unfold pump_cycle, kraken_fix, alloc.
    change (String.eqb "KRAKEN-spot" "KRAKEN-spot") with true.
    cbv beta iota zeta. fold kraken_placeholder.
    set (h := objects w).
    assert (Ht : ticker_at (h ++ [OTicker kraken_placeholder]) (length h)
                 = kraken_placeholder).
    { unfold ticker_at. rewrite list_lookup_middle by reflexivity. reflexivity. }
    rewrite Ht.
    assert (Hh : <[length h := OTicker kraken_placeholder]>
                   (h ++ [OTicker kraken_placeholder])
                 = h ++ [OTicker kraken_placeholder]).
    { rewrite insert_app_r_alt by lia. rewrite Nat.sub_diag. reflexivity. }
    change (symbol_missing kraken_placeholder) with false. cbv iota.
    assert (Hk : kraken_numeric kraken_placeholder = kraken_placeholder)
      by (vm_compute; reflexivity).
    rewrite Hk, Hh, Ht.
    change (t_nonempty kraken_placeholder) with true.
    change (symbol_missing kraken_placeholder) with false. cbv iota.
    assert (Hf : fill_required kraken_placeholder = kraken_placeholder)
      by (vm_compute; reflexivity).
    rewrite Hf, Hh.
    assert (Hn : all_prices_null kraken_placeholder = true)
      by (vm_compute; reflexivity).
    rewrite Hn. reflexivity.
Qed.

Lemma t_has_fill (f g : string) (t : ticker) :
  f = g \/ t_has f t = true ->
  t_has f (if t_has g t then t else t_set g None t) = true.
Proof.
  intros [<-|H].
  - destruct (t_has f t) eqn:E; [exact E|].
    unfold t_has, t_set. simpl. rewrite lookup_insert_eq. reflexivity.
  - destruct (t_has g t); [exact H|].
    unfold t_has, t_set in *. simpl.
    destruct (decide (g = f)) as [->|Hne].
    + rewrite lookup_insert_eq. reflexivity.
    + rewrite lookup_insert_ne by exact Hne. exact H.
Qed.

Lemma t_has_fill_required (t : ticker) :
  Forall (fun field => t_has field (fill_required t) = true)
         ["mark_price"; "bid_price"; "ask_price"; "volume_24h"]%string.
Proof.
  unfold fill_required. cbn [foldl].
  repeat constructor; repeat (apply t_has_fill; first [left; reflexivity | right]).
Qed.

(** X12.  Whenever a cycle of the pump has written, the repository holds
    the polled dict itself under the standardized symbol and the
    exchange's name, with the time of the write; the dict carries the
    standardized (upper-case) symbol and the four required fields, and
    one of its three prices is neither [None] nor 0. *)
Theorem pump_stores_complete_dict now exchange_name l w w' :
  wf w -> is_ticker (objects w) l ->
  pump_cycle now exchange_name (Some l) w = (w', Called (Ok tt)) ->
  exists std_symbol,
    _standardize_symbol (pump_symbol exchange_name (ticker_at (objects w) l))
    = Ok std_symbol
    /\ upper std_symbol = std_symbol
    /\ stored std_symbol exchange_name w' = Some l
    /\ last_written std_symbol exchange_name w' = Some now
    /\ t_symbol (ticker_at (objects w') l) = Some std_symbol
    /\ Forall (fun field => t_has field (ticker_at (objects w') l) = true)
              ["mark_price"; "bid_price"; "ask_price"; "volume_24h"]%string
    /\ ~ prices_null (ticker_at (objects w') l).
Proof.
  intros Hwf Hl. rewrite (pump_cycle_polled now exchange_name l w Hl). cbv zeta.
  set (t0 := ticker_at (objects w) l).
  set (kraken := String.eqb exchange_name "KRAKEN-spot").
  set (tk := if kraken
             then kraken_numeric (if symbol_missing t0
                                  then t_set_symbol "BTC/USD" t0 else t0)
             else t0).
  set (hk := if kraken then <[l := OTicker tk]> (objects w) else objects w).
  set (t1 := if symbol_missing tk
             then t_set_symbol (default_symbols exchange_name) tk else tk).
  set (w1 := World (<[l := OTicker (fill_required t1)]> hk) (self w) (calls w)).
  destruct (wf_pump_dict w l tk kraken Hwf Hl) as [Hwfk Hlk]. fold hk in Hwfk, Hlk.
  assert (Hwf1 : wf w1) by exact (wf_insert_ticker _ l _ (calls w) Hwfk Hlk).
  assert (Hl1 : is_ticker (objects w1) l) by (apply is_ticker_insert, Hlk).
  assert (Hsym : t_symbol t1 = pump_symbol exchange_name t0)
    by exact (pump_symbol_polled exchange_name t0).
  destruct (t_nonempty tk); [|discriminate].
  destruct (all_prices_null (fill_required t1)) eqn:Hnull; [discriminate|].
  destruct (_standardize_symbol (t_symbol t1)) as [std_symbol|e] eqn:Hstd.
  2:{ unfold update_ticker. rewrite Hstd. discriminate. }
  destruct (update_ticker_post now (t_symbol t1) exchange_name l w1 _ Hwf1 Hl1 Hstd)
    as (w2 & Hup & _ & Hst & Hlw & _ & _ & Hat & _).
  rewrite Hup. intros [= <-].
  exists std_symbol. rewrite <- Hsym.
  assert (Hat1 : ticker_at (objects w1) l = fill_required t1)
    by (apply ticker_at_insert_eq, (is_ticker_lt _ _ Hlk)).
  rewrite Hat, Hat1.
  split; [exact Hstd|]. split; [exact (standardize_Ok_upper _ _ Hstd)|].
  split; [exact Hst|]. split; [exact Hlw|]. split; [reflexivity|].
  split; [exact (t_has_fill_required t1)|].
  intros Hp. apply all_prices_null_iff in Hp.
  change (all_prices_null (fill_required t1) = true) in Hp. congruence.
Qed.

(** X12, witness: the dict of a Bybit adapter after a ticker message,
    polled into an empty repository. *)
Lemma pump_stores_complete_dict_witness :
  wf (init bybit_data) /\ is_ticker (objects (init bybit_data)) 0
  /\ exists w',
       pump_cycle 1000 "BYBIT-spot" (Some 0) (init bybit_data)
       = (w', Called (Ok tt))
       /\ stored "BTC/USDT" "BYBIT-spot" w' = Some 0
       /\ t_symbol (ticker_at (objects w') 0) = Some "BTC/USDT"%string.
Proof.
  assert (Hl : is_ticker (objects (init bybit_data)) 0) by (eexists; reflexivity).
  split; [exact (wf_init bybit_data)|]. split; [exact Hl|].
  exists (pump_cycle 1000 "BYBIT-spot" (Some 0) (init bybit_data)).1.
  assert (Hrun : pump_cycle 1000 "BYBIT-spot" (Some 0) (init bybit_data)
                 = ((pump_cycle 1000 "BYBIT-spot" (Some 0) (init bybit_data)).1,
                    Called (Ok tt)))
    by (vm_compute; reflexivity).
  split; [exact Hrun|].
  destruct (pump_stores_complete_dict 1000%float "BYBIT-spot"%string 0
              (init bybit_data) _ (wf_init bybit_data) Hl Hrun)
    as (std_symbol & Hstd & _ & Hst & _ & Hsym & _).
  assert (E : std_symbol = "BTC/USDT"%string).
  { vm_compute in Hstd. injection Hstd as <-. reflexivity. }
  rewrite E in Hst, Hsym. split; [exact Hst|exact Hsym].
Defined.

(** X13.  The pump's repair of a Kraken [mark_price]: when the polled
    dict has a [mark_price] that equals 0 and a ['last'] entry, the cycle
    leaves the dict with the value of ['last'] as its [mark_price] ([None]
    when ['last'] is [None]), however the cycle ends; for every other
    exchange the cycle leaves the [mark_price] as it was. *)
Theorem kraken_pump_repair now exchange_name l w x v :
  wf w -> is_ticker (objects w) l ->
  t_fields (ticker_at (objects w) l) !! "mark_price"%string = Some (Some x) ->
  is_zero x = true ->
  t_fields (ticker_at (objects w) l) !! "last"%string = Some v ->
  exists w' o,
    pump_cycle now exchange_name (Some l) w = (w', o)
    /\ mark_price (objects w') l
       = if String.eqb exchange_name "KRAKEN-spot" then v else Some x.
Proof.
  intros Hwf Hl Hm Hz Hlast.
  rewrite (pump_cycle_polled now exchange_name l w Hl). cbv zeta.
  set (t0 := ticker_at (objects w) l) in *.
  set (kraken := String.eqb exchange_name "KRAKEN-spot").
  set (tk := if kraken
             then kraken_numeric (if symbol_missing t0
                                  then t_set_symbol "BTC/USD" t0 else t0)
             else t0).
  set (hk := if kraken then <[l := OTicker tk]> (objects w) else objects w).
  set (t1 := if symbol_missing tk
             then t_set_symbol (default_symbols exchange_name) tk else tk).
  set (w1 := World (<[l := OTicker (fill_required t1)]> hk) (self w) (calls w)).
  destruct (wf_pump_dict w l tk kraken Hwf Hl) as [Hwfk Hlk]. fold hk in Hwfk, Hlk.
  assert (Hwf1 : wf w1) by exact (wf_insert_ticker _ l _ (calls w) Hwfk Hlk).
  assert (Hl1 : is_ticker (objects w1) l) by (apply is_ticker_insert, Hlk).
  assert (Htk : t_get "mark_price" tk = if kraken then v else Some x).
  { unfold tk. destruct kraken.
    - assert (Hk : forall t, t_fields t = t_fields t0 ->
                t_get "mark_price" (kraken_numeric t) = v).
      { intros t Ht. unfold kraken_numeric. rewrite Ht, Hm, Hz, Hlast.
        unfold t_get, t_set. simpl. rewrite lookup_insert_eq. reflexivity. }
      destruct (symbol_missing t0); apply Hk; reflexivity.
    - unfold t_get. rewrite Hm. reflexivity. }
  assert (Hk : ticker_at hk l = tk).
  { unfold hk. destruct kraken eqn:E.
    - apply ticker_at_insert_eq, (is_ticker_lt _ _ Hl).
    - reflexivity. }
  assert (Hat1 : ticker_at (objects w1) l = fill_required t1)
    by (apply ticker_at_insert_eq, (is_ticker_lt _ _ Hlk)).
  assert (Hm1 : t_get "mark_price" (fill_required t1)
                = if kraken then v else Some x).
  { unfold t1. rewrite t_get_fill_required, t_get_symbol_choice. exact Htk. }
  destruct (t_nonempty tk).
  2:{ eexists _, _. split; [reflexivity|]. unfold mark_price. simpl.
      rewrite Hk. exact Htk. }
  destruct (all_prices_null (fill_required t1)).
  { eexists _, _. split; [reflexivity|]. unfold mark_price.
    rewrite Hat1. exact Hm1. }
  destruct (_standardize_symbol (t_symbol t1)) as [std_symbol|e] eqn:Hstd.
  - destruct (update_ticker_post now (t_symbol t1) exchange_name l w1 _ Hwf1 Hl1 Hstd)
      as (w2 & Hup & _ & _ & _ & _ & _ & Hat & _).
    rewrite Hup. eexists _, _. split; [reflexivity|].
    unfold mark_price. rewrite Hat, Hat1. exact Hm1.
  - assert (Hup : update_ticker now (t_symbol t1) exchange_name l w1 = Raise e)
      by (unfold update_ticker; rewrite Hstd; reflexivity).
    rewrite Hup. eexists _, _. split; [reflexivity|].
    unfold mark_price. rewrite Hat1. exact Hm1.
Qed.

(** X13, witness: a Kraken dict with [mark_price] 0 and ['last'] 50000. *)
Lemma kraken_pump_repair_witness :
  wf (init kraken_zero_mark)
  /\ exists w' o,
       pump_cycle 1000 "KRAKEN-spot" (Some 0) (init kraken_zero_mark) = (w', o)
       /\ mark_price (objects w') 0 = Some 50000%float.
Proof.
  split; [exact (wf_init kraken_zero_mark)|].
  assert (Hl : is_ticker (objects (init kraken_zero_mark)) 0)
    by (eexists; reflexivity).
  assert (Hm : t_fields (ticker_at (objects (init kraken_zero_mark)) 0)
               !! "mark_price"%string = Some (Some 0%float))
    by (vm_compute; reflexivity).
  assert (Hlast : t_fields (ticker_at (objects (init kraken_zero_mark)) 0)
                  !! "last"%string = Some (Some 50000%float))
    by (vm_compute; reflexivity).
  exact (kraken_pump_repair 1000%float "KRAKEN-spot"%string 0
           (init kraken_zero_mark) 0%float (Some 50000%float)
           (wf_init kraken_zero_mark) Hl Hm eq_refl Hlast).
Defined.

(** ** From an adapter's message to the repository *)

Lemma fill_required_id (t : ticker) :
  Forall (fun field => t_has field t = true)
         ["mark_price"; "bid_price"; "ask_price"; "volume_24h"]%string ->
  fill_required t = t.
Proof.
  intros H.
  inversion H as [|? ? H1 H']; subst. inversion H' as [|? ? H2 H'']; subst.
  inversion H'' as [|? ? H3 H''']; subst. inversion H''' as [|? ? H4 _]; subst.
  unfold fill_required. cbn [foldl]. rewrite H1, H2, H3, H4. reflexivity.
Qed.

Lemma wf_app (w : world) (ext : store) (c : list call) :
  wf w -> wf (World (objects w ++ ext) (self w) c).
Proof.
  intros Hwf. unfold wf in *. simpl.
  eapply List.Forall_impl; [|exact Hwf].
  intros a (d & Hd & Hall). exists d. split.
  - rewrite lookup_app_l; [exact Hd|exact (lookup_lt_Some _ _ _ Hd)].
  - eapply List.Forall_impl; [|exact Hall]. intros e [t Ht]. exists t.
    rewrite lookup_app_l; [exact Ht|exact (lookup_lt_Some _ _ _ Ht)].
Qed.

Lemma stored_app (w : world) (ext : store) (c : list call)
    (std_symbol exchange : string) :
  wf w ->
  stored std_symbol exchange (World (objects w ++ ext) (self w) c)
  = stored std_symbol exchange w.
Proof.
  intros Hwf. unfold stored. simpl.
  destruct (od_get std_symbol (_ticker_data (self w))) as [inner|] eqn:Hs;
    [|reflexivity].
  destruct (wf_lookup _ _ _ Hwf Hs) as (d & Hd & _).
  unfold dict_at. rewrite lookup_app_l; [reflexivity|exact (lookup_lt_Some _ _ _ Hd)].
Qed.

Lemma ticker_at_app (h ext : store) (x : loc) :
  x < length h -> ticker_at (h ++ ext) x = ticker_at h x.
Proof. intros Hx. unfold ticker_at. rewrite lookup_app_l by exact Hx. reflexivity. Qed.

Lemma ticker_at_new (h : store) (t : ticker) :
  ticker_at (h ++ [OTicker t]) (length h) = t.
Proof. unfold ticker_at. rewrite list_lookup_middle by reflexivity. reflexivity. Qed.

Lemma insert_new (h : store) (o o' : obj) :
  <[length h := o']> (h ++ [o]) = h ++ [o'].
Proof. rewrite insert_app_r_alt by lia. rewrite Nat.sub_diag. reflexivity. Qed.

(** One cycle on a dict that an adapter has just made: a dict with a
    symbol and the four fields, and no ['last'] entry. *)
Lemma pump_cycle_new_dict now exchange_name w t s std_symbol :
  wf w ->
  t_symbol t = Some s -> truthy (Some s) = true ->
  Forall (fun field => t_has field t = true)
         ["mark_price"; "bid_price"; "ask_price"; "volume_24h"]%string ->
  t_fields t !! "last"%string = None ->
  _standardize_symbol (Some s) = Ok std_symbol ->
  let l := length (objects w) in
  let w0 := World (objects w ++ [OTicker t]) (self w) (calls w) in
  if all_prices_null t then
    pump_cycle now exchange_name (Some l) w0 = (w0, Skipped)
  else
    exists w2,
      pump_cycle now exchange_name (Some l) w0 = (w2, Called (Ok tt))
      /\ wf w2
      /\ stored std_symbol exchange_name w2 = Some l
      /\ last_written std_symbol exchange_name w2 = Some now
      /\ ticker_at (objects w2) l = t_set_symbol std_symbol t
      /\ calls w2
         = calls w ++ notifications std_symbol exchange_name l
                        (t_get "mark_price" t) w
      /\ forall x, is_ticker (objects w) x ->
                   ticker_at (objects w2) x = ticker_at (objects w) x.
Proof.
  intros Hwf Hsym Hs Hfields Hlast Hstd l w0.
  assert (Hwf0 : wf w0) by (apply wf_app, Hwf).
  assert (Hl0 : is_ticker (objects w0) l)
    by (exists t; apply list_lookup_middle; reflexivity).
  assert (Ht0 : ticker_at (objects w0) l = t) by apply ticker_at_new.
  assert (Hmiss : symbol_missing t = false)
    by (unfold symbol_missing; rewrite Hsym, Hs; reflexivity).
  rewrite (pump_cycle_no_last now exchange_name l w0 Hl0)
    by (rewrite Ht0; exact Hlast).
  cbv zeta. unfold pump_symbol. rewrite Ht0, Hmiss, (fill_required_id _ Hfields).
  rewrite (symbol_missing_nonempty _ Hmiss), orb_true_r.
  assert (Hw0 : World (<[l := OTicker t]> (objects w0)) (self w0) (calls w0) = w0)
    by (unfold w0, l; simpl; rewrite insert_new; reflexivity).
  rewrite Hw0, Hsym.
  destruct (all_prices_null t); [reflexivity|].
  destruct (update_ticker_post now (Some s) exchange_name l w0 _ Hwf0 Hl0 Hstd)
    as (w2 & Hup & Hwf2 & Hst & Hlw & Hcalls & _ & Hat & Hother & _).
  exists w2. rewrite Hup. split; [reflexivity|]. split; [exact Hwf2|].
  split; [exact Hst|]. split; [exact Hlw|].
  split; [rewrite Hat, Ht0; reflexivity|]. split.
  - rewrite Hcalls. unfold notifications, changed.
    assert (Hs0 : stored std_symbol exchange_name w0
                  = stored std_symbol exchange_name w)
      by exact (stored_app w [OTicker t] (calls w) std_symbol exchange_name Hwf).
    rewrite Hs0.
    change (calls w0) with (calls w). change (self w0) with (self w).
    f_equal.
    destruct (stored std_symbol exchange_name w) as [prev|] eqn:Hprev;
      [|reflexivity].
    pose proof (is_ticker_lt _ _ (wf_stored _ _ _ _ Hwf Hprev)) as Hlt.
    unfold mark_price. rewrite Ht0.
    change (objects w0) with (objects w ++ [OTicker t]).
    rewrite (ticker_at_app _ _ _ Hlt). reflexivity.
  - intros x Hx. pose proof (is_ticker_lt _ _ Hx) as Hlt.
    rewrite Hother.
    + apply ticker_at_app, Hlt.
    + unfold l. lia.
    + destruct Hx as [t' Hx]. exists t'.
      change (objects w0) with (objects w ++ [OTicker t]).
      rewrite lookup_app_l by exact Hlt. exact Hx.
Qed.

(** One cycle, for an exchange other than Kraken, on the dict that is
    stored for the exchange already. *)
Lemma pump_cycle_stored now exchange_name l w std_symbol :
  wf w -> String.eqb exchange_name "KRAKEN-spot" = false ->
  stored std_symbol exchange_name w = Some l ->
  _standardize_symbol (pump_symbol exchange_name (ticker_at (objects w) l))
  = Ok std_symbol ->
  match mark_price (objects w) l with
  | Some x => is_number x
  | None => True
  end ->
  exists w2 o,
    pump_cycle now exchange_name (Some l) w = (w2, o)
    /\ calls w2 = calls w
    /\ stored std_symbol exchange_name w2 = Some l
    /\ forall key, t_get key (ticker_at (objects w2) l)
                   = t_get key (ticker_at (objects w) l).
Proof.
  intros Hwf E Hst Hstd Hm.
  pose proof (wf_stored _ _ _ _ Hwf Hst) as Hl.
  pose proof (is_ticker_lt _ _ Hl) as Hlt.
  rewrite (pump_cycle_polled now exchange_name l w Hl). cbv zeta.
  pose proof (pump_symbol_polled exchange_name (ticker_at (objects w) l)) as Hsym.
  cbv zeta in Hsym. rewrite E in *.
  set (t0 := ticker_at (objects w) l) in *.
  set (t1 := if symbol_missing t0
             then t_set_symbol (default_symbols exchange_name) t0 else t0) in *.
  set (w1 := World (<[l := OTicker (fill_required t1)]> (objects w))
                   (self w) (calls w)).
  assert (Hwf1 : wf w1) by (apply wf_insert_ticker; assumption).
  assert (Hl1 : is_ticker (objects w1) l) by (apply is_ticker_insert, Hl).
  assert (Hat1 : ticker_at (objects w1) l = fill_required t1)
    by (apply ticker_at_insert_eq, Hlt).
  assert (Hget : forall key, t_get key (fill_required t1) = t_get key t0).
  { intros key. unfold t1. rewrite t_get_fill_required. apply t_get_symbol_choice. }
  assert (Hst1 : stored std_symbol exchange_name w1 = Some l).
  { unfold w1. rewrite stored_insert_ticker by assumption. exact Hst. }
  destruct (t_nonempty t0).
  2:{ exists w, Waiting. split; [destruct w; reflexivity|].
      split; [reflexivity|]. split; [exact Hst|]. reflexivity. }
  destruct (all_prices_null (fill_required t1)).
  { exists w1, Skipped. split; [reflexivity|].
    split; [reflexivity|]. split; [exact Hst1|].
    intros key. rewrite Hat1. apply Hget. }
  rewrite Hsym.
  destruct (update_ticker_post now (pump_symbol exchange_name t0) exchange_name l
              w1 _ Hwf1 Hl1 Hstd)
    as (w2 & Hup & _ & Hst2 & _ & Hcalls & _ & Hat & _).
  rewrite Hup. exists w2, (Called (Ok tt)). split; [reflexivity|].
  split; [|split; [exact Hst2|]].
  - rewrite Hcalls. unfold changed. rewrite Hst1.
    rewrite ne_self; [apply app_nil_r|].
    unfold mark_price in *. rewrite Hat1, Hget. exact Hm.
  - intros key. rewrite Hat, Hat1. apply Hget.
Qed.

Lemma ticker_dict_facts (s : string) (m b a v : num) :
  t_get "mark_price" (ticker_dict s m b a v) = m
  /\ t_get "bid_price" (ticker_dict s m b a v) = b
  /\ t_get "ask_price" (ticker_dict s m b a v) = a
  /\ t_get "volume_24h" (ticker_dict s m b a v) = v
  /\ t_fields (ticker_dict s m b a v) !! "last"%string = None
  /\ Forall (fun field => t_has field (ticker_dict s m b a v) = true)
            ["mark_price"; "bid_price"; "ask_price"; "volume_24h"]%string.
Proof.
  repeat split; try (vm_compute; reflexivity).
  repeat constructor; vm_compute; reflexivity.
Qed.

(** One cycle on a new dict [ticker_dict s m b a v]. *)
Lemma pump_cycle_ticker_dict now exchange_name w s std_symbol (m b a v : num) :
  wf w -> truthy (Some s) = true -> _standardize_symbol (Some s) = Ok std_symbol ->
  let l := length (objects w) in
  let w0 := World (objects w ++ [OTicker (ticker_dict s m b a v)])
                  (self w) (calls w) in
  if none_or_zero m && none_or_zero b && none_or_zero a then
    pump_cycle now exchange_name (Some l) w0 = (w0, Skipped)
  else
    exists w2,
      pump_cycle now exchange_name (Some l) w0 = (w2, Called (Ok tt))
      /\ stored std_symbol exchange_name w2 = Some l
      /\ last_written std_symbol exchange_name w2 = Some now
      /\ ticker_at (objects w2) l = ticker_dict std_symbol m b a v
      /\ calls w2 = calls w ++ notifications std_symbol exchange_name l m w
      /\ forall x, is_ticker (objects w) x ->
                   ticker_at (objects w2) x = ticker_at (objects w) x.
Proof.
  intros Hwf Hs Hstd l w0.
  destruct (ticker_dict_facts s m b a v) as (Hm & Hb & Ha & _ & Hlast & Hfields).
  pose proof (pump_cycle_new_dict now exchange_name w (ticker_dict s m b a v) s
                std_symbol Hwf eq_refl Hs Hfields Hlast Hstd) as H.
  cbv zeta in H. fold l in H. fold w0 in H.
  assert (Hnull : all_prices_null (ticker_dict s m b a v)
                  = none_or_zero m && none_or_zero b && none_or_zero a).
  { unfold all_prices_null. cbn [forallb]. rewrite Hm, Hb, Ha.
    rewrite andb_true_r, andb_assoc. reflexivity. }
  rewrite Hnull in H.
  destruct (none_or_zero m && none_or_zero b && none_or_zero a); [exact H|].
  destruct H as (w2 & Hrun & _ & Hst & Hlw & Hat & Hcalls & Hother).
  exists w2. rewrite Hm in Hcalls. repeat split; assumption.
Qed.

(** X14.  A Kraken message makes a new dict, with the ['last'] price as
    its [mark_price] (the handler's repair of a zero [mark_price] never
    changes it).  The pump's next cycle skips it when the ['last'], ['bid']
    and ['ask'] prices are all 0 or absent; otherwise it stores the dict
    for ("BTC/USD", "KRAKEN-spot") and the callbacks are invoked when no
    dict was stored for the key or the stored one has another
    [mark_price]. *)
Theorem kraken_message_to_repository now ws ticker w :
  wf w ->
  let last := number ticker "last" in
  let bid := number ticker "bid" in
  let ask := number ticker "ask" in
  let l := length (objects w) in
  let t := ticker_dict "BTC/USD" (Some last) (Some bid) (Some ask)
                       (Some (number ticker "volume")) in
  let w0 := World (objects w ++ [OTicker t]) (self w) (calls w) in
  Kraken.handle_message ws ticker (objects w) = (Adapter (Some l), objects w0)
  /\ if is_zero last && is_zero bid && is_zero ask then
       pump_cycle now "KRAKEN-spot" (get_data (Adapter (Some l))) w0 = (w0, Skipped)
     else
       exists w2,
         pump_cycle now "KRAKEN-spot" (get_data (Adapter (Some l))) w0
         = (w2, Called (Ok tt))
         /\ stored "BTC/USD" "KRAKEN-spot" w2 = Some l
         /\ last_written "BTC/USD" "KRAKEN-spot" w2 = Some now
         /\ ticker_at (objects w2) l = t
         /\ calls w2
            = calls w ++ notifications "BTC/USD" "KRAKEN-spot" l (Some last) w
         /\ forall x, is_ticker (objects w) x ->
                      ticker_at (objects w2) x = ticker_at (objects w) x.
Proof.
  intros Hwf last bid ask l t w0. split.
  - unfold Kraken.handle_message. cbv zeta. fold last bid ask. fold t.
    destruct (ticker_dict_facts "BTC/USD" (Some last) (Some bid) (Some ask)
                (Some (number ticker "volume"))) as (Hm & _).
    fold t in Hm. rewrite Hm.
    assert (Hdead : match ticker !! "last"%string with
                    | Some last0 =>
                        if is_zero last && float_truthy last0
                        then t_set "mark_price" (Some last0) t else t
                    | None => t
                    end = t).
    { destruct (ticker !! "last"%string) as [x|] eqn:L; [|reflexivity].
      assert (E : last = x) by (unfold last, number; rewrite L; reflexivity).
      rewrite E. unfold float_truthy. destruct (is_zero x); reflexivity. }
    rewrite Hdead. reflexivity.
  - exact (pump_cycle_ticker_dict now "KRAKEN-spot" w "BTC/USD" "BTC/USD"
             (Some last) (Some bid) (Some ask) (Some (number ticker "volume"))
             Hwf eq_refl eq_refl).
Qed.

(** X15.  A Huobi tick makes a new dict with the symbol "BTCUSDT" and the
    ['close'] price as its [mark_price].  The pump's next cycle skips it
    when the ['close'], ['bid'] and ['ask'] prices are all 0 or absent;
    otherwise it stores the dict for ("BTC/USDT", "HUOBI-spot"), with the
    symbol rewritten to "BTC/USDT", and the callbacks are invoked when no
    dict was stored for the key or the stored one has another
    [mark_price]. *)
Theorem huobi_tick_to_repository now ws tick w :
  wf w ->
  let close := number tick "close" in
  let bid := number tick "bid" in
  let ask := number tick "ask" in
  let l := length (objects w) in
  let t := ticker_dict "BTCUSDT" (Some close) (Some bid) (Some ask)
                       (Some (number tick "amount")) in
  let w0 := World (objects w ++ [OTicker t]) (self w) (calls w) in
  Huobi.handle_tick ws tick (objects w) = (Adapter (Some l), objects w0)
  /\ if is_zero close && is_zero bid && is_zero ask then
       pump_cycle now "HUOBI-spot" (get_data (Adapter (Some l))) w0 = (w0, Skipped)
     else
       exists w2,
         pump_cycle now "HUOBI-spot" (get_data (Adapter (Some l))) w0
         = (w2, Called (Ok tt))
         /\ stored "BTC/USDT" "HUOBI-spot" w2 = Some l
         /\ last_written "BTC/USDT" "HUOBI-spot" w2 = Some now
         /\ ticker_at (objects w2) l
            = ticker_dict "BTC/USDT" (Some close) (Some bid) (Some ask)
                          (Some (number tick "amount"))
         /\ calls w2
            = calls w ++ notifications "BTC/USDT" "HUOBI-spot" l (Some close) w
         /\ forall x, is_ticker (objects w) x ->
                      ticker_at (objects w2) x = ticker_at (objects w) x.
Proof.
  intros Hwf close bid ask l t w0. split; [reflexivity|].
  exact (pump_cycle_ticker_dict now "HUOBI-spot" w "BTCUSDT" "BTC/USDT"
           (Some close) (Some bid) (Some ask) (Some (number tick "amount"))
           Hwf eq_refl eq_refl).
Qed.

(** X16.  A Bitfinex message with fewer than 8 numbers changes nothing.
    With 8 or more it makes a new dict from the numbers at the positions
    6 (mark), 0 (bid), 2 (ask) and 7 (volume); the pump's next cycle skips
    the dict when the three prices are all 0, and otherwise stores it for
    ("BTC/USD", "BITFINEX-spot"), the callbacks being invoked when no dict
    was stored for the key or the stored one has another [mark_price]. *)
Theorem bitfinex_message_to_repository now ws (data : list float) w :
  wf w ->
  (length data < 8 -> Bitfinex.on_message ws data (objects w) = (ws, objects w))
  /\ (8 <= length data ->
      let l := length (objects w) in
      let t := ticker_dict "BTC/USD" (data !! 6%nat) (data !! 0%nat)
                           (data !! 2%nat) (data !! 7%nat) in
      let w0 := World (objects w ++ [OTicker t]) (self w) (calls w) in
      Bitfinex.on_message ws data (objects w) = (Adapter (Some l), objects w0)
      /\ (exists mark bid ask volume, 
            t = ticker_dict "BTC/USD" (Some mark) (Some bid) (Some ask)
                            (Some volume))
      /\ if none_or_zero (data !! 6%nat) && none_or_zero (data !! 0%nat)
            && none_or_zero (data !! 2%nat) then
           pump_cycle now "BITFINEX-spot" (get_data (Adapter (Some l))) w0
           = (w0, Skipped)
         else
           exists w2,
             pump_cycle now "BITFINEX-spot" (get_data (Adapter (Some l))) w0
             = (w2, Called (Ok tt))
             /\ stored "BTC/USD" "BITFINEX-spot" w2 = Some l
             /\ last_written "BTC/USD" "BITFINEX-spot" w2 = Some now
             /\ ticker_at (objects w2) l = t
             /\ calls w2
                = calls w ++ notifications "BTC/USD" "BITFINEX-spot" l
                               (data !! 6%nat) w
             /\ forall x, is_ticker (objects w) x ->
                          ticker_at (objects w2) x = ticker_at (objects w) x).
Proof.
  intros Hwf. split.
  - intros Hlen. unfold Bitfinex.on_message.
    destruct (Nat.leb_spec 8 (length data)); [lia|reflexivity].
  - intros Hlen l t w0. split; [|split].
    + unfold Bitfinex.on_message.
      destruct (Nat.leb_spec 8 (length data)); [reflexivity|lia].
    + unfold t.
      do 8 (destruct data as [|? data]; [simpl in Hlen; lia|]).
      simpl. eauto.
    + exact (pump_cycle_ticker_dict now "BITFINEX-spot" w "BTC/USD" "BTC/USD"
               (data !! 6%nat) (data !! 0%nat) (data !! 2%nat) (data !! 7%nat)
               Hwf eq_refl eq_refl).
Qed.

Lemma okx_first_dict (s : string) (m b a v : num) :
  t_set "volume_24h" v
    (t_set "ask_price" a
      (t_set "bid_price" b
        (t_set "mark_price" m (t_set_symbol s empty_ticker))))
  = ticker_dict s m b a v.
Proof. vm_compute. reflexivity. Qed.

Lemma t_get_t_set (key key' : string) (v : num) (t : ticker) :
  t_get key (t_set key' v t) = if decide (key' = key) then v else t_get key t.
Proof.
  unfold t_get, t_set. simpl. destruct (decide (key' = key)) as [->|Hne].
  - rewrite lookup_insert_eq. reflexivity.
  - rewrite lookup_insert_ne by exact Hne. reflexivity.
Qed.

(** X17.  The OKX handler makes its dict at the first message and writes
    into the same dict from then on.  The first dict goes the way of a
    new dict: skipped when the three prices are 0 or absent, stored for
    ("BTC/USDT", "OKX-spot") otherwise.  Once the dict is stored, a later
    message changes the stored prices in place, and the pump's next cycle
    invokes no callback, whatever the new ['last'] price is (a number). *)
Theorem okx_messages_to_repository now ws td w :
  wf w ->
  let last := number td "last" in
  let bid := number td "bidPx" in
  let ask := number td "askPx" in
  (data ws = None ->
   let l := length (objects w) in
   let t := ticker_dict "BTC-USDT" (Some last) (Some bid) (Some ask)
                        (Some (number td "vol24h")) in
   let w0 := World (objects w ++ [OTicker t]) (self w) (calls w) in
   OKX.handle_message ws td (objects w) = (Adapter (Some l), objects w0)
   /\ if is_zero last && is_zero bid && is_zero ask then
        pump_cycle now "OKX-spot" (get_data (Adapter (Some l))) w0 = (w0, Skipped)
      else
        exists w2,
          pump_cycle now "OKX-spot" (get_data (Adapter (Some l))) w0
          = (w2, Called (Ok tt))
          /\ stored "BTC/USDT" "OKX-spot" w2 = Some l
          /\ calls w2
             = calls w ++ notifications "BTC/USDT" "OKX-spot" l (Some last) w)
  /\ (forall l,
        data ws = Some l -> stored "BTC/USDT" "OKX-spot" w = Some l ->
        is_number last ->
        exists h1,
          OKX.handle_message ws td (objects w) = (Adapter (Some l), h1)
          /\ (forall x, x <> l -> h1 !! x = objects w !! x)
          /\ exists w2 o,
               pump_cycle now "OKX-spot" (get_data (Adapter (Some l)))
                 (World h1 (self w) (calls w)) = (w2, o)
               /\ calls w2 = calls w
               /\ stored "BTC/USDT" "OKX-spot" w2 = Some l
               /\ mark_price (objects w2) l = Some last
               /\ t_get "bid_price" (ticker_at (objects w2) l) = Some bid
               /\ t_get "ask_price" (ticker_at (objects w2) l) = Some ask).
Proof.
  intros Hwf last bid ask. split.
  - intros Hdata l t w0. split.
    + unfold OKX.handle_message, alloc. rewrite Hdata.
      rewrite ticker_at_new, okx_first_dict, insert_new. reflexivity.
    + pose proof (pump_cycle_ticker_dict now "OKX-spot" w "BTC-USDT" "BTC/USDT"
                    (Some last) (Some bid) (Some ask) (Some (number td "vol24h"))
                    Hwf eq_refl eq_refl) as H.
      cbv zeta in H. fold l t w0 in H.
      change (none_or_zero (Some last) && none_or_zero (Some bid)
              && none_or_zero (Some ask))
        with (is_zero last && is_zero bid && is_zero ask) in H.
      destruct (is_zero last && is_zero bid && is_zero ask); [exact H|].
      destruct H as (w2 & Hrun & Hst & _ & _ & Hcalls & _).
      exists w2. repeat split; assumption.
  - intros l Hdata Hst Hnum.
    pose proof (wf_stored _ _ _ _ Hwf Hst) as Hl.
    pose proof (is_ticker_lt _ _ Hl) as Hlt.
    unfold OKX.handle_message. rewrite Hdata.
    set (t := t_set "volume_24h" _ _).
    exists (<[l := OTicker t]> (objects w)). split; [reflexivity|].
    split; [intros x Hx; apply list_lookup_insert_ne; congruence|].
    set (w1 := World (<[l := OTicker t]> (objects w)) (self w) (calls w)).
    assert (Hwf1 : wf w1) by (apply wf_insert_ticker; assumption).
    assert (Hst1 : stored "BTC/USDT" "OKX-spot" w1 = Some l)
      by (unfold w1; rewrite stored_insert_ticker by assumption; exact Hst).
    assert (Hat1 : ticker_at (objects w1) l = t)
      by (apply ticker_at_insert_eq, Hlt).
    assert (Hm : t_get "mark_price" t = Some last)
      by (unfold t; rewrite !t_get_t_set; reflexivity).
    assert (Hb : t_get "bid_price" t = Some bid)
      by (unfold t; rewrite !t_get_t_set; reflexivity).
    assert (Ha : t_get "ask_price" t = Some ask)
      by (unfold t; rewrite !t_get_t_set; reflexivity).
    destruct (pump_cycle_stored now "OKX-spot" l w1 "BTC/USDT" Hwf1 eq_refl Hst1)
      as (w2 & o & Hrun & Hcalls & Hst2 & Hget).
    + rewrite Hat1. reflexivity.
    + unfold mark_price. rewrite Hat1, Hm. exact Hnum.
    + exists w2, o. split; [exact Hrun|]. split; [exact Hcalls|].
      split; [exact Hst2|]. unfold mark_price.
      rewrite !Hget, Hat1. repeat split; assumption.
Qed.

Lemma ne_self_null (m : num) : none_or_zero m = true -> ne m m = false.
Proof.
  destruct m as [x|]; [|reflexivity]. cbn [none_or_zero]. intros Hz.
  apply ne_self. apply (leb_is_number_l x 0%float).
  exact (proj1 (eqb_leb x 0%float Hz)).
Qed.

(** One cycle, for an exchange other than Kraken, on the dict that is
    stored for the exchange already: the callbacks are invoked only when
    the [mark_price] of the dict is [nan]. *)
Lemma pump_cycle_stored_calls now exchange_name l w std_symbol :
  wf w -> String.eqb exchange_name "KRAKEN-spot" = false ->
  stored std_symbol exchange_name w = Some l ->
  _standardize_symbol (pump_symbol exchange_name (ticker_at (objects w) l))
  = Ok std_symbol ->
  exists w2 o,
    pump_cycle now exchange_name (Some l) w = (w2, o)
    /\ calls w2
       = calls w
         ++ (if ne (mark_price (objects w) l) (mark_price (objects w) l)
             then map (fun cb => Call cb std_symbol exchange_name l)
                      (_update_callbacks (self w))
             else [])
    /\ stored std_symbol exchange_name w2 = Some l
    /\ forall key, t_get key (ticker_at (objects w2) l)
                   = t_get key (ticker_at (objects w) l).
Proof.
  intros Hwf E Hst Hstd.
  pose proof (wf_stored _ _ _ _ Hwf Hst) as Hl.
  pose proof (is_ticker_lt _ _ Hl) as Hlt.
  rewrite (pump_cycle_polled now exchange_name l w Hl). cbv zeta.
  pose proof (pump_symbol_polled exchange_name (ticker_at (objects w) l)) as Hsym.
  cbv zeta in Hsym. rewrite E in *. unfold mark_price.
  set (t0 := ticker_at (objects w) l) in *.
  set (t1 := if symbol_missing t0
             then t_set_symbol (default_symbols exchange_name) t0 else t0) in *.
  set (w1 := World (<[l := OTicker (fill_required t1)]> (objects w))
                   (self w) (calls w)).
  assert (Hwf1 : wf w1) by (apply wf_insert_ticker; assumption).
  assert (Hl1 : is_ticker (objects w1) l) by (apply is_ticker_insert, Hl).
  assert (Hat1 : ticker_at (objects w1) l = fill_required t1)
    by (apply ticker_at_insert_eq, Hlt).
  assert (Hget : forall key, t_get key (fill_required t1) = t_get key t0).
  { intros key. unfold t1. rewrite t_get_fill_required. apply t_get_symbol_choice. }
  assert (Hst1 : stored std_symbol exchange_name w1 = Some l).
  { unfold w1. rewrite stored_insert_ticker by assumption. exact Hst. }
  destruct (t_nonempty t0) eqn:Hne.
  2:{ exists w, Waiting. split; [destruct w; reflexivity|].
      assert (Hm : t_get "mark_price" t0 = None).
      { unfold t_nonempty in Hne. destruct (t_symbol t0); [discriminate|].
        apply negb_false_iff, bool_decide_eq_true in Hne.
        unfold t_get. rewrite Hne, lookup_empty. reflexivity. }
      rewrite Hm. cbn [ne]. rewrite app_nil_r.
      split; [reflexivity|]. split; [exact Hst|]. reflexivity. }
  destruct (all_prices_null (fill_required t1)) eqn:Hnull.
  { exists w1, Skipped. split; [reflexivity|].
    assert (Hm : ne (t_get "mark_price" t0) (t_get "mark_price" t0) = false).
    { apply ne_self_null. apply all_prices_null_iff in Hnull.
      destruct Hnull as (Hm & _). rewrite Hget in Hm. exact Hm. }
    rewrite Hm, app_nil_r.
    split; [reflexivity|]. split; [exact Hst1|].
    intros key. rewrite Hat1. apply Hget. }
  rewrite Hsym.
  destruct (update_ticker_post now (pump_symbol exchange_name t0) exchange_name l
              w1 _ Hwf1 Hl1 Hstd)
    as (w2 & Hup & _ & Hst2 & _ & Hcalls & _ & Hat & _).
  rewrite Hup. exists w2, (Called (Ok tt)). split; [reflexivity|].
  split; [|split; [exact Hst2|]].
  - rewrite Hcalls. unfold changed. rewrite Hst1.
    unfold mark_price. rewrite Hat1, Hget. reflexivity.
  - intros key. rewrite Hat, Hat1. apply Hget.
Qed.

(** X18.  The Bybit handlers write into the one dict the adapter has.
    Once that dict is stored for ("BTC/USDT", "BYBIT-spot"): a ticker
    message writes [mark_price] and [volume_24h] in place and keeps every
    other field; an order book message with a bid and an ask writes these
    two and keeps every other field, and one without a bid or without an
    ask changes nothing.  The pump's next cycle then leaves the dict
    stored and invokes no callback, whatever the new prices are - unless
    the [mark_price] is [nan], which differs from itself: then every
    callback is invoked.  (For the order book message the dict's symbol
    must still standardize to "BTC/USDT", as it does after every ticker
    message and after every write of the repository.) *)
Theorem bybit_messages_to_repository now ws w l :
  wf w -> data ws = Some l -> stored "BTC/USDT" "BYBIT-spot" w = Some l ->
  (forall last_price volume24h,
     exists w2 o,
       pump_cycle now "BYBIT-spot" (get_data ws)
         (World (handle_ticker_data ws last_price volume24h (objects w))
                (self w) (calls w)) = (w2, o)
       /\ calls w2
          = calls w
            ++ (if (last_price =? last_price)%float then []
                else map (fun cb => Call cb "BTC/USDT" "BYBIT-spot" l)
                         (_update_callbacks (self w)))
       /\ stored "BTC/USDT" "BYBIT-spot" w2 = Some l
       /\ mark_price (objects w2) l = Some last_price
       /\ t_get "volume_24h" (ticker_at (objects w2) l) = Some volume24h
       /\ forall key, key <> "mark_price"%string -> key <> "volume_24h"%string ->
                      t_get key (ticker_at (objects w2) l)
                      = t_get key (ticker_at (objects w) l))
  /\ (forall bids asks,
        _standardize_symbol (pump_symbol "BYBIT-spot" (ticker_at (objects w) l))
        = Ok "BTC/USDT"%string ->
        exists w2 o,
          pump_cycle now "BYBIT-spot" (get_data ws)
            (World (handle_orderbook_data ws bids asks (objects w))
                   (self w) (calls w)) = (w2, o)
          /\ calls w2
             = calls w
               ++ (if ne (mark_price (objects w) l) (mark_price (objects w) l)
                   then map (fun cb => Call cb "BTC/USDT" "BYBIT-spot" l)
                            (_update_callbacks (self w))
                   else [])
          /\ stored "BTC/USDT" "BYBIT-spot" w2 = Some l
          /\ match bids, asks with
             | best_bid :: _, best_ask :: _ =>
                 t_get "bid_price" (ticker_at (objects w2) l) = Some best_bid
                 /\ t_get "ask_price" (ticker_at (objects w2) l) = Some best_ask
                 /\ forall key,
                      key <> "bid_price"%string -> key <> "ask_price"%string ->
                      t_get key (ticker_at (objects w2) l)
                      = t_get key (ticker_at (objects w) l)
             | _, _ =>
                 forall key, t_get key (ticker_at (objects w2) l)
                             = t_get key (ticker_at (objects w) l)
             end).
Proof.
  intros Hwf Hdata Hst.
  pose proof (wf_stored _ _ _ _ Hwf Hst) as Hl.
  pose proof (is_ticker_lt _ _ Hl) as Hlt.
  assert (Hcycle : forall t,
            _standardize_symbol (pump_symbol "BYBIT-spot" t) = Ok "BTC/USDT"%string ->
            exists w2 o,
              pump_cycle now "BYBIT-spot" (Some l)
                (World (<[l := OTicker t]> (objects w)) (self w) (calls w))
              = (w2, o)
              /\ calls w2
                 = calls w
                   ++ (if ne (t_get "mark_price" t) (t_get "mark_price" t)
                       then map (fun cb => Call cb "BTC/USDT" "BYBIT-spot" l)
                                (_update_callbacks (self w))
                       else [])
              /\ stored "BTC/USDT" "BYBIT-spot" w2 = Some l
              /\ forall key, t_get key (ticker_at (objects w2) l) = t_get key t).
  { intros t Hstd.
    set (w1 := World (<[l := OTicker t]> (objects w)) (self w) (calls w)).
    assert (Hwf1 : wf w1) by (apply wf_insert_ticker; assumption).
    assert (Hst1 : stored "BTC/USDT" "BYBIT-spot" w1 = Some l)
      by (unfold w1; rewrite stored_insert_ticker by assumption; exact Hst).
    assert (Hat1 : ticker_at (objects w1) l = t)
      by (apply ticker_at_insert_eq, Hlt).
    destruct (pump_cycle_stored_calls now "BYBIT-spot" l w1 "BTC/USDT"
                Hwf1 eq_refl Hst1)
      as (w2 & o & Hrun & Hcalls & Hst2 & Hget).
    - rewrite Hat1. exact Hstd.
    - exists w2, o. split; [exact Hrun|]. unfold mark_price in Hcalls.
      rewrite Hat1 in Hcalls. split; [exact Hcalls|].
      split; [exact Hst2|]. intros key. rewrite Hget, Hat1. reflexivity. }
  unfold get_data. rewrite Hdata. split.
  - intros last_price volume24h. unfold handle_ticker_data. rewrite Hdata.
    set (t := t_set "volume_24h" _ _).
    assert (Hm : t_get "mark_price" t = Some last_price)
      by (unfold t; rewrite !t_get_t_set; reflexivity).
    destruct (Hcycle t eq_refl) as (w2 & o & Hrun & Hcalls & Hst2 & Hget).
    exists w2, o. split; [exact Hrun|]. split.
    { rewrite Hcalls, Hm. cbn [ne].
      destruct (last_price =? last_price)%float; reflexivity. }
    split; [exact Hst2|]. unfold mark_price. rewrite !Hget.
    split; [exact Hm|].
    split; [unfold t; rewrite !t_get_t_set; reflexivity|].
    intros key Hk1 Hk2. rewrite Hget. unfold t. rewrite !t_get_t_set.
    rewrite (decide_False (P := "volume_24h"%string = key))
      by (intros Eq; apply Hk2; symmetry; exact Eq).
    rewrite (decide_False (P := "mark_price"%string = key))
      by (intros Eq; apply Hk1; symmetry; exact Eq).
    reflexivity.
  - intros bids asks Hstd. unfold handle_orderbook_data. rewrite Hdata.
    assert (Hsame : exists w2 o,
              pump_cycle now "BYBIT-spot" (Some l)
                (World (objects w) (self w) (calls w)) = (w2, o)
              /\ calls w2
                 = calls w
                   ++ (if ne (mark_price (objects w) l) (mark_price (objects w) l)
                       then map (fun cb => Call cb "BTC/USDT" "BYBIT-spot" l)
                                (_update_callbacks (self w))
                       else [])
              /\ stored "BTC/USDT" "BYBIT-spot" w2 = Some l
              /\ forall key, t_get key (ticker_at (objects w2) l)
                             = t_get key (ticker_at (objects w) l)).
    { replace (World (objects w) (self w) (calls w)) with w
        by (destruct w; reflexivity).
      exact (pump_cycle_stored_calls now "BYBIT-spot" l w "BTC/USDT" Hwf eq_refl
               Hst Hstd). }
    destruct bids as [|best_bid bids]; [exact Hsame|].
    destruct asks as [|best_ask asks]; [exact Hsame|].
    set (t := t_set "ask_price" _ _).
    destruct (Hcycle t Hstd) as (w2 & o & Hrun & Hcalls & Hst2 & Hget).
    exists w2, o. split; [exact Hrun|]. split.
    { rewrite Hcalls. unfold t, mark_price. rewrite !t_get_t_set. reflexivity. }
    split; [exact Hst2|]. rewrite !Hget. unfold t.
    split; [rewrite !t_get_t_set; reflexivity|].
    split; [rewrite !t_get_t_set; reflexivity|].
    intros key Hk1 Hk2. rewrite Hget. unfold t. rewrite !t_get_t_set.
    rewrite (decide_False (P := "ask_price"%string = key))
      by (intros Eq; apply Hk2; symmetry; exact Eq).
    rewrite (decide_False (P := "bid_price"%string = key))
      by (intros Eq; apply Hk1; symmetry; exact Eq).
    reflexivity.
Qed.

(** ** The adapters' theorems at concrete messages *)

Lemma wf_stored_entry (exchange : string) : wf (stored_entry exchange).
Proof.
  repeat constructor. exists [(exchange, 0)]. split; [reflexivity|].
  repeat constructor. eexists. reflexivity.
Qed.

Lemma stored_stored_entry (exchange : string) :
  stored "BTC/USDT" exchange (stored_entry exchange) = Some 0.
Proof.
  unfold stored, stored_entry. cbn [self _ticker_data od_get objects].
  change (String.eqb "BTC/USDT" "BTC/USDT") with true. cbv iota.
  unfold dict_at. cbn. rewrite String.eqb_refl. reflexivity.
Qed.

(** X14, witness: a Kraken message into an empty repository with one
    callback is stored, and the callback is invoked. *)
Lemma kraken_message_to_repository_witness :
  wf (register_update_callback 7 (init []))
  /\ exists w2,
       pump_cycle 1000 "KRAKEN-spot" (Some 0)
         (World [OTicker (ticker_dict "BTC/USD" (Some 50000%float)
                            (Some 49999%float) (Some 50001%float)
                            (Some 12%float))]
                (self (register_update_callback 7 (init []))) [])
       = (w2, Called (Ok tt))
       /\ stored "BTC/USD" "KRAKEN-spot" w2 = Some 0
       /\ calls w2 = [Call 7 "BTC/USD" "KRAKEN-spot" 0].
Proof.
  assert (Hwf : wf (register_update_callback 7 (init []))) by constructor.
  split; [exact Hwf|].
  destruct (kraken_message_to_repository 1000%float (Adapter None) kraken_ticker
              (register_update_callback 7 (init [])) Hwf) as [_ H].
  assert (E : is_zero (number kraken_ticker "last")
              && is_zero (number kraken_ticker "bid")
              && is_zero (number kraken_ticker "ask") = false)
    by (vm_compute; reflexivity).
  rewrite E in H. destruct H as (w2 & Hrun & Hst & _ & _ & Hcalls & _).
  exists w2. split; [exact Hrun|]. split; [exact Hst|exact Hcalls].
Defined.

(** X15, witness: a Huobi tick into an empty repository. *)
Lemma huobi_tick_to_repository_witness :
  wf (init [])
  /\ exists w2,
       pump_cycle 1000 "HUOBI-spot" (Some 0)
         (World [OTicker (ticker_dict "BTCUSDT" (Some 50000%float)
                            (Some 49999%float) (Some 50001%float)
                            (Some 12%float))]
                (self (init [])) [])
       = (w2, Called (Ok tt))
       /\ stored "BTC/USDT" "HUOBI-spot" w2 = Some 0
       /\ t_symbol (ticker_at (objects w2) 0) = Some "BTC/USDT"%string.
Proof.
  split; [exact (wf_init [])|].
  destruct (huobi_tick_to_repository 1000%float (Adapter None) huobi_tick
              (init []) (wf_init [])) as [_ H].
  assert (E : is_zero (number huobi_tick "close")
              && is_zero (number huobi_tick "bid")
              && is_zero (number huobi_tick "ask") = false)
    by (vm_compute; reflexivity).
  rewrite E in H. destruct H as (w2 & Hrun & Hst & _ & Hat & _).
  exists w2. split; [exact Hrun|]. split; [exact Hst|].
  exact (f_equal t_symbol Hat).
Defined.

(** X16, witness: a Bitfinex message of ten numbers, and one of two. *)
Lemma bitfinex_message_to_repository_witness :
  wf (init [])
  /\ Bitfinex.on_message (Adapter None) bitfinex_data []
     = (Adapter (Some 0),
        [OTicker (ticker_dict "BTC/USD" (Some 50000%float) (Some 49999%float)
                    (Some 50001%float) (Some 12%float))])
  /\ Bitfinex.on_message (Adapter None) [1%float; 2%float] []
     = (Adapter None, []).
Proof.
  split; [exact (wf_init [])|].
  destruct (bitfinex_message_to_repository 1000%float (Adapter None)
              bitfinex_data (init []) (wf_init [])) as [_ Hlong].
  destruct (bitfinex_message_to_repository 1000%float (Adapter None)
              [1%float; 2%float] (init []) (wf_init [])) as [Hshort _].
  split.
  - assert (Hlen : 8 <= length bitfinex_data) by (vm_compute; lia).
    destruct (Hlong Hlen) as [H _]. exact H.
  - apply Hshort. simpl. lia.
Defined.

(** X17, witness: a second OKX message with another price, after the
    dict was stored; the callback 7 is registered and is not invoked. *)
Lemma okx_messages_to_repository_witness :
  wf (stored_entry "OKX-spot")
  /\ exists h1 w2 o,
       OKX.handle_message (Adapter (Some 0)) okx_ticker
         (objects (stored_entry "OKX-spot")) = (Adapter (Some 0), h1)
       /\ pump_cycle 1001 "OKX-spot" (Some 0)
            (World h1 (self (stored_entry "OKX-spot")) []) = (w2, o)
       /\ calls w2 = []
       /\ mark_price (objects w2) 0 = Some 50000%float.
Proof.
  split; [exact (wf_stored_entry "OKX-spot")|].
  destruct (okx_messages_to_repository 1001%float (Adapter (Some 0)) okx_ticker
              (stored_entry "OKX-spot") (wf_stored_entry "OKX-spot")) as [_ H].
  destruct (H 0 eq_refl (stored_stored_entry "OKX-spot") eq_refl)
    as (h1 & Hh & _ & w2 & o & Hrun & Hcalls & _ & Hm & _).
  exists h1, w2, o. split; [exact Hh|]. split; [exact Hrun|].
  split; [exact Hcalls|exact Hm].
Defined.

(** X18, witness: a Bybit ticker message with another price, after the
    dict was stored; the callback 7 is registered and is not invoked. *)
Lemma bybit_messages_to_repository_witness :
  wf (stored_entry "BYBIT-spot")
  /\ exists w2 o,
       pump_cycle 1001 "BYBIT-spot" (Some 0)
         (World (handle_ticker_data (Adapter (Some 0)) 50000 12
                   (objects (stored_entry "BYBIT-spot")))
                (self (stored_entry "BYBIT-spot")) []) = (w2, o)
       /\ calls w2 = []
       /\ mark_price (objects w2) 0 = Some 50000%float
       /\ t_get "volume_24h" (ticker_at (objects w2) 0) = Some 12%float.
Proof.
  split; [exact (wf_stored_entry "BYBIT-spot")|].
  destruct (bybit_messages_to_repository 1001%float (Adapter (Some 0))
              (stored_entry "BYBIT-spot") 0 (wf_stored_entry "BYBIT-spot")
              eq_refl (stored_stored_entry "BYBIT-spot")) as [H _].
  destruct (H 50000%float 12%float)
    as (w2 & o & Hrun & Hcalls & _ & Hm & Hv & _).
  exists w2, o. split; [exact Hrun|]. split; [exact Hcalls|].
  split; [exact Hm|exact Hv].
Defined.

(** ** The rows of the spreadsheet *)

Lemma update_cell_mapping (row col : nat) (value : string) (s : CryptoSpreadsheet) :
  symbol_exchange_row_mapping (update_cell row col value s)
  = symbol_exchange_row_mapping s.
Proof.
  unfold update_cell. destruct (entries s !! (row, col)) as [v|]; [|reflexivity].
  destruct (String.eqb v value); reflexivity.
Qed.

Lemma update_cell_free_rows (row col : nat) (value : string) (s : CryptoSpreadsheet) :
  free_rows (update_cell row col value s) = free_rows s.
Proof.
  unfold update_cell. destruct (entries s !! (row, col)) as [v|]; [|reflexivity].
  destruct (String.eqb v value); reflexivity.
Qed.

Lemma update_cell_current_row (row col : nat) (value : string)
    (s : CryptoSpreadsheet) :
  current_row (update_cell row col value s) = current_row s.
Proof.
  unfold update_cell. destruct (entries s !! (row, col)) as [v|]; [|reflexivity].
  destruct (String.eqb v value); reflexivity.
Qed.

(** What [get_row] does for a key that has no row. *)
Lemma get_row_new (symbol exchange : string) (s : CryptoSpreadsheet) :
  symbol_exchange_row_mapping s !! row_key symbol exchange = None ->
  exists s1,
    get_row symbol exchange s
    = (match free_rows s with row :: _ => row | [] => current_row s end, s1)
    /\ symbol_exchange_row_mapping s1
       = <[row_key symbol exchange :=
             match free_rows s with row :: _ => row | [] => current_row s end]>
           (symbol_exchange_row_mapping s)
    /\ free_rows s1
       = match free_rows s with _ :: rest => rest | [] => [current_row s] end
    /\ current_row s1
       = match free_rows s with _ :: _ => current_row s | [] => current_row s + 1 end.
Proof.
  intros Hnew. unfold get_row. rewrite Hnew.
  destruct (free_rows s) as [|row rest] eqn:Hfree.
  - unfold add_row. rewrite Hfree. cbv beta iota zeta.
    eexists. split; [reflexivity|].
    rewrite !update_cell_mapping, !update_cell_free_rows, !update_cell_current_row.
    repeat split; reflexivity.
  - cbv beta iota zeta. eexists. split; [reflexivity|].
    rewrite !update_cell_mapping, !update_cell_free_rows, !update_cell_current_row.
    repeat split; reflexivity.
Qed.

Lemma seq_rows (f : nat -> nat) (n : nat) :
  map f (seq 0 (S n)) = f 0 :: map (fun i => f (S i)) (seq 0 n).
Proof. cbn [seq map]. rewrite <- seq_shift, map_map. reflexivity. Qed.

Lemma get_rows_from (pairs : list (string * string)) :
  forall s,
    List.NoDup (map (fun p : string * string => row_key p.1 p.2) pairs) ->
    (forall p, In p pairs ->
               symbol_exchange_row_mapping s !! row_key p.1 p.2 = None) ->
    (get_rows pairs s).1
    = map (fun i => match free_rows s with
                    | row :: _ => row + (i + 1) / 2
                    | [] => current_row s + i / 2
                    end)
          (seq 0 (length pairs))
      \/ 2 <= length (free_rows s)
      \/ (exists row, free_rows s = [row] /\ row + 1 <> current_row s).
Proof.
  induction pairs as [|[symbol exchange] pairs IH]; intros s Hnd Hnew.
  { left. reflexivity. }
  destruct (free_rows s) as [|row [|row' rest]] eqn:Hfree;
    [| |right; left; simpl; lia].
  2:{ destruct (decide (row + 1 = current_row s)) as [Hrow|Hrow];
        [|right; right; exists row; auto].
      left.
      destruct (get_row_new symbol exchange s (Hnew _ (or_introl eq_refl)))
        as (s1 & Hget & Hmap & Hfree1 & Hcur).
      rewrite Hfree in Hget, Hmap, Hfree1, Hcur.
      cbn [get_rows]. rewrite Hget.
      inversion Hnd as [|? ? Hk Hnd']; subst.
      destruct (IH s1 Hnd') as [Hrows|[Hlen|(r & Hr & _)]].
      - intros p Hp. rewrite Hmap, lookup_insert_ne; [apply Hnew; right; exact Hp|].
        intros E. apply Hk. simpl. rewrite E.
        apply (in_map (fun p : string * string => row_key p.1 p.2)), Hp.
      - destruct (get_rows pairs s1) as [rows s2]. cbn [fst] in Hrows |- *.
        rewrite Hrows, Hfree1, Hcur, <- Hrow.
        cbn [length]. rewrite seq_rows. f_equal.
        + change ((0 + 1) / 2) with 0. lia.
        + apply map_ext. intros i.
          replace (S i + 1) with (i + 1 * 2) by lia.
          rewrite Nat.div_add by lia. lia.
      - rewrite Hfree1 in Hlen. simpl in Hlen. lia.
      - rewrite Hfree1 in Hr. discriminate. }
  left.
  destruct (get_row_new symbol exchange s (Hnew _ (or_introl eq_refl)))
    as (s1 & Hget & Hmap & Hfree1 & Hcur).
  rewrite Hfree in Hget, Hmap, Hfree1, Hcur.
  cbn [get_rows]. rewrite Hget.
  inversion Hnd as [|? ? Hk Hnd']; subst.
  destruct (IH s1 Hnd') as [Hrows|[Hlen|(r & Hr & Hne)]].
  - intros p Hp. rewrite Hmap, lookup_insert_ne; [apply Hnew; right; exact Hp|].
    intros E. apply Hk. simpl. rewrite E.
    apply (in_map (fun p : string * string => row_key p.1 p.2)), Hp.
  - destruct (get_rows pairs s1) as [rows s2]. cbn [fst] in Hrows |- *.
    rewrite Hrows, Hfree1.
    cbn [length]. rewrite seq_rows. f_equal.
    + change (0 / 2) with 0. lia.
    + apply map_ext. intros i.
      replace (S i) with (i + 1) by lia. reflexivity.
  - rewrite Hfree1 in Hlen. simpl in Hlen. lia.
  - rewrite Hfree1 in Hr. injection Hr as <-. lia.
Qed.

(** X19.  The rows of the spreadsheet are shared: asked for pairs of
    symbol and exchange with distinct keys, a new spreadsheet gives the
    rows 1, 1, 2, 2, 3, 3, ...: the pair at position [i] (from 0) gets the
    row [i / 2 + 1], which the pair before or after it has as well
    ([add_row] leaves the row it returns in [free_rows]). *)
Theorem get_row_shares_rows (pairs : list (string * string)) :
  List.NoDup (map (fun p : string * string => row_key p.1 p.2) pairs) ->
  (get_rows pairs new_sheet).1
  = map (fun i => i / 2 + 1) (seq 0 (length pairs)).
Proof.
  intros Hnd.
  destruct (get_rows_from pairs new_sheet Hnd) as [H|[H|(r & H & _)]].
  - intros p _. reflexivity.
  - rewrite H. apply map_ext. intros i. simpl. lia.
  - simpl in H. lia.
  - discriminate H.
Qed.

(** X19, witness: the rows that [run_with_repository] makes at the start;
    the two symbols of every exchange share a row. *)
Lemma get_row_shares_rows_witness :
  List.NoDup (map (fun p : string * string => row_key p.1 p.2) initial_pairs)
  /\ (get_rows initial_pairs new_sheet).1 = [1; 1; 2; 2; 3; 3; 4; 4; 5; 5].
Proof.
  assert (Hnd : List.NoDup
                  (map (fun p : string * string => row_key p.1 p.2) initial_pairs)).
  { apply NoDup_ListNoDup. apply (bool_decide_unpack _). vm_compute. exact I. }
  split; [exact Hnd|].
  exact (get_row_shares_rows initial_pairs Hnd).
Defined.
